(** * content-risk-control: the decision pipeline, embedded and verified

    A shallow embedding of the Go packages [model], [detector] and [service]
    of aa12gq/content-risk-control: the risk and result enums, the keyword
    detectors, the remote detectors with their fallback flag, the rule
    engine, the orchestrator ([doContentCheck], [CheckContent],
    [BatchCheckContent]) and the sensitive-word store.

    Conventions.
    - Go [string] is [String.string], a sequence of bytes; a Go source
      literal is the UTF-8 byte sequence of the same literal here.
    - Go [float32] is IEEE-754 binary32, taken from [SpecFloat] at
      precision 24 and maximal exponent 128.
    - Go [map[K]V] is [gmap K V]; a [range] over a map visits the entries in
      an order the Go runtime leaves unspecified, so every function that
      ranges over a map takes the visiting order as an argument.
    - A nil slice and an empty slice are both the empty list; a nil map and
      an empty map are both the empty [gmap]. *)

From Stdlib Require Import ZArith String Ascii SpecFloat DecimalString.
From stdpp Require Import gmap strings list fin_maps.

Local Open Scope string_scope.
Local Open Scope list_scope.
Local Open Scope Z_scope.

(** ** Go runtime pieces *)

(** [float32]: binary32 arithmetic, round to nearest even. *)
Module F32.
Definition prec : Z := 24.
Definition emax : Z := 128.
Definition t : Type := spec_float.

(** Conversion [float32(n)] of an integer, and of a decimal constant
    [m * 10^-k] written in the source (the nearest binary32 value). *)
Definition of_Z (n : Z) : t := binary_normalize prec emax n 0 false.
Definition mul (x y : t) : t := SFmul prec emax x y.
Definition add (x y : t) : t := SFadd prec emax x y.
Definition div (x y : t) : t := SFdiv prec emax x y.
Definition of_decimal (m : Z) (k : positive) : t :=
  div (of_Z m) (of_Z (Z.pow 10 (Zpos k))).
Definition ltb (x y : t) : bool := SFltb x y.
Definition leb (x y : t) : bool := SFleb x y.
(** Go's [x > y] and [x >= y]. *)
Definition gtb (x y : t) : bool := ltb y x.
Definition geb (x y : t) : bool := leb y x.
Definition zero : t := S754_zero false.

Definition eq_dec (x y : t) : {x = y} + {x <> y}.
Proof. repeat decide equality. Defined.
End F32.

#[global] Instance f32_eq_dec : EqDecision F32.t := F32.eq_dec.

(** Package [strings]. *)
Module strings.
Fixpoint HasPrefix (s prefix : string) : bool :=
  match prefix with
  | EmptyString => true
  | String c p' =>
      match s with
      | EmptyString => false
      | String d s' => Ascii.eqb c d && HasPrefix s' p'
      end
  end.

Fixpoint Contains (s substr : string) : bool :=
  HasPrefix s substr
  || match s with
     | EmptyString => false
     | String _ s' => Contains s' substr
     end.

(** [ToLower]: the ASCII letters [A]..[Z] are mapped to [a]..[z]. Go
    also maps the cased letters outside ASCII; the two agree on every
    string whose non-ASCII characters have no lower-case variant, which
    covers the CJK text used below. The bytes of a multi-byte UTF-8
    character are all at least 128 and are left alone. *)
Definition lower_byte (c : ascii) : ascii :=
  let n := N_of_ascii c in
  if ((65 <=? n) && (n <=? 90))%N then ascii_of_N (n + 32) else c.

Fixpoint ToLower (s : string) : string :=
  match s with
  | EmptyString => EmptyString
  | String c s' => String (lower_byte c) (ToLower s')
  end.

(** [string(rune(n))]: the UTF-8 encoding of code point [n]; the
    replacement character U+FFFD for surrogates and values out of
    range. *)
Definition string_of_rune (n : Z) : string :=
  let b (x : Z) := ascii_of_N (Z.to_N x) in
  if (n <? 0) || (1114111 <? n) || ((55296 <=? n) && (n <=? 57343)) then
    String (b 239) (String (b 191) (String (b 189) EmptyString))
  else if n <? 128 then String (b n) EmptyString
  else if n <? 2048 then
    String (b (192 + n / 64)) (String (b (128 + n mod 64)) EmptyString)
  else if n <? 65536 then
    String (b (224 + n / 4096))
      (String (b (128 + (n / 64) mod 64)) (String (b (128 + n mod 64)) EmptyString))
  else
    String (b (240 + n / 262144))
      (String (b (128 + (n / 4096) mod 64))
         (String (b (128 + (n / 64) mod 64)) (String (b (128 + n mod 64)) EmptyString))).

(** [TrimSpace] removes leading and trailing Unicode white space; the
    table lists the UTF-8 encodings of the white-space code points. *)
Definition byte (n : N) : ascii := ascii_of_N n.
Definition bytes (l : list N) : string :=
  fold_right (fun n s => String (byte n) s) EmptyString l.

Definition whiteSpace : list string :=
  List.map bytes
    [ [9]; [10]; [11]; [12]; [13]; [32]; [194; 133]; [194; 160];
      [225; 154; 128];
      [226; 128; 128]; [226; 128; 129]; [226; 128; 130]; [226; 128; 131];
      [226; 128; 132]; [226; 128; 133]; [226; 128; 134]; [226; 128; 135];
      [226; 128; 136]; [226; 128; 137]; [226; 128; 138];
      [226; 128; 168]; [226; 128; 169]; [226; 128; 175]; [226; 129; 159];
      [227; 128; 128] ]%N.

Fixpoint drop_bytes (n : nat) (s : string) : string :=
  match n, s with
  | O, _ => s
  | S n', String _ s' => drop_bytes n' s'
  | S _, EmptyString => EmptyString
  end.

Fixpoint rev_string (s acc : string) : string :=
  match s with
  | EmptyString => acc
  | String c s' => rev_string s' (String c acc)
  end.

(** Strips white space from the front, one character per unit of fuel. *)
Fixpoint trimLeft (table : list string) (fuel : nat) (s : string) : string :=
  match fuel with
  | O => s
  | S fuel' =>
      match List.find (fun w => HasPrefix s w) table with
      | Some w => trimLeft table fuel' (drop_bytes (String.length w) s)
      | None => s
      end
  end.

Definition newline : string := String "010"%char EmptyString.

Fixpoint Join (elems : list string) (sep : string) : string :=
  match elems with
  | [] => ""
  | [x] => x
  | x :: rest => x +:+ sep +:+ Join rest sep
  end.

Definition TrimSpace (s : string) : string :=
  let l := trimLeft whiteSpace (String.length s) s in
  let revTable := List.map (fun w => rev_string w EmptyString) whiteSpace in
  let r := trimLeft revTable (String.length l) (rev_string l EmptyString) in
  rev_string r EmptyString.
End strings.

(** Package [fmt]: the verbs used by the service. *)
Module fmt.
(** The double-quote character. *)
Definition dquote : string := String "034"%char EmptyString.

(** [%d]. *)
Definition itoa (n : Z) : string := NilZero.string_of_int (Z.to_int n).

(** [a / b] rounded to the nearest integer, ties to even ([0 < b]). *)
Definition round_half_even (a b : Z) : Z :=
  let q := a / b in
  let r := a mod b in
  if 2 * r <? b then q
  else if b <? 2 * r then q + 1
  else if Z.even q then q else q + 1.

(** [%.2f] of a [float32]: the exact binary value rounded to two
    decimals, ties to even. *)
Definition f2 (x : F32.t) : string :=
  let sign (s : bool) := if s then "-" else "" in
  match x with
  | S754_zero s => sign s +:+ "0.00"
  | S754_infinity s => if s then "-Inf" else "+Inf"
  | S754_nan => "NaN"
  | S754_finite s m e =>
      let n := if 0 <=? e then Zpos m * 2 ^ e * 100
               else round_half_even (Zpos m * 100) (2 ^ (- e)) in
      let frac := n mod 100 in
      sign s +:+ itoa (n / 100) +:+ "."
        +:+ (if frac <? 10 then "0" +:+ itoa frac else itoa frac)
  end.
End fmt.

(** ** Package [model] *)

Inductive ResultType :=
| ResultTypePass
| ResultTypeReview
| ResultTypeReject
| ResultTypeWarning.

Inductive RiskType :=
| RiskTypeUnknown
| RiskTypeSensitiveWord
| RiskTypeSpam
| RiskTypeHarassment
| RiskTypeHateSpeech
| RiskTypeViolence
| RiskTypeAdult
| RiskTypeContextViolation
| RiskTypeSuspiciousBehavior.

#[global] Instance ResultType_eq_dec : EqDecision ResultType.
Proof. solve_decision. Defined.

#[global] Instance RiskType_eq_dec : EqDecision RiskType.
Proof. solve_decision. Defined.

(** The [iota] values of the two enums. *)
Definition ResultType_value (r : ResultType) : nat :=
  match r with
  | ResultTypePass => 0
  | ResultTypeReview => 1
  | ResultTypeReject => 2
  | ResultTypeWarning => 3
  end.

Definition RiskType_value (r : RiskType) : nat :=
  match r with
  | RiskTypeUnknown => 0
  | RiskTypeSensitiveWord => 1
  | RiskTypeSpam => 2
  | RiskTypeHarassment => 3
  | RiskTypeHateSpeech => 4
  | RiskTypeViolence => 5
  | RiskTypeAdult => 6
  | RiskTypeContextViolation => 7
  | RiskTypeSuspiciousBehavior => 8
  end%nat.

Definition RiskType_of_value (n : nat) : option RiskType :=
  match n with
  | 0 => Some RiskTypeUnknown
  | 1 => Some RiskTypeSensitiveWord
  | 2 => Some RiskTypeSpam
  | 3 => Some RiskTypeHarassment
  | 4 => Some RiskTypeHateSpeech
  | 5 => Some RiskTypeViolence
  | 6 => Some RiskTypeAdult
  | 7 => Some RiskTypeContextViolation
  | 8 => Some RiskTypeSuspiciousBehavior
  | _ => None
  end%nat.

#[global] Program Instance RiskType_countable : Countable RiskType :=
  inj_countable RiskType_value RiskType_of_value _.
Next Obligation. by intros []. Qed.

Record ContextItem := {
  ci_Content : string;
  ci_UserID : string;
  ci_Timestamp : Z;
  ci_ContentID : string
}.

Record CheckContext := {
  Content : string;
  UserID : string;
  Scene : string;
  ContextItems : list ContextItem;
  ExtraData : gmap string string
}.

Record CheckRequest := {
  req_Content : string;
  req_UserID : string;
  req_Scene : string;
  req_RequestID : string;
  req_ExtraData : gmap string string
}.

Record RiskItem := {
  Type_ : RiskType;
  Score : F32.t;
  Description : string;
  Details : gmap string string
}.

Record CheckResult := {
  Result : ResultType;
  RiskScore : F32.t;
  Risks : list RiskItem;
  RequestID : string;
  Suggestion : string;
  CostTime : Z;
  Extra : gmap string string
}.

Record BatchCheckResult := {
  BatchID : string;
  Results : list CheckResult;
  TotalCostTime : Z
}.

Definition NewRiskItem (riskType : RiskType) (score : F32.t) (description : string)
  : RiskItem :=
  {| Type_ := riskType; Score := score; Description := description; Details := ∅ |}.

(** Go's [error] values are compared by identity or carry a message. *)
Inductive error :=
| ErrEmptyContent
| ErrInvalidRequest
| ErrRuleNotFound
| ErrInternalServer
| Errorf (msg : string).

(** ** Package [detector] *)

(** The [Detector] interface: one [Detect] call yields risk items and an
    optional error. A value of this type stands for what a detector object
    answers during one run of the pipeline, which calls each registered
    detector once. *)
Record Detector := { Detect : CheckContext -> list RiskItem * option error }.

Module HarassmentDetector.
Definition harassmentKeywords : list string :=
  [ "骚扰"; "威胁"; "欺凌"; "攻击"; "人身攻击"; "侮辱"; "歧视";
    "性骚扰"; "跟踪"; "恐吓"; "霸凌"; "黑料"; "隐私"; "私人信息" ].

Definition repeatMessageThreshold : Z := 3.

Definition keywordItem (keyword : string) : RiskItem :=
  {| Type_ := RiskTypeHarassment;
     Score := F32.of_Z 70;
     Description := "内容包含骚扰相关关键词";
     Details := {[ "keyword" := keyword ]} |}.

Definition countSameUserRepeatMessages (ctx : CheckContext) : Z :=
  match ContextItems ctx with
  | [] => 0
  | items =>
      Z.of_nat (length (filter (fun item => ci_UserID item = UserID ctx) items)) + 1
  end.

(** [targetCounts]: the counting loop of [isTargetingUser]. *)
Definition targetCounts (ctx : CheckContext) : gmap string Z :=
  foldl (fun m item =>
           if decide (ci_UserID item = UserID ctx) then m
           else <[ ci_UserID item := default 0 (m !! ci_UserID item) + 1 ]> m)
        ∅ (ContextItems ctx).

(** [isTargetingUser] returns at the first entry, in the order [order] in
    which the runtime visits [targetCounts], whose count reaches 2. *)
Definition isTargetingUser (ctx : CheckContext) (order : list (string * Z))
  : bool * string :=
  if (Z.of_nat (length (ContextItems ctx)) <? 2) then (false, "")
  else
    match List.find (fun kv => 2 <=? snd kv) order with
    | Some (targetUserID, _) => (true, targetUserID)
    | None => (false, "")
    end.

Definition Detect_ordered (order : list (string * Z)) (ctx : CheckContext)
  : list RiskItem * option error :=
  if decide (Content ctx = "") then ([], None)
  else
    let content := strings.ToLower (Content ctx) in
    let risks :=
      match List.find (fun keyword => strings.Contains content keyword)
                      harassmentKeywords with
      | Some keyword => [keywordItem keyword]
      | None => []
      end in
    let risks :=
      match ContextItems ctx with
      | [] => risks
      | _ :: _ =>
          let sameUserRepeatCount := countSameUserRepeatMessages ctx in
          let risks :=
            if repeatMessageThreshold <=? sameUserRepeatCount then
              risks ++
              [ {| Type_ := RiskTypeHarassment;
                   Score := F32.of_Z 65;
                   Description := "检测到重复发送消息的骚扰模式";
                   Details :=
                     {[ "repeat_count" :=
                          strings.string_of_rune sameUserRepeatCount ]} |} ]
            else risks in
          match isTargetingUser ctx order with
          | (true, targetUser) =>
              risks ++
              [ {| Type_ := RiskTypeHarassment;
                   Score := F32.of_Z 60;
                   Description := "检测到针对特定用户的频繁消息";
                   Details := {[ "target_user" := targetUser ]} |} ]
          | (false, _) => risks
          end
      end in
    (risks, None).

(** The visiting order of [targetCounts] used by [Detect]: the canonical
    listing of the map. It only matters when two other users each have
    two or more messages in the context. *)
Definition Detect (ctx : CheckContext) : list RiskItem * option error :=
  Detect_ordered (map_to_list (targetCounts ctx)) ctx.

Definition detector : Detector := Build_Detector Detect.
End HarassmentDetector.

(** A Go function returning [(value, error)] with exactly one of the two
    set. *)
Inductive res (A : Type) :=
| Ok (a : A)
| Err (e : error).
Arguments Ok {A} a.
Arguments Err {A} e.

Module SensitiveWordDetector.
(** [checker] is the answer of [SensitiveWordChecker.ContainsWord]. *)
Definition Detect (checker : string -> bool * string) (ctx : CheckContext)
  : list RiskItem * option error :=
  if decide (Content ctx = "") then ([], None)
  else
    match checker (Content ctx) with
    | (false, _) => ([], None)
    | (true, word) =>
        ([ {| Type_ := RiskTypeSensitiveWord;
              Score := F32.of_Z 80;
              Description := "内容包含敏感词: " +:+ word;
              Details := {[ "word" := word ]} |} ], None)
    end.

Definition detector (checker : string -> bool * string) : Detector :=
  Build_Detector (Detect checker).
End SensitiveWordDetector.

(** Package [regexp] is kept abstract: [FindAllString pattern s] stands for
    [regexp.MustCompile(pattern).FindAllString(s, -1)] and [MatchString]
    for the method of the same name. *)
Record Regexp := {
  FindAllString : string -> string -> list string;
  MatchString : string -> string -> bool
}.

Module SpamDetector.
Definition urlPattern : string := "https?://\S+".
Definition phonePattern : string :=
  "(?i)\d{3}[-\.\s]??\d{3}[-\.\s]??\d{4}|\(\d{3}\)\s*\d{3}[-\.\s]??\d{4}|\d{3}[-\.\s]??\d{4}".
Definition moneyPattern : string := "(?i)[\$¥€£](\d+)".
Definition spamKeywordsLower : list string :=
  [ "退款"; "贷款"; "免费"; "优惠"; "促销"; "中奖"; "赚钱"; "兼职"; "发财";
    "暴富"; "官方认证" ].
Definition spamKeywordsRegexp : string :=
  "(?i)(click here|buy now|free|discount|offer|promotion|win|earn|money|cheap)".

Definition item (score : Z) (description key value : string) : RiskItem :=
  {| Type_ := RiskTypeSpam; Score := F32.of_Z score;
     Description := description; Details := {[ key := value ]} |}.

Definition Detect (re : Regexp) (ctx : CheckContext) : list RiskItem * option error :=
  if decide (Content ctx = "") then ([], None)
  else
    let content := Content ctx in
    let contentLower := strings.ToLower content in
    let count (pattern : string) : Z :=
      Z.of_nat (length (FindAllString re pattern content)) in
    let urlCount := count urlPattern in
    let risks :=
      if (0 <? urlCount)
         && F32.gtb (F32.of_Z urlCount)
              (F32.div (F32.of_Z (Z.of_nat (String.length content))) (F32.of_Z 100))
      then [ item 60 "内容包含过多URL链接" "url_count"
               (strings.string_of_rune urlCount) ]
      else [] in
    let risks :=
      if 0 <? count phonePattern
      then risks ++ [ item 50 "内容包含电话号码" "phone_count"
                        (strings.string_of_rune (count phonePattern)) ]
      else risks in
    let risks :=
      if 0 <? count moneyPattern
      then risks ++ [ item 40 "内容包含金钱相关信息" "money_count"
                        (strings.string_of_rune (count moneyPattern)) ]
      else risks in
    let risks :=
      match List.find (fun keyword => strings.Contains contentLower keyword)
                      spamKeywordsLower with
      | Some keyword => risks ++ [ item 65 "内容包含垃圾信息关键词" "keyword" keyword ]
      | None => risks
      end in
    let risks :=
      if MatchString re spamKeywordsRegexp contentLower then
        match FindAllString re spamKeywordsRegexp contentLower with
        | m :: _ => risks ++ [ item 55 "内容包含垃圾信息关键词" "keyword" m ]
        | [] => risks
        end
      else risks in
    (risks, None).

Definition detector (re : Regexp) : Detector := Build_Detector (Detect re).
End SpamDetector.

(** *** Remote detectors

    A remote detector sends requests over the network. The network is an
    oracle that answers a request with a decoded reply or with a failure
    (transport error, bad status or undecodable body); every [Detect]
    returns, next to its Go results, the list of requests it sent. *)

Module AIDetector.
Record AIContextItem := {
  aic_Content : string; aic_UserID : string; aic_Timestamp : Z
}.

Record AIRequestBody := {
  rq_Content : string;
  rq_UserID : string;
  rq_Context : list AIContextItem;
  rq_ExtraParams : gmap string string
}.

Record AIRiskItem := {
  air_Type : string; air_Score : F32.t; air_Description : string;
  air_Details : gmap string string
}.

Record AIResponseBody := {
  rs_Success : bool; rs_Risks : list AIRiskItem; rs_Score : F32.t;
  rs_Error : string
}.

Record t := { url : string; apiKey : string; timeout : Z }.

Definition NewAIDetector (url apiKey : string) (timeout : Z) : res t :=
  if decide (url = "") then Err (Errorf "AI service URL cannot be empty")
  else Ok {| url := url; apiKey := apiKey; timeout := timeout |}.

Definition mapRiskType (aiRiskType : string) : RiskType :=
  if decide (aiRiskType = "sensitive_word") then RiskTypeSensitiveWord
  else if decide (aiRiskType = "spam") then RiskTypeSpam
  else if decide (aiRiskType = "harassment") then RiskTypeHarassment
  else if decide (aiRiskType = "hate_speech") then RiskTypeHateSpeech
  else if decide (aiRiskType = "violence") then RiskTypeViolence
  else if decide (aiRiskType = "adult") then RiskTypeAdult
  else if decide (aiRiskType = "context_violation") then RiskTypeContextViolation
  else if decide (aiRiskType = "suspicious_behavior") then RiskTypeSuspiciousBehavior
  else RiskTypeUnknown.

(** [d.url] is taken to be a well-formed URL, so that building the
    request succeeds and the request is sent. *)
Definition Detect (d : t) (net : AIRequestBody -> res AIResponseBody)
    (ctx : CheckContext) : (list RiskItem * option error) * list AIRequestBody :=
  if decide (Content ctx = "") then (([], None), [])
  else
    let reqBody :=
      {| rq_Content := Content ctx;
         rq_UserID := UserID ctx;
         rq_Context :=
           List.map (fun item => {| aic_Content := ci_Content item;
                                    aic_UserID := ci_UserID item;
                                    aic_Timestamp := ci_Timestamp item |})
                    (ContextItems ctx);
         rq_ExtraParams := ExtraData ctx |} in
    match net reqBody with
    | Err e => (([], Some e), [reqBody])
    | Ok respBody =>
        if negb (rs_Success respBody) then
          if decide (rs_Error respBody = "") then
            (([], Some (Errorf "AI service failed without specific error")), [reqBody])
          else
            (([], Some (Errorf ("AI service error: " +:+ rs_Error respBody))), [reqBody])
        else
          ((List.map (fun aiRisk => {| Type_ := mapRiskType (air_Type aiRisk);
                                       Score := air_Score aiRisk;
                                       Description := air_Description aiRisk;
                                       Details := air_Details aiRisk |})
                     (rs_Risks respBody), None), [reqBody])
    end.
End AIDetector.

(** [AnalysisResult], and [SemanticAnalysisResult] which has the same
    fields. *)
Record AnalysisResult := {
  IsToxic : bool;
  Categories : gmap string F32.t;
  Explanation : string;
  Intent : string;
  Sentiment : string;
  Risk : F32.t
}.

Module NLPDetector.
Record t := {
  apiKey : string;
  model : string;
  threshold : F32.t;
  contextSize : Z;
  categories : list string;
  fallbackMode : bool
}.

Definition enterFallback (d : t) : t :=
  {| apiKey := apiKey d; model := model d; threshold := threshold d;
     contextSize := contextSize d; categories := categories d;
     fallbackMode := true |}.

Definition defaultCategories : list string :=
  [ "insult"; "threat"; "harassment"; "hate_speech"; "self_harm"; "sexual";
    "violence" ].

(** [NewNLPDetector]: [probe] is the outcome of [testConnection]. When
    the probe fails the constructor returns the detector, already in
    fallback mode, together with the error. *)
Definition NewNLPDetector (apiKey : string) (threshold : F32.t) (contextSize : Z)
    (probe : option error) : option t * option error :=
  if decide (apiKey = "") then (None, Some (Errorf "OpenAI API密钥不能为空"))
  else
    let detector :=
      {| apiKey := apiKey; model := "gpt-3.5-turbo"; threshold := threshold;
         contextSize := contextSize; categories := defaultCategories;
         fallbackMode := false |} in
    match probe with
    | Some err => (Some (enterFallback detector), Some err)
    | None => (Some detector, None)
    end.

Definition containsRejection (text : string) : bool :=
  existsb (fun word => strings.Contains text word)
    [ "不要"; "别"; "停止"; "别再"; "不想"; "拒绝"; "别来"; "讨厌"; "烦人";
      "骚扰"; "别发" ].

Definition hasContextualRisk (result : AnalysisResult) (contextItems : list string)
  : bool :=
  existsb containsRejection contextItems.

Definition getIntentRiskType (intent : string) : RiskType :=
  if decide (intent = "harmful") then RiskTypeHarassment else RiskTypeUnknown.

Definition getIntentDescription (intent : string) : string :=
  if decide (intent = "harmful") then "有害" else intent.

Definition fallbackDetect (ctx : CheckContext) : list RiskItem * option error :=
  let content := Content ctx in
  let harmfulWords :=
    [ "傻逼"; "混蛋"; "垃圾"; "白痴"; "废物"; "贱人"; "去死"; "杀了你";
      "打死你"; "灭了你"; "弄死你" ] in
  let risks :=
    match List.find (fun word => strings.Contains content word) harmfulWords with
    | Some word =>
        [ NewRiskItem RiskTypeHarassment (F32.of_Z 80) ("检测到敏感词: " +:+ word) ]
    | None => []
    end in
  let threatPatterns := [ "小心"; "当心"; "威胁"; "后果"; "找你"; "报复" ] in
  let risks :=
    if existsb (fun pattern => strings.Contains content pattern) threatPatterns
    then risks ++ [ NewRiskItem RiskTypeHarassment (F32.of_Z 75) "检测到潜在威胁性语言" ]
    else risks in
  let hasRejection :=
    existsb (fun item => negb (bool_decide (ci_UserID item = UserID ctx))
                         && containsRejection (ci_Content item))
            (ContextItems ctx) in
  let risks :=
    if hasRejection
    then risks ++ [ NewRiskItem RiskTypeContextViolation (F32.of_Z 70)
                      "检测到可能在对方拒绝后继续发送消息" ]
    else risks in
  (risks, None).

(** The user message of the chat request built by [analyzeContent]. *)
Definition userInput (content : string) (contextItems : list string) : string :=
  match contextItems with
  | [] => "待分析文本:" +:+ strings.newline +:+ content
  | _ :: _ =>
      "上下文信息:" +:+ strings.newline +:+ strings.Join contextItems strings.newline
        +:+ strings.newline +:+ strings.newline
        +:+ "待分析文本:" +:+ strings.newline +:+ content
  end.

(** [analyzeContent] posts one chat request; [net] answers it with the
    decoded analysis or with an error. *)
Definition analyzeContent (net : string -> res AnalysisResult)
    (content : string) (contextItems : list string)
  : res AnalysisResult * list string :=
  let input := userInput content contextItems in
  (net input, [input]).

Definition Detect (d : t) (net : string -> res AnalysisResult) (ctx : CheckContext)
  : t * (list RiskItem * option error) * list string :=
  if fallbackMode d then (d, fallbackDetect ctx, [])
  else
    let userContent := Content ctx in
    let contextContent := List.map ci_Content (ContextItems ctx) in
    match analyzeContent net userContent contextContent with
    | (Err _, sent) => (enterFallback d, fallbackDetect ctx, sent)
    | (Ok result, sent) =>
        let risks :=
          if IsToxic result && F32.gtb (Risk result) (threshold d) then
            [ {| Type_ := RiskTypeHarassment;
                 Score := F32.mul (Risk result) (F32.of_Z 100);
                 Description := Explanation result;
                 Details :=
                   fmt.f2 <$>
                     filter (fun kv => F32.gtb (snd kv) (threshold d) = true)
                            (Categories result) |} ]
          else [] in
        let risks :=
          if negb (bool_decide (Intent result = ""))
             && negb (bool_decide (Intent result = "neutral"))
             && F32.gtb (Risk result) (threshold d)
          then risks ++
               [ NewRiskItem (getIntentRiskType (Intent result))
                   (F32.mul (Risk result) (F32.of_Z 80))
                   ("检测到" +:+ getIntentDescription (Intent result) +:+ "意图") ]
          else risks in
        let risks :=
          if (0 <? Z.of_nat (length contextContent))
             && hasContextualRisk result contextContent
          then risks ++
               [ NewRiskItem RiskTypeContextViolation
                   (F32.mul (Risk result) (F32.of_Z 90))
                   "检测到上下文相关的风险行为" ]
          else risks in
        (d, (risks, None), sent)
    end.
End NLPDetector.

Module SemanticNLPDetector.
Record t := {
  apiEndpoint : string;
  threshold : F32.t;
  contextSize : Z;
  categories : list string;
  fallbackMode : bool
}.

Definition enterFallback (d : t) : t :=
  {| apiEndpoint := apiEndpoint d; threshold := threshold d;
     contextSize := contextSize d; categories := categories d;
     fallbackMode := true |}.

Definition defaultCategories : list string :=
  [ "insult"; "threat"; "harassment"; "hate_speech"; "self_harm"; "sexual";
    "violence" ].

(** [NewSemanticNLPDetector]: [probe] is the outcome of [testConnection]. When
    the probe fails the constructor returns the detector, already in
    fallback mode, together with the error. *)
Definition NewSemanticNLPDetector (apiEndpoint : string) (threshold : F32.t)
    (contextSize : Z) (probe : option error) : option t * option error :=
  let apiEndpoint :=
    if decide (apiEndpoint = "") then "http://localhost:11434/api/chat"
    else apiEndpoint in
  let detector :=
    {| apiEndpoint := apiEndpoint; threshold := threshold;
       contextSize := contextSize; categories := defaultCategories;
       fallbackMode := false |} in
  match probe with
  | Some err => (Some (enterFallback detector), Some err)
  | None => (Some detector, None)
  end.

Definition containsRejection (text : string) : bool :=
  existsb (fun word => strings.Contains text word)
    [ "不要"; "别"; "停止"; "别再"; "不想"; "拒绝"; "别来"; "讨厌"; "烦人";
      "骚扰"; "别发" ].

Definition hasContextualRisk (result : AnalysisResult) (contextItems : list string)
  : bool :=
  existsb containsRejection contextItems.

Definition getIntentRiskType (intent : string) : RiskType :=
  if decide (intent = "harmful") then RiskTypeHarassment else RiskTypeUnknown.

Definition getIntentDescription (intent : string) : string :=
  if decide (intent = "harmful") then "有害" else intent.

Definition fallbackDetect (ctx : CheckContext) : list RiskItem * option error :=
  let content := Content ctx in
  let harmfulWords :=
    [ "傻逼"; "混蛋"; "垃圾"; "白痴"; "废物"; "贱人"; "去死"; "杀了你";
      "打死你"; "灭了你"; "弄死你" ] in
  let risks :=
    match List.find (fun word => strings.Contains content word) harmfulWords with
    | Some word =>
        [ NewRiskItem RiskTypeHarassment (F32.of_Z 80) ("检测到敏感词: " +:+ word) ]
    | None => []
    end in
  let threatPatterns := [ "小心"; "当心"; "威胁"; "后果"; "找你"; "报复" ] in
  let risks :=
    if existsb (fun pattern => strings.Contains content pattern) threatPatterns
    then risks ++ [ NewRiskItem RiskTypeHarassment (F32.of_Z 75) "检测到潜在威胁性语言" ]
    else risks in
  let hasRejection :=
    existsb (fun item => negb (bool_decide (ci_UserID item = UserID ctx))
                         && containsRejection (ci_Content item))
            (ContextItems ctx) in
  let risks :=
    if hasRejection
    then risks ++ [ NewRiskItem RiskTypeContextViolation (F32.of_Z 70)
                      "检测到可能在对方拒绝后继续发送消息" ]
    else risks in
  (risks, None).

(** The user message of the chat request built by [analyzeContent]. *)
Definition userInput (content : string) (contextItems : list string) : string :=
  match contextItems with
  | [] => "待分析文本:" +:+ strings.newline +:+ content
  | _ :: _ =>
      "上下文信息:" +:+ strings.newline +:+ strings.Join contextItems strings.newline
        +:+ strings.newline +:+ strings.newline
        +:+ "待分析文本:" +:+ strings.newline +:+ content
  end.

(** [analyzeContent] posts one chat request; [net] answers it with the
    decoded analysis or with an error. *)
Definition analyzeContent (net : string -> res AnalysisResult)
    (content : string) (contextItems : list string)
  : res AnalysisResult * list string :=
  let input := userInput content contextItems in
  (net input, [input]).

Definition Detect (d : t) (net : string -> res AnalysisResult) (ctx : CheckContext)
  : t * (list RiskItem * option error) * list string :=
  if fallbackMode d then (d, fallbackDetect ctx, [])
  else
    let userContent := Content ctx in
    let contextContent := List.map ci_Content (ContextItems ctx) in
    match analyzeContent net userContent contextContent with
    | (Err _, sent) => (enterFallback d, fallbackDetect ctx, sent)
    | (Ok result, sent) =>
        let risks :=
          if IsToxic result && F32.gtb (Risk result) (threshold d) then
            [ {| Type_ := RiskTypeHarassment;
                 Score := F32.mul (Risk result) (F32.of_Z 100);
                 Description := Explanation result;
                 Details :=
                   fmt.f2 <$>
                     filter (fun kv => F32.gtb (snd kv) (threshold d) = true)
                            (Categories result) |} ]
          else [] in
        let risks :=
          if negb (bool_decide (Intent result = ""))
             && negb (bool_decide (Intent result = "neutral"))
             && F32.gtb (Risk result) (threshold d)
          then risks ++
               [ NewRiskItem (getIntentRiskType (Intent result))
                   (F32.mul (Risk result) (F32.of_Z 80))
                   ("检测到" +:+ getIntentDescription (Intent result) +:+ "意图") ]
          else risks in
        let risks :=
          if (0 <? Z.of_nat (length contextContent))
             && hasContextualRisk result contextContent
          then risks ++
               [ NewRiskItem RiskTypeContextViolation
                   (F32.mul (Risk result) (F32.of_Z 90))
                   "检测到上下文相关的风险行为" ]
          else risks in
        (d, (risks, None), sent)
    end.
End SemanticNLPDetector.

(** ** Package [service] *)

(** A decoded JSON value ([interface{}] after [json.Unmarshal]), by its
    dynamic type; numbers are kept as their source text, arrays and objects
    without their contents. *)
Inductive JSONValue :=
| JNull
| JBool (b : bool)
| JNumber (literal : string)
| JString (s : string)
| JArray
| JObject.

Record Rule := {
  rule_ID : string;
  rule_Name : string;
  rule_Description : string;
  rule_Enabled : bool;
  rule_Priority : Z;
  rule_Action : string;
  rule_Score : F32.t;
  rule_Config : gmap string JSONValue
}.

Record RuleAction := { ra_Name : string; ra_Description : string }.

Record RuleSet := {
  Rules : gmap string Rule;
  Actions : gmap string RuleAction;
  RuleCategories : gmap string string
}.

Record RuleEngineResult := {
  er_Result : ResultType;
  er_Score : F32.t;
  er_Risks : list RiskItem;
  er_Suggestion : string;
  er_HasExplicitResult : bool
}.

(** [ruleSet] is nil until [loadRules] has run, which sets it together
    with [initialized]; the empty rule set stands for nil. *)
Record RuleEngine := {
  ruleSet : RuleSet;
  ruleFile : string;
  initialized : bool
}.

Module RuleEngineImpl.
Definition getActionType (action : string) : ResultType :=
  if decide (action = "block") then ResultTypeReject
  else if decide (action = "review") then ResultTypeReview
  else if decide (action = "mark") then ResultTypeWarning
  else ResultTypePass.

Definition getRiskTypeFromCategory (category : string) : RiskType :=
  if decide (category = "sensitive") then RiskTypeSensitiveWord
  else if decide (category = "spam") then RiskTypeSpam
  else if decide (category = "harassment") then RiskTypeHarassment
  else if decide (category = "hate_speech") then RiskTypeHateSpeech
  else if decide (category = "violence") then RiskTypeViolence
  else if decide (category = "adult") then RiskTypeAdult
  else RiskTypeUnknown.

Definition generateSuggestion (rule : Rule) : string :=
  "内容违反了" +:+ fmt.dquote +:+ rule_Name rule +:+ fmt.dquote +:+ "规则，原因："
    +:+ rule_Description rule.

(** [existingRiskTypes[t]]: a missing key reads as [false]. *)
Definition present (existingRiskTypes : gmap RiskType bool) (t : RiskType) : bool :=
  default false (existingRiskTypes !! t).

Definition evaluateRule (rule : Rule) (ctx : CheckContext)
    (existingRiskTypes : gmap RiskType bool) : bool * option RiskItem :=
  if decide (rule_ID rule = "sensitive_words") then
    match rule_Config rule !! "category" with
    | Some (JString categoryStr) =>
        let riskType := getRiskTypeFromCategory categoryStr in
        if present existingRiskTypes riskType then (false, None)
        else (false, None)
    | _ => (false, None)
    end
  else if decide (rule_ID rule = "spam_detection") then
    let riskType := RiskTypeSpam in
    if present existingRiskTypes riskType then (false, None)
    else (false, None)
  else if decide (rule_ID rule = "context_analysis") then
    if Z.of_nat (length (ContextItems ctx)) =? 0 then (false, None)
    else
      let riskType := RiskTypeContextViolation in
      if present existingRiskTypes riskType then (false, None)
      else (false, None)
  else if decide (rule_ID rule = "user_reputation") then
    let riskType := RiskTypeSuspiciousBehavior in
    if present existingRiskTypes riskType then (false, None)
    else (false, None)
  else (false, None).

(** [rules[i], rules[j] = rules[j], rules[i]] when [rules[i]] has the
    lower priority. *)
Definition swapIfLower (i j : nat) (rules : list Rule) : list Rule :=
  match rules !! i, rules !! j with
  | Some ri, Some rj =>
      if rule_Priority ri <? rule_Priority rj
      then <[ j := ri ]> (<[ i := rj ]> rules)
      else rules
  | _, _ => rules
  end.

(** The inner loop of the sort, for [j] from [i + 1] to [n - 1]. *)
Definition innerLoop (n i : nat) (rules : list Rule) : list Rule :=
  foldl (fun rules j => swapIfLower i j rules) rules (seq (i + 1) (n - (i + 1))).

(** [sortRulesByPriority]: [visit] is the list the [range] over
    [e.ruleSet.Rules] builds; the two nested loops then exchange
    out-of-order pairs. *)
Definition sortRulesByPriority (visit : list Rule) : list Rule :=
  let n := length visit in
  foldl (fun rules i => innerLoop n i rules) visit (seq 0 (n - 1)).

(** The rule loop of [Evaluate] and the code after it. [evalRule] is the
    per-rule evaluator; [highestScore] and [highestScoreResult] are the
    two loop variables. *)
Fixpoint evaluateLoop (evalRule : Rule -> bool * option RiskItem)
    (sortedRules : list Rule) (risks : list RiskItem)
    (highestScore : F32.t) (highestScoreResult : ResultType) : RuleEngineResult :=
  match sortedRules with
  | [] =>
      if F32.gtb highestScore F32.zero then
        {| er_Result := highestScoreResult; er_Score := highestScore;
           er_Risks := risks; er_Suggestion := "";
           er_HasExplicitResult := true |}
      else
        {| er_Result := ResultTypePass; er_Score := highestScore;
           er_Risks := risks; er_Suggestion := "";
           er_HasExplicitResult := false |}
  | rule :: rest =>
      if negb (rule_Enabled rule) then
        evaluateLoop evalRule rest risks highestScore highestScoreResult
      else
        match evalRule rule with
        | (true, riskItem) =>
            let risks :=
              match riskItem with
              | Some item => risks ++ [item]
              | None => risks
              end in
            let actionType := getActionType (rule_Action rule) in
            let score := rule_Score rule in
            let '(highestScore, highestScoreResult) :=
              if F32.gtb score highestScore then (score, actionType)
              else (highestScore, highestScoreResult) in
            if decide (actionType = ResultTypeReject) then
              {| er_Result := ResultTypeReject; er_Score := score;
                 er_Risks := risks; er_Suggestion := generateSuggestion rule;
                 er_HasExplicitResult := true |}
            else
              evaluateLoop evalRule rest risks highestScore highestScoreResult
        | (false, _) =>
            evaluateLoop evalRule rest risks highestScore highestScoreResult
        end
  end.

Definition existingTypes (existingRisks : list RiskItem) : gmap RiskType bool :=
  foldl (fun m risk => <[ Type_ risk := true ]> m) ∅ existingRisks.

(** [Evaluate] with the per-rule evaluator as an argument. *)
Definition EvaluateWith
    (evalRule : Rule -> CheckContext -> gmap RiskType bool -> bool * option RiskItem)
    (e : RuleEngine) (visit : list Rule)
    (ctx : CheckContext) (existingRisks : list RiskItem) : res RuleEngineResult :=
  if negb (initialized e) then Err (Errorf "rule engine not initialized")
  else
    let sortedRules := sortRulesByPriority visit in
    let existingRiskTypes := existingTypes existingRisks in
    Ok (evaluateLoop (fun rule => evalRule rule ctx existingRiskTypes)
          sortedRules [] F32.zero ResultTypePass).

(** [RuleEngine.Evaluate]; [visit] lists the values of [e.ruleSet.Rules]
    in the order the runtime ranges over the map. *)
Definition Evaluate (e : RuleEngine) (visit : list Rule)
    (ctx : CheckContext) (existingRisks : list RiskItem) : res RuleEngineResult :=
  EvaluateWith evaluateRule e visit ctx existingRisks.
End RuleEngineImpl.

(** *** The sensitive-word store *)

(** What reading one word file gives: [os.Open] fails, or the scanner
    yields [lines] and ends with [scanErr]. *)
Inductive FileRead :=
| OpenFailed (e : error)
| Scanned (lines : list string) (scanErr : option error).

Record SensitiveWords := {
  words : gmap string bool;
  filePaths : list string
}.

Module SensitiveWordsImpl.
Definition loadFromFile (fs : string -> FileRead) (path : string)
    (words : gmap string bool) : gmap string bool * option error :=
  match fs path with
  | OpenFailed e => (words, Some e)
  | Scanned lines scanErr =>
      (foldl (fun words line =>
                let word := strings.TrimSpace line in
                if bool_decide (word = "") || strings.HasPrefix word "#"
                then words
                else <[ word := true ]> words)
             words lines,
       scanErr)
  end.

(** The candidate set built by [Update]: every configured file is
    loaded into the same fresh map, a failing file is logged and
    skipped. *)
Definition candidate (fs : string -> FileRead) (paths : list string)
  : gmap string bool :=
  foldl (fun newWords path => fst (loadFromFile fs path newWords)) ∅ paths.

Definition Update (fs : string -> FileRead) (sw : SensitiveWords)
  : SensitiveWords * option error :=
  let newWords := candidate fs (filePaths sw) in
  if 0 <? Z.of_nat (size newWords) then
    ({| words := newWords; filePaths := filePaths sw |}, None)
  else (sw, None).

Definition NewSensitiveWords (fs : string -> FileRead) : SensitiveWords :=
  fst (Update fs {| words := ∅; filePaths := [ "config/sensitive_words.txt" ] |}).

Definition AddWord (sw : SensitiveWords) (word : string) : SensitiveWords :=
  if decide (word = "") then sw
  else {| words := <[ word := true ]> (words sw); filePaths := filePaths sw |}.

Definition RemoveWord (sw : SensitiveWords) (word : string) : SensitiveWords :=
  {| words := delete word (words sw); filePaths := filePaths sw |}.

(** [visit] lists the keys of [sw.words] in the order of the [range]. *)
Definition ContainsWord (visit : list string) (content : string) : bool * string :=
  if decide (content = "") then (false, "")
  else
    match List.find (fun word => strings.Contains content word) visit with
    | Some word => (true, word)
    | None => (false, "")
    end.

Definition SetWordList (sw : SensitiveWords) (l : list string) : SensitiveWords :=
  {| words := foldl (fun m word => if decide (word = "") then m
                                   else <[ word := true ]> m) ∅ l;
     filePaths := filePaths sw |}.

Definition AddFilePath (sw : SensitiveWords) (path : string) : SensitiveWords :=
  {| words := words sw; filePaths := filePaths sw ++ [path] |}.
End SensitiveWordsImpl.

(** *** The orchestrator *)

Record Config := {
  RiskScoreThreshold : Z;
  CacheTTL : Z;
  BatchCheckMaxSize : Z
}.

Record ContentCheckService := {
  cfg : Config;
  ruleEngine : RuleEngine;
  sensitiveWords : SensitiveWords;
  detectors : gmap string Detector
}.

(** The libraries behind the cache: [encoding/json] on [CheckResult] with
    [blob] the encoded bytes, and [model.HashString], the hexadecimal MD5
    digest. *)
Record Library := {
  blob : Type;
  json_Marshal : CheckResult -> option blob;
  json_Unmarshal : blob -> option CheckResult;
  HashString : string -> string
}.

(** The Redis server: under each key a value and the instant, in
    nanoseconds, at which it expires, if it does. *)
Abbreviation Store L := (gmap string (blob L * option Z)) (only parsing).

(** What one request meets besides its arguments: the clock when the
    request id is made ([now], nanoseconds), the time [time.Since] measures
    (milliseconds), whether Redis answers the read and the write, and the
    orders in which the runtime ranges over the detector map and the rule
    map. *)
Record CallEnv := {
  now : Z;
  elapsed : Z;
  redisGetOk : bool;
  redisSetOk : bool;
  detectorOrder : list (string * Detector);
  ruleVisit : list Rule
}.

Record batchResult := {
  br_index : nat;
  br_outcome : res CheckResult
}.

(** What a call of [BatchCheckContent] does: it returns a result and an
    error, or it panics (slicing with a negative bound). *)
Inductive BatchOutcome :=
| BatchPanic
| BatchReturn (r : option BatchCheckResult) (err : option error).

Module Service.
(** The detector loop: the risks, their sum and their maximum. *)
Definition accumulate (acc : list RiskItem * F32.t * F32.t) (risk : RiskItem)
  : list RiskItem * F32.t * F32.t :=
  let '(allRisks, totalScore, maxScore) := acc in
  (allRisks ++ [risk],
   F32.add totalScore (Score risk),
   if F32.gtb (Score risk) maxScore then Score risk else maxScore).

(** One round of the detector loop: a failing detector is logged and
    skipped. *)
Definition detectorStep (checkCtx : CheckContext)
    (acc : list RiskItem * F32.t * F32.t) (entry : string * Detector)
  : list RiskItem * F32.t * F32.t :=
  match Detect (snd entry) checkCtx with
  | (_, Some _) => acc
  | (risks, None) => foldl accumulate acc risks
  end.

Definition runDetectors (order : list (string * Detector)) (checkCtx : CheckContext)
  : list RiskItem * F32.t * F32.t :=
  foldl (detectorStep checkCtx) ([], F32.zero, F32.zero) order.

(** The inner loop of the merge: the first item of the same type has its
    score and description overwritten when the new score is higher. *)
Fixpoint mergeExisting (risk : RiskItem) (allRisks : list RiskItem)
  : bool * list RiskItem :=
  match allRisks with
  | [] => (false, [])
  | existing :: rest =>
      if decide (Type_ existing = Type_ risk) then
        (true,
         (if F32.gtb (Score risk) (Score existing)
          then {| Type_ := Type_ existing; Score := Score risk;
                  Description := Description risk; Details := Details existing |}
          else existing) :: rest)
      else
        let '(found, rest') := mergeExisting risk rest in
        (found, existing :: rest')
  end.

Definition mergeRisk (acc : list RiskItem * F32.t) (risk : RiskItem)
  : list RiskItem * F32.t :=
  let '(allRisks, maxScore) := acc in
  let '(found, allRisks) := mergeExisting risk allRisks in
  (if found then allRisks else allRisks ++ [risk],
   if F32.gtb (Score risk) maxScore then Score risk else maxScore).

Definition generateSuggestion (result : ResultType) (risks : list RiskItem) : string :=
  match result with
  | ResultTypeReject =>
      match risks with
      | first :: _ => "内容包含违规信息，原因：" +:+ Description first
      | [] => "内容未通过审核，请修改后重试"
      end
  | ResultTypeReview => "内容需要人工审核，请等待审核结果"
  | ResultTypeWarning => "内容存在风险，建议修改"
  | ResultTypePass => "内容审核通过"
  end.

(** Step 3 of [doContentCheck]: the band of the final score. *)
Definition band (threshold : Z) (finalScore : F32.t) : ResultType :=
  let t := F32.of_Z threshold in
  if F32.geb finalScore t then ResultTypeReject
  else if F32.geb finalScore (F32.mul t (F32.of_decimal 7 1)) then ResultTypeReview
  else if F32.geb finalScore (F32.mul t (F32.of_decimal 5 1)) then ResultTypeWarning
  else ResultTypePass.

Definition banded (s : ContentCheckService) (allRisks : list RiskItem)
    (totalScore maxScore : F32.t) : CheckResult :=
  let finalScore := maxScore in
  let result := band (RiskScoreThreshold (cfg s)) finalScore in
  {| Result := result; RiskScore := finalScore; Risks := allRisks;
     RequestID := ""; Suggestion := generateSuggestion result allRisks;
     CostTime := 0;
     Extra := {[ "total_score" := fmt.f2 totalScore ]} |}.

(** [doContentCheck] over an engine evaluation [evaluate]. *)
Definition doContentCheckWith
    (evaluate : CheckContext -> list RiskItem -> res RuleEngineResult)
    (s : ContentCheckService) (order : list (string * Detector))
    (content userID scene : string) (contextItems : list ContextItem)
    (extraData : gmap string string) : res CheckResult :=
  let checkCtx :=
    {| Content := content; UserID := userID; Scene := scene;
       ContextItems := contextItems; ExtraData := extraData |} in
  let '(allRisks, totalScore, maxScore) := runDetectors order checkCtx in
  match evaluate checkCtx allRisks with
  | Err _ => Ok (banded s allRisks totalScore maxScore)
  | Ok engineResult =>
      let '(allRisks, maxScore) :=
        foldl mergeRisk (allRisks, maxScore) (er_Risks engineResult) in
      if er_HasExplicitResult engineResult then
        Ok {| Result := er_Result engineResult;
              RiskScore := er_Score engineResult;
              Risks := allRisks;
              RequestID := "";
              Suggestion := er_Suggestion engineResult;
              CostTime := 0;
              Extra := ∅ |}
      else Ok (banded s allRisks totalScore maxScore)
  end.

Definition doContentCheck (s : ContentCheckService)
    (order : list (string * Detector)) (visit : list Rule)
    (content userID scene : string) (contextItems : list ContextItem)
    (extraData : gmap string string) : res CheckResult :=
  doContentCheckWith (RuleEngineImpl.Evaluate (ruleEngine s) visit)
    s order content userID scene contextItems extraData.

(** **** The result cache *)

(** [redisClient.Get]: the stored bytes unless the key is missing or
    has expired. *)
Definition redisGet {L : Library} (w : Store L) (key : string) (at_ : Z)
  : option (blob L) :=
  match w !! key with
  | Some (data, Some deadline) => if at_ <? deadline then Some data else None
  | Some (data, None) => Some data
  | None => None
  end.

(** [redisClient.Set]: a positive [ttl] sets the deadline, any other
    stores the value without one. *)
Definition redisSet {L : Library} (w : Store L) (key : string) (data : blob L)
    (ttl at_ : Z) : Store L :=
  <[ key := (data, if 0 <? ttl then Some (at_ + ttl) else None) ]> w.

Definition getCachedResult {L : Library} (available : bool) (w : Store L)
    (key : string) (at_ : Z) : res CheckResult :=
  if negb available then Err (Errorf "redis client not available")
  else
    match redisGet w key at_ with
    | None => Err (Errorf "redis: nil")
    | Some data =>
        match json_Unmarshal L data with
        | None => Err (Errorf "json: cannot unmarshal")
        | Some result => Ok result
        end
    end.

Definition cacheResult {L : Library} (available : bool) (w : Store L)
    (key : string) (result : CheckResult) (ttl at_ : Z) : Store L :=
  if negb available then w
  else
    match json_Marshal L result with
    | None => w
    | Some data => redisSet w key data ttl at_
    end.

Definition cacheKey (L : Library) (content : string) : string :=
  "content_check:" +:+ HashString L content.

Definition requestID (prefix : string) (at_ : Z) (userID : string) : string :=
  prefix +:+ fmt.itoa at_ +:+ "_" +:+ userID.

Definition withRequest (r : CheckResult) (id : string) (cost : Z) : CheckResult :=
  {| Result := Result r; RiskScore := RiskScore r; Risks := Risks r;
     RequestID := id; Suggestion := Suggestion r; CostTime := cost;
     Extra := Extra r |}.

Definition nanosPerSecond : Z := 1000000000.
Definition nanosPerMilli : Z := 1000000.

Definition CheckContent {L : Library} (s : ContentCheckService) (env : CallEnv)
    (w : Store L) (content userID scene : string)
    (extraData : gmap string string) : Store L * res CheckResult :=
  if decide (content = "") then (w, Err ErrEmptyContent)
  else
    let id := requestID "req_" (now env) userID in
    let key := cacheKey L content in
    match getCachedResult (redisGetOk env) w key (now env) with
    | Ok cachedResult => (w, Ok (withRequest cachedResult id 0))
    | Err _ =>
        match doContentCheck s (detectorOrder env) (ruleVisit env)
                content userID scene [] extraData with
        | Err e => (w, Err e)
        | Ok result =>
            let result := withRequest result id (elapsed env) in
            let w :=
              if decide (Result result = ResultTypeReject) then w
              else cacheResult (redisSetOk env) w key result
                     (CacheTTL (cfg s) * nanosPerSecond)
                     (now env + elapsed env * nanosPerMilli) in
            (w, Ok result)
        end
    end.

Definition CheckContentWithContext (s : ContentCheckService) (env : CallEnv)
    (content userID scene : string) (contextItems : list ContextItem)
    (extraData : gmap string string) : res CheckResult :=
  if decide (content = "") then Err ErrEmptyContent
  else
    let id := requestID "req_ctx_" (now env) userID in
    match doContentCheck s (detectorOrder env) (ruleVisit env)
            content userID scene contextItems extraData with
    | Err e => Err e
    | Ok result => Ok (withRequest result id (elapsed env))
    end.

(** **** The batch coordinator

    Every item is checked by a task of its own. [sched] lists the item
    indices in the order in which the tasks run and report on the
    channel; a task runs [CheckContent] in one piece, under the
    environment [envs] gives its index. *)
Definition taskStep {L : Library} (s : ContentCheckService) (envs : nat -> CallEnv)
    (items : list CheckRequest) (acc : Store L * list batchResult) (idx : nat)
  : Store L * list batchResult :=
  match items !! idx with
  | None => acc
  | Some req =>
      let '(w, out) :=
        CheckContent s (envs idx) (fst acc) (req_Content req) (req_UserID req)
          (req_Scene req) (req_ExtraData req) in
      (w, snd acc ++ [ {| br_index := idx; br_outcome := out |} ])
  end.

Definition runTasks {L : Library} (s : ContentCheckService) (envs : nat -> CallEnv)
    (items : list CheckRequest) (sched : list nat) (w : Store L)
  : Store L * list batchResult :=
  foldl (taskStep s envs items) (w, []) sched.

(** The loop that drains the channel. *)
Definition collectStep (acc : gmap nat CheckResult * option error) (r : batchResult)
  : gmap nat CheckResult * option error :=
  match br_outcome r with
  | Err e => (fst acc, Some e)
  | Ok result => (<[ br_index r := result ]> (fst acc), snd acc)
  end.

Definition collect (received : list batchResult)
  : gmap nat CheckResult * option error :=
  foldl collectStep (∅, None) received.

Definition failedItem (batchID : string) (i : nat) : CheckResult :=
  {| Result := ResultTypePass; RiskScore := F32.zero; Risks := [];
     RequestID := "batch_" +:+ batchID +:+ "_idx_" +:+ fmt.itoa (Z.of_nat i);
     Suggestion := ""; CostTime := 0;
     Extra := {[ "error" := "处理失败" ]} |}.

Definition assemble (batchID : string) (n : nat) (resultMap : gmap nat CheckResult)
  : list CheckResult :=
  List.map (fun i => default (failedItem batchID i) (resultMap !! i)) (seq 0 n).

(** [items = items[:max]] when the batch is longer than the maximum. *)
Definition truncate (s : ContentCheckService) (items : list CheckRequest)
  : list CheckRequest :=
  if BatchCheckMaxSize (cfg s) <? Z.of_nat (length items)
  then take (Z.to_nat (BatchCheckMaxSize (cfg s))) items
  else items.

Definition BatchCheckContent {L : Library} (s : ContentCheckService)
    (envs : nat -> CallEnv) (sched : list nat) (totalElapsed : Z)
    (w : Store L) (items : list CheckRequest) (batchID : string)
  : Store L * BatchOutcome :=
  if Z.of_nat (length items) =? 0 then (w, BatchReturn None (Some ErrInvalidRequest))
  else
    let maxSize := BatchCheckMaxSize (cfg s) in
    if (maxSize <? Z.of_nat (length items)) && (maxSize <? 0) then (w, BatchPanic)
    else
      let items := truncate s items in
      let '(w, received) := runTasks s envs items sched w in
      let '(resultMap, lastError) := collect received in
      let results := assemble batchID (length items) resultMap in
      (w, BatchReturn
            (Some {| BatchID := batchID; Results := results;
                     TotalCostTime := totalElapsed |})
            lastError).
End Service.

(** ** Inputs used in the statements *)

(** A request with content only: no user, scene, context or extra data. *)
Definition plainContext (content : string) : CheckContext :=
  {| Content := content; UserID := ""; Scene := ""; ContextItems := [];
     ExtraData := ∅ |}.

(** The result of [Evaluate] when no rule matched. *)
Definition noMatch : RuleEngineResult :=
  {| er_Result := ResultTypePass; er_Score := F32.zero; er_Risks := [];
     er_Suggestion := ""; er_HasExplicitResult := false |}.

(** The rules of [config/rules.json]. *)
Definition defaultRules : list Rule :=
  [ {| rule_ID := "sensitive_words"; rule_Name := "敏感词检测";
       rule_Description := "检测内容中是否包含敏感词";
       rule_Enabled := true; rule_Priority := 100; rule_Action := "block";
       rule_Score := F32.of_Z 80;
       rule_Config := {[ "match_type" := JString "exact"; "words" := JArray;
                         "category" := JString "sensitive" ]} |};
    {| rule_ID := "spam_detection"; rule_Name := "垃圾内容检测";
       rule_Description := "检测内容是否为垃圾信息";
       rule_Enabled := true; rule_Priority := 90; rule_Action := "mark";
       rule_Score := F32.of_Z 60;
       rule_Config := {[ "threshold" := JNumber "0.7"; "patterns" := JArray ]} |};
    {| rule_ID := "context_analysis"; rule_Name := "上下文分析";
       rule_Description := "基于上下文分析内容风险";
       rule_Enabled := true; rule_Priority := 80; rule_Action := "review";
       rule_Score := F32.of_Z 50;
       rule_Config := {[ "context_size" := JNumber "5";
                         "sensitivity" := JString "medium";
                         "categories" := JArray ]} |};
    {| rule_ID := "user_reputation"; rule_Name := "用户信誉";
       rule_Description := "基于用户历史行为评估内容风险";
       rule_Enabled := true; rule_Priority := 70; rule_Action := "none";
       rule_Score := F32.of_Z 30;
       rule_Config := {[ "low_reputation_threshold" := JNumber "20";
                         "high_reputation_threshold" := JNumber "80" ]} |} ].

(** The engine after [loadRules] on that file. *)
Definition defaultEngine : RuleEngine :=
  {| ruleSet :=
       {| Rules := list_to_map (List.map (fun r => (rule_ID r, r)) defaultRules);
          Actions :=
            {[ "block" := {| ra_Name := "阻止"; ra_Description := "阻止内容发布" |};
               "mark" := {| ra_Name := "标记"; ra_Description := "标记内容为可疑" |};
               "review" := {| ra_Name := "人工审核";
                              ra_Description := "将内容提交人工审核" |};
               "none" := {| ra_Name := "无操作"; ra_Description := "不执行任何操作" |} ]};
          RuleCategories :=
            {[ "sensitive" := "敏感内容"; "spam" := "垃圾信息";
               "harassment" := "骚扰"; "hate_speech" := "仇恨言论";
               "violence" := "暴力内容"; "adult" := "成人内容" ]} |};
     ruleFile := "./config/rules.json";
     initialized := true |}.

(** The values of [config.yaml]: threshold 70, a cache life of 300 seconds,
    batches of at most 100. *)
Definition defaultConfig : Config :=
  {| RiskScoreThreshold := 70; CacheTTL := 300; BatchCheckMaxSize := 100 |}.

(** A word store holding one word, and a service over it with the
    sensitive-word detector and the harassment detector registered. *)
Definition oneWordStore : SensitiveWords :=
  {| words := {[ "敏感词1" := true ]};
     filePaths := [ "config/sensitive_words.txt" ] |}.

Definition exampleDetectors : list (string * Detector) :=
  [ ("sensitive",
     SensitiveWordDetector.detector (SensitiveWordsImpl.ContainsWord [ "敏感词1" ]));
    ("harassment", HarassmentDetector.detector) ].

Definition exampleService : ContentCheckService :=
  {| cfg := defaultConfig; ruleEngine := defaultEngine;
     sensitiveWords := oneWordStore;
     detectors := list_to_map exampleDetectors |}.

(** A line that [loadFromFile] skips: blank after trimming, or a comment. *)
Definition skipped (line : string) : Prop :=
  strings.TrimSpace line = "" \/ strings.HasPrefix (strings.TrimSpace line) "#" = true.

(** A source that gives no word: it cannot be opened, or every line the
    scanner yields is skipped. *)
Definition yieldsNothing (fs : string -> FileRead) (path : string) : Prop :=
  (exists e, fs path = OpenFailed e)
  \/ (exists lines scanErr, fs path = Scanned lines scanErr /\ Forall skipped lines).

(** The risk types of a list of items, in order. *)
Definition typesOf (risks : list RiskItem) : list RiskType := List.map Type_ risks.

(** What one detector contributes to the pipeline: its items, or nothing
    when it reports an error. *)
Definition outputOf (d : Detector) (ctx : CheckContext) : list RiskItem :=
  match Detect d ctx with
  | (risks, None) => risks
  | (_, Some _) => []
  end.

(** The detector outputs laid end to end in the order of the visit. *)
Definition detectedBy (order : list (string * Detector)) (ctx : CheckContext)
  : list RiskItem :=
  concat (List.map (fun entry => outputOf (snd entry) ctx) order).

(** Two earlier messages of the user who sends the checked one. *)
Definition twoEarlierMessages : list ContextItem :=
  [ {| ci_Content := "在吗"; ci_UserID := "u1"; ci_Timestamp := 1;
       ci_ContentID := "m1" |};
    {| ci_Content := "回我"; ci_UserID := "u1"; ci_Timestamp := 2;
       ci_ContentID := "m2" |} ].

(** The update of [maxScore]: [if risk.Score > maxScore { maxScore = risk.Score }]. *)
Definition higher (maxScore score : F32.t) : F32.t :=
  if F32.gtb score maxScore then score else maxScore.

(** The values [maxScore] can take: the initial zero, or a value above
    it. *)
Definition fromZero (x : F32.t) : Prop :=
  match x with
  | S754_zero false | S754_infinity false | S754_finite false _ _ => True
  | _ => False
  end.

(** Rules in the order of evaluation: no rule comes before one of
    higher priority. *)
Definition descending (rules : list Rule) : Prop :=
  forall k j rk rj, (k < j)%nat -> rules !! k = Some rk -> rules !! j = Some rj ->
                    rule_Priority rj <= rule_Priority rk.

(** The state of the sort after [m] rounds of the outer loop, and of one
    round after the inner loop has passed index [upto]. *)
Definition sortedUpTo (m : nat) (rules : list Rule) : Prop :=
  forall k j rk rj, (k < m)%nat -> (k < j)%nat ->
                    rules !! k = Some rk -> rules !! j = Some rj ->
                    rule_Priority rj <= rule_Priority rk.

Definition headAbove (i upto : nat) (rules : list Rule) : Prop :=
  forall j ri rj, (i < j < upto)%nat ->
                  rules !! i = Some ri -> rules !! j = Some rj ->
                  rule_Priority rj <= rule_Priority ri.

(** The items appended by the rule loop over [rules]: one for each
    enabled rule that matches with an item. *)
Definition matchedItems (evalRule : Rule -> bool * option RiskItem)
    (rules : list Rule) : list RiskItem :=
  flat_map (fun rule =>
              if rule_Enabled rule then
                match evalRule rule with
                | (true, Some item) => [item]
                | _ => []
                end
              else [])
           rules.

(** An enabled rule that matches and whose action maps to Reject. *)
Definition rejects (evalRule : Rule -> bool * option RiskItem) (rule : Rule) : Prop :=
  rule_Enabled rule = true
  /\ fst (evalRule rule) = true
  /\ RuleEngineImpl.getActionType (rule_Action rule) = ResultTypeReject.

(** A per-rule evaluator that does match: the rule [sensitive_words] fires
    with one item, every other rule does not. *)
Definition sensitiveOnly (rule : Rule) (ctx : CheckContext)
    (existingRiskTypes : gmap RiskType bool) : bool * option RiskItem :=
  if decide (rule_ID rule = "sensitive_words")
  then (true, Some (NewRiskItem RiskTypeSensitiveWord (rule_Score rule)
                      (rule_Description rule)))
  else (false, None).




(** The instant at which a request entered at [now env] writes the cache. *)
Definition writeTime (env : CallEnv) : Z :=
  now env + elapsed env * Service.nanosPerMilli.

(** A library for the examples: values are stored as they are and a string
    is its own digest. *)
Definition plainLibrary : Library :=
  {| blob := CheckResult; json_Marshal := Some; json_Unmarshal := Some;
     HashString := fun s => s |}.

(** A request environment with Redis up, the example detectors and the
    default rules. *)
Definition exampleEnv (at_ : Z) : CallEnv :=
  {| now := at_; elapsed := 5; redisGetOk := true; redisSetOk := true;
     detectorOrder := exampleDetectors; ruleVisit := defaultRules |}.

(** *** Remote-signal detectors as state machines

    The three remote detectors under one interface: a [Detect] call takes
    the detector state and the network of that moment and gives the next
    state, the Go results and the requests sent. *)
Class RemoteSignal (D : Type) := {
  Request : Type;
  Reply : Type;
  remoteDetect :
    D -> (Request -> res Reply) -> CheckContext ->
    D * (list RiskItem * option error) * list Request
}.

#[global] Instance NLP_remote : RemoteSignal NLPDetector.t :=
  {| Request := string; Reply := AnalysisResult;
     remoteDetect := NLPDetector.Detect |}.

#[global] Instance SemanticNLP_remote : RemoteSignal SemanticNLPDetector.t :=
  {| Request := string; Reply := AnalysisResult;
     remoteDetect := SemanticNLPDetector.Detect |}.

#[global] Instance AI_remote : RemoteSignal AIDetector.t :=
  {| Request := AIDetector.AIRequestBody; Reply := AIDetector.AIResponseBody;
     remoteDetect := fun d net ctx =>
       let '(out, sent) := AIDetector.Detect d net ctx in (d, out, sent) |}.






(** The errors that arrive on the channel, in order of arrival. *)
Definition errorsSeen (received : list batchResult) : list error :=
  omap (fun r => match br_outcome r with
                 | Err e => Some e
                 | Ok _ => None
                 end) received.

(** What the task of item [i] returns when it runs as the [k]-th task of
    the schedule: [CheckContent] on its own request, against the store the
    [k] tasks before it have left. *)
Definition taskOutcome {L : Library} (s : ContentCheckService) (envs : nat -> CallEnv)
    (items : list CheckRequest) (sched : list nat) (w : Store L)
    (k i : nat) (req : CheckRequest) : res CheckResult :=
  snd (Service.CheckContent s (envs i)
         (fst (Service.runTasks s envs items (take k sched) w))
         (req_Content req) (req_UserID req) (req_Scene req) (req_ExtraData req)).

(** A batch of three requests, the second with empty content. *)
Definition exampleBatch : list CheckRequest :=
  List.map (fun content => {| req_Content := content; req_UserID := "u1";
                              req_Scene := "post"; req_RequestID := "";
                              req_ExtraData := ∅ |})
           [ "你好"; ""; "骚扰" ].

(** ** Further definitions used in the properties *)

(** The entries of a visit whose detector answers without an error. *)
Definition answering (ctx : CheckContext) (order : list (string * Detector))
  : list (string * Detector) :=
  List.filter (fun entry => match snd (Detect (snd entry) ctx) with
                            | None => true
                            | Some _ => false
                            end) order.

(** The reasons for which the read of the cache misses: Redis does not
    answer, the key is absent, the entry has expired, or its bytes do not
    decode. *)
Definition cacheMiss {L : Library} (env : CallEnv) (w : Store L) (key : string)
  : Prop :=
  redisGetOk env = false
  \/ w !! key = None
  \/ (exists data deadline, w !! key = Some (data, Some deadline)
                            /\ deadline <= now env)
  \/ (exists data deadline, w !! key = Some (data, deadline)
                            /\ json_Unmarshal L data = None).

(** The service of the examples with batches of at most two items. *)
Definition smallBatchService : ContentCheckService :=
  {| cfg := {| RiskScoreThreshold := 70; CacheTTL := 300; BatchCheckMaxSize := 2 |};
     ruleEngine := defaultEngine; sensitiveWords := oneWordStore;
     detectors := list_to_map exampleDetectors |}.

(** [err.Error()]. *)
Definition errorString (e : error) : string :=
  match e with
  | ErrEmptyContent => "content is empty"
  | ErrInvalidRequest => "invalid request"
  | ErrRuleNotFound => "rule not found"
  | ErrInternalServer => "internal server error"
  | Errorf msg => msg
  end.



(** A float that is zero or below zero. *)
Definition notAboveZero (x : F32.t) : bool :=
  match x with
  | S754_zero _ | S754_infinity true | S754_finite true _ _ => true
  | _ => false
  end.

(** The service of the examples with the reject threshold set to 0. *)
Definition zeroThresholdService : ContentCheckService :=
  {| cfg := {| RiskScoreThreshold := 0; CacheTTL := 300; BatchCheckMaxSize := 100 |};
     ruleEngine := defaultEngine; sensitiveWords := oneWordStore;
     detectors := list_to_map exampleDetectors |}.

(** *** Loading the rules *)

(** A call that ends in a run-time panic, or returns. *)
Inductive outcome (A : Type) :=
| Panicked
| Returned (a : A).
Arguments Panicked {A}.
Arguments Returned {A} a.

(** The struct [ruleData] that [loadRules] decodes the file into. The
    entries of [rules] are pointers: a JSON [null] in the array gives a nil
    entry, here [None]. *)
Record RuleData := {
  rd_Rules : list (option Rule);
  rd_Actions : gmap string RuleAction;
  rd_Categories : gmap string string
}.

(** The file system and the JSON decoder, as [loadRules] sees them. *)
Record RuleSource := {
  ioutil_ReadFile : string -> res string;
  json_UnmarshalRules : string -> res RuleData
}.

Module RuleLoader.
(** [for _, rule := range ruleData.Rules { ruleSet.Rules[rule.ID] = rule }];
    reading [rule.ID] through a nil pointer panics. *)
Fixpoint storeRules (rules : list (option Rule)) (m : gmap string Rule)
  : option (gmap string Rule) :=
  match rules with
  | [] => Some m
  | None :: _ => None
  | Some rule :: rest => storeRules rest (<[ rule_ID rule := rule ]> m)
  end.

Definition loadRules (src : RuleSource) (e : RuleEngine)
  : outcome (RuleEngine * option error) :=
  match ioutil_ReadFile src (ruleFile e) with
  | Err err =>
      Returned (e, Some (Errorf ("failed to read rule file: " +:+ errorString err)))
  | Ok data =>
      match json_UnmarshalRules src data with
      | Err err =>
          Returned (e, Some (Errorf ("failed to unmarshal rule data: " +:+ errorString err)))
      | Ok ruleData =>
          match storeRules (rd_Rules ruleData) ∅ with
          | None => Panicked
          | Some rules =>
              Returned ({| ruleSet := {| Rules := rules;
                                         Actions := rd_Actions ruleData;
                                         RuleCategories := rd_Categories ruleData |};
                           ruleFile := ruleFile e;
                           initialized := true |}, None)
          end
      end
  end.

Definition NewRuleEngine (src : RuleSource) (ruleFile : string)
  : outcome (res RuleEngine) :=
  let engine := {| ruleSet := {| Rules := ∅; Actions := ∅; RuleCategories := ∅ |};
                   ruleFile := ruleFile; initialized := false |} in
  match loadRules src engine with
  | Panicked => Panicked
  | Returned (_, Some err) => Returned (Err err)
  | Returned (engine, None) => Returned (Ok engine)
  end.
End RuleLoader.

(** The rule with identifier [id] that the loop of [loadRules] leaves in
    the map: the last one of the file. *)
Definition lastWithID (id : string) (rules : list Rule) : option Rule :=
  last (List.filter (fun rule => bool_decide (rule_ID rule = id)) rules).

(** A source that serves the default rules from one file and fails on
    every other path. *)
Definition defaultRuleData : RuleData :=
  {| rd_Rules := List.map Some defaultRules;
     rd_Actions := Actions (ruleSet defaultEngine);
     rd_Categories := RuleCategories (ruleSet defaultEngine) |}.

Definition defaultSource : RuleSource :=
  {| ioutil_ReadFile := fun path =>
       if decide (path = "./config/rules.json") then Ok "rules"
       else Err (Errorf ("open " +:+ path +:+ ": no such file or directory"));
     json_UnmarshalRules := fun data =>
       if decide (data = "rules") then Ok defaultRuleData
       else Err (Errorf "unexpected end of JSON input") |}.

(** The enabled rules that match, in the order of evaluation. *)
Definition matchedRules (evalRule : Rule -> bool * option RiskItem)
    (rules : list Rule) : list Rule :=
  List.filter (fun rule => rule_Enabled rule && fst (evalRule rule)) rules.

(** A per-rule evaluator that matches the rules [spam_detection] and
    [context_analysis], with one item each. *)
Definition spamAndContext (rule : Rule) (ctx : CheckContext)
    (existingRiskTypes : gmap RiskType bool) : bool * option RiskItem :=
  if decide (rule_ID rule = "spam_detection")
  then (true, Some (NewRiskItem RiskTypeSpam (rule_Score rule) (rule_Description rule)))
  else if decide (rule_ID rule = "context_analysis")
  then (true, Some (NewRiskItem RiskTypeContextViolation (rule_Score rule)
                      (rule_Description rule)))
  else (false, None).

(** *** The word store as its users see it *)

Module SensitiveWordsQuery.
(** [GetAllWords]; [visit] lists the keys of [sw.words] in the order of
    the [range]. *)
Definition GetAllWords (visit : list string) : list string :=
  foldl (fun words word => words ++ [word]) [] visit.
End SensitiveWordsQuery.

(** [visit] is an order in which a [range] can go over the keys of
    [words]: every key once. *)
Definition rangesOver (visit : list string) (words : gmap string bool) : Prop :=
  NoDup visit /\ forall word, word ∈ visit <-> is_Some (words !! word).

(** The stores a program can hold: made by [NewSensitiveWords] and changed
    by the exported methods, with the files as they are at each call. *)
Inductive built : SensitiveWords -> Prop :=
| built_New fs : built (SensitiveWordsImpl.NewSensitiveWords fs)
| built_Update fs sw : built sw -> built (fst (SensitiveWordsImpl.Update fs sw))
| built_AddWord sw word : built sw -> built (SensitiveWordsImpl.AddWord sw word)
| built_RemoveWord sw word : built sw -> built (SensitiveWordsImpl.RemoveWord sw word)
| built_SetWordList sw l : built sw -> built (SensitiveWordsImpl.SetWordList sw l)
| built_AddFilePath sw path : built sw -> built (SensitiveWordsImpl.AddFilePath sw path).

(** The line [line] of a word file gives the word [word]. *)
Definition gives (line word : string) : Prop :=
  strings.TrimSpace line = word /\ word <> ""
  /\ strings.HasPrefix word "#" = false.

Definition givesb (line word : string) : bool :=
  bool_decide (strings.TrimSpace line = word)
  && negb (bool_decide (word = "")) && negb (strings.HasPrefix word "#").

Definition fileGives (fs : string -> FileRead) (path word : string) : bool :=
  match fs path with
  | OpenFailed _ => false
  | Scanned lines _ => existsb (fun line => givesb line word) lines
  end.

(** A word file with a comment, a blank line and two words, the read of
    which breaks off with an error after the last line. *)
Definition brokenFile : string -> FileRead :=
  fun path =>
    if decide (path = "config/sensitive_words.txt")
    then Scanned [ "# 敏感词"; "  "; " 赌博 "; "诈骗" ] (Some (Errorf "read error"))
    else OpenFailed (Errorf "open: no such file").

(** *** Inputs for the detector properties *)

(** The number of context messages sent by [u]. *)
Definition messagesOf (ctx : CheckContext) (u : string) : nat :=
  length (filter (fun item => ci_UserID item = u) (ContextItems ctx)).

(** Three earlier messages, two of them by another user. *)
Definition crowdedContext : CheckContext :=
  {| Content := "在吗"; UserID := "u1"; Scene := "chat";
     ContextItems :=
       [ {| ci_Content := "你好"; ci_UserID := "u2"; ci_Timestamp := 1;
            ci_ContentID := "m1" |};
         {| ci_Content := "在"; ci_UserID := "u1"; ci_Timestamp := 2;
            ci_ContentID := "m2" |};
         {| ci_Content := "不要再发了"; ci_UserID := "u2"; ci_Timestamp := 3;
            ci_ContentID := "m3" |} ];
     ExtraData := ∅ |}.

(** *** The remote detectors in the pipeline *)

(** A float above zero. *)
Definition aboveZero (x : F32.t) : bool :=
  match x with
  | S754_infinity false | S754_finite false _ _ => true
  | _ => false
  end.


Definition SemanticNLP_detector (d : SemanticNLPDetector.t)
    (net : string -> res AnalysisResult) : Detector :=
  Build_Detector (fun ctx => snd (fst (SemanticNLPDetector.Detect d net ctx))).


(** Some context message, of whatever user, holds a word of refusal. *)
Definition refusalInContext (ctx : CheckContext) : Prop :=
  exists item, item ∈ ContextItems ctx
               /\ NLPDetector.containsRejection (ci_Content item) = true.


(** What a live analysis [result] is turned into, for the threshold
    [threshold]. *)
Definition liveRules (threshold : F32.t) (result : AnalysisResult)
    (ctx : CheckContext) (out : list RiskItem * option error) : Prop :=
  snd out = None
  /\ sublist (List.map Score (fst out))
       [ F32.mul (Risk result) (F32.of_Z 100); F32.mul (Risk result) (F32.of_Z 80);
         F32.mul (Risk result) (F32.of_Z 90) ]
  /\ (F32.gtb (Risk result) threshold = false ->
      Forall (fun item => Type_ item = RiskTypeContextViolation) (fst out))
  /\ ((exists item, item ∈ fst out /\ Type_ item = RiskTypeContextViolation)
      <-> refusalInContext ctx).

(** A live detector, the same detector in fallback mode, and a reply of
    the model that finds nothing. *)
Definition liveDetector : NLPDetector.t :=
  {| NLPDetector.apiKey := "http://localhost:8001";
     NLPDetector.model := "gpt-3.5-turbo";
     NLPDetector.threshold := F32.of_decimal 6 1;
     NLPDetector.contextSize := 5;
     NLPDetector.categories := NLPDetector.defaultCategories;
     NLPDetector.fallbackMode := false |}.


Definition calmReply : AnalysisResult :=
  {| IsToxic := false; Categories := ∅; Explanation := "无风险";
     Intent := "neutral"; Sentiment := "neutral"; Risk := F32.zero |}.

(** *** Starting the service *)

(** The fields of [config.Config] that [NewContentCheckService] reads,
    next to those of [Config]. *)
Record StartupConfig := {
  sc_ContentCheck : Config;
  sc_UseMLModel : bool;
  sc_ContextHistorySize : Z;
  sc_AIService_URL : string;
  sc_AIService_APIKey : string;
  sc_AIService_Timeout : Z;
  sc_NLPService_Enabled : bool;
  sc_NLPService_ServerPort : Z;
  sc_NLPService_Threshold : F32.t;
  sc_NLPService_ContextSize : Z;
  sc_NLPService_UseLocalLLM : bool;
  sc_NLPService_LocalLLMAPI : string;
  sc_RuleEngine_DefaultRulesPath : string
}.

(** What the constructor finds outside the program: the rule file and
    its decoder, the word files, and the outcome of the connection probes
    of the two detectors of the NLP kind. *)
Record StartupEnv := {
  se_rules : RuleSource;
  se_files : string -> FileRead;
  se_nlpProbe : option error;
  se_localLLMProbe : option error
}.

(** The implementations of the [Detector] interface, as the values the
    registry holds. *)
Inductive Registered :=
| RegSensitiveWord (sensitiveWords : SensitiveWords)
| RegSpam
| RegHarassment
| RegSemantic (contextSize : Z) (threshold : F32.t)
| RegNLP (d : NLPDetector.t)
| RegAI (d : AIDetector.t)
| RegSemanticNLP (d : SemanticNLPDetector.t).

Record StartedService := {
  st_cfg : StartupConfig;
  st_ruleEngine : RuleEngine;
  st_sensitiveWords : SensitiveWords;
  st_detectors : gmap string Registered
}.

Module Startup.
(** An [int64] computed with wrap-around. *)
Definition int64 (n : Z) : Z := (n + 2 ^ 63) mod 2 ^ 64 - 2 ^ 63.

Definition NewContentCheckService (env : StartupEnv) (cfg : StartupConfig)
  : outcome (res StartedService) :=
  match RuleLoader.NewRuleEngine (se_rules env) (sc_RuleEngine_DefaultRulesPath cfg) with
  | Panicked => Panicked
  | Returned (Err err) =>
      Returned (Err (Errorf ("failed to initialize rule engine: "
                             +:+ errorString err)))
  | Returned (Ok ruleEngine) =>
      let sensitiveWords := SensitiveWordsImpl.NewSensitiveWords (se_files env) in
      let detectors : gmap string Registered := ∅ in
      let detectors := <[ "sensitive" := RegSensitiveWord sensitiveWords ]> detectors in
      let detectors := <[ "spam" := RegSpam ]> detectors in
      let detectors := <[ "harassment" := RegHarassment ]> detectors in
      let detectors :=
        <[ "semantic" := RegSemantic (sc_ContextHistorySize cfg) (F32.of_decimal 3 1) ]>
          detectors in
      let detectors :=
        if sc_NLPService_Enabled cfg then
          let nlpEndpoint :=
            "http://localhost:" +:+ fmt.itoa (sc_NLPService_ServerPort cfg) in
          match NLPDetector.NewNLPDetector nlpEndpoint (sc_NLPService_Threshold cfg)
                  (sc_NLPService_ContextSize cfg) (se_nlpProbe env) with
          | (Some nlpDetector, None) => <[ "nlp" := RegNLP nlpDetector ]> detectors
          | _ => detectors
          end
        else detectors in
      let detectors :=
        if sc_UseMLModel cfg then
          match AIDetector.NewAIDetector (sc_AIService_URL cfg)
                  (sc_AIService_APIKey cfg)
                  (int64 (int64 (sc_AIService_Timeout cfg) * 1000000)) with
          | Ok aiDetector => <[ "ai" := RegAI aiDetector ]> detectors
          | Err _ => detectors
          end
        else detectors in
      let detectors :=
        if sc_NLPService_UseLocalLLM cfg then
          let localLLMAPI :=
            if decide (sc_NLPService_LocalLLMAPI cfg = "")
            then "http://localhost:11434/api/chat"
            else sc_NLPService_LocalLLMAPI cfg in
          match SemanticNLPDetector.NewSemanticNLPDetector localLLMAPI
                  (sc_NLPService_Threshold cfg) (sc_NLPService_ContextSize cfg)
                  (se_localLLMProbe env) with
          | (Some semanticNLPDetector, None) =>
              <[ "semantic_nlp" := RegSemanticNLP semanticNLPDetector ]> detectors
          | _ => detectors
          end
        else detectors in
      Returned (Ok {| st_cfg := cfg; st_ruleEngine := ruleEngine;
                      st_sensitiveWords := sensitiveWords;
                      st_detectors := detectors |})
  end.
End Startup.

(** The settings of [config.yaml] with all three optional detectors
    switched on, and a start in which the probe of the local model
    fails. *)
Definition fullConfig : StartupConfig :=
  {| sc_ContentCheck := defaultConfig;
     sc_UseMLModel := true;
     sc_ContextHistorySize := 5;
     sc_AIService_URL := "http://localhost:8000";
     sc_AIService_APIKey := "your_api_key_here";
     sc_AIService_Timeout := 5000;
     sc_NLPService_Enabled := true;
     sc_NLPService_ServerPort := 8001;
     sc_NLPService_Threshold := F32.of_decimal 6 1;
     sc_NLPService_ContextSize := 5;
     sc_NLPService_UseLocalLLM := true;
     sc_NLPService_LocalLLMAPI := "";
     sc_RuleEngine_DefaultRulesPath := "./config/rules.json" |}.

Definition modelDown : StartupEnv :=
  {| se_rules := defaultSource; se_files := brokenFile;
     se_nlpProbe := None;
     se_localLLMProbe := Some (Errorf "连接本地模型服务失败") |}.

(** How severe a verdict is: Pass, Warning, Review, Reject in rising
    order (the numbering of [ResultType] follows another order). *)
Definition severity (r : ResultType) : nat :=
  match r with
  | ResultTypePass => 0
  | ResultTypeWarning => 1
  | ResultTypeReview => 2
  | ResultTypeReject => 3
  end.

(** ** The gRPC and HTTP servers *)

(** The generated protobuf types: an enum is its [int32] number. *)
Module pb.
Definition ResultType_PASS : Z := 0.
Definition ResultType_REVIEW : Z := 1.
Definition ResultType_REJECT : Z := 2.
Definition ResultType_WARNING : Z := 3.

Record RiskItem := {
  ri_Type : Z; ri_Score : F32.t; ri_Description : string;
  ri_Details : gmap string string
}.

Record CheckContentRequest := {
  rq_Content : string; rq_UserId : string; rq_Scene : string;
  rq_RequestId : string; rq_ExtraData : gmap string string
}.

Record ContextItem := {
  cx_Content : string; cx_UserId : string; cx_Timestamp : Z; cx_ContentId : string
}.

Record CheckContentWithContextRequest := {
  rc_Content : string; rc_UserId : string; rc_Scene : string;
  rc_RequestId : string; rc_ContextItems : list ContextItem;
  rc_ExtraData : gmap string string
}.

Record BatchCheckContentRequest := {
  rb_Items : list CheckContentRequest; rb_BatchId : string
}.

Record CheckContentResponse := {
  rp_Result : Z; rp_RiskScore : F32.t; rp_Risks : list RiskItem;
  rp_RequestId : string; rp_Suggestion : string; rp_CostTime : Z;
  rp_Extra : gmap string string
}.

Record BatchCheckContentResponse := {
  rp_Results : list CheckContentResponse; rp_BatchId : string;
  rp_TotalCostTime : Z
}.
End pb.

(** A gRPC status error, by its code and message. *)
Inductive Status :=
| InvalidArgument (msg : string)
| Internal (msg : string).

Module GRPCServer.
Definition convertToProtoResponse (result : CheckResult) : pb.CheckContentResponse :=
  {| pb.rp_Result := Z.of_nat (ResultType_value (Result result));
     pb.rp_RiskScore := RiskScore result;
     pb.rp_Risks :=
       List.map (fun risk => {| pb.ri_Type := Z.of_nat (RiskType_value (Type_ risk));
                                pb.ri_Score := Score risk;
                                pb.ri_Description := Description risk;
                                pb.ri_Details := Details risk |})
                (Risks result);
     pb.rp_RequestId := RequestID result;
     pb.rp_Suggestion := Suggestion result;
     pb.rp_CostTime := CostTime result;
     pb.rp_Extra := Extra result |}.

Definition CheckContent {L : Library} (s : ContentCheckService) (env : CallEnv)
    (w : Store L) (req : pb.CheckContentRequest)
  : Store L * (Status + pb.CheckContentResponse) :=
  if decide (pb.rq_Content req = "")
  then (w, inl (InvalidArgument "content cannot be empty"))
  else
    let extraData := pb.rq_ExtraData req in
    match Service.CheckContent s env w (pb.rq_Content req) (pb.rq_UserId req)
            (pb.rq_Scene req) extraData with
    | (w, Err err) =>
        (w, inl (Internal ("failed to check content: " +:+ errorString err)))
    | (w, Ok result) => (w, inr (convertToProtoResponse result))
    end.

Definition CheckContentWithContext (s : ContentCheckService) (env : CallEnv)
    (req : pb.CheckContentWithContextRequest)
  : Status + pb.CheckContentResponse :=
  if decide (pb.rc_Content req = "")
  then inl (InvalidArgument "content cannot be empty")
  else
    let extraData := pb.rc_ExtraData req in
    let contextItems :=
      List.map (fun item => {| ci_Content := pb.cx_Content item;
                               ci_UserID := pb.cx_UserId item;
                               ci_Timestamp := pb.cx_Timestamp item;
                               ci_ContentID := pb.cx_ContentId item |})
               (pb.rc_ContextItems req) in
    match Service.CheckContentWithContext s env (pb.rc_Content req)
            (pb.rc_UserId req) (pb.rc_Scene req) contextItems extraData with
    | Err err =>
        inl (Internal ("failed to check content with context: "
                       +:+ errorString err))
    | Ok result => inr (convertToProtoResponse result)
    end.

(** [result.BatchID] on a nil [result] is a nil dereference. *)
Definition BatchCheckContent {L : Library} (s : ContentCheckService)
    (envs : nat -> CallEnv) (sched : list nat) (totalElapsed : Z)
    (w : Store L) (req : pb.BatchCheckContentRequest)
  : Store L * outcome (Status + pb.BatchCheckContentResponse) :=
  if Z.of_nat (length (pb.rb_Items req)) =? 0
  then (w, Returned (inl (InvalidArgument "items cannot be empty")))
  else
    let items :=
      List.map (fun item => {| req_Content := pb.rq_Content item;
                               req_UserID := pb.rq_UserId item;
                               req_Scene := pb.rq_Scene item;
                               req_RequestID := pb.rq_RequestId item;
                               req_ExtraData := pb.rq_ExtraData item |})
               (pb.rb_Items req) in
    match Service.BatchCheckContent s envs sched totalElapsed w items
            (pb.rb_BatchId req) with
    | (w, BatchPanic) => (w, Panicked)
    | (w, BatchReturn None _) => (w, Panicked)
    | (w, BatchReturn (Some result) _) =>
        (w, Returned (inr {| pb.rp_BatchId := BatchID result;
                             pb.rp_TotalCostTime := TotalCostTime result;
                             pb.rp_Results :=
                               List.map convertToProtoResponse (Results result) |}))
    end.
End GRPCServer.

(** The JSON body of an HTTP answer: a failure, the fields of one
    verdict, or the fields of a batch. *)
Inductive HTTPBody :=
| FailureBody (error : string)
| CheckBody (result : ResultType) (risk_score : F32.t) (risks : list RiskItem)
    (request_id suggestion : string) (cost_time : Z) (extra : gmap string string)
| BatchBody (batch_id : string) (results : list CheckResult) (total_cost_time : Z)
    (error : option error).

Record HTTPResponse := { http_status : Z; http_body : HTTPBody }.

Record HTTPCheckRequest := {
  hq_Content : string; hq_UserID : string; hq_Scene : string;
  hq_ExtraData : gmap string string
}.

(** The entries of [Items] are pointers: a JSON [null] gives a nil entry,
    here [None]. *)
Record HTTPBatchCheckRequest := {
  hb_Items : list (option HTTPCheckRequest); hb_BatchID : string
}.

Module HTTPServer.
Definition StatusOK : Z := 200.
Definition StatusBadRequest : Z := 400.
Definition StatusInternalServerError : Z := 500.

(** [bound] is what [c.ShouldBindJSON] gives. *)
Definition CheckContent {L : Library} (s : ContentCheckService) (env : CallEnv)
    (w : Store L) (bound : res HTTPCheckRequest) : Store L * HTTPResponse :=
  match bound with
  | Err err =>
      (w, {| http_status := StatusBadRequest;
             http_body := FailureBody ("Invalid request: " +:+ errorString err) |})
  | Ok req =>
      match Service.CheckContent s env w (hq_Content req) (hq_UserID req)
              (hq_Scene req) (hq_ExtraData req) with
      | (w, Err err) =>
          (w, {| http_status := StatusInternalServerError;
                 http_body :=
                   FailureBody ("Failed to check content: " +:+ errorString err) |})
      | (w, Ok result) =>
          (w, {| http_status := StatusOK;
                 http_body :=
                   CheckBody (Result result) (RiskScore result) (Risks result)
                     (RequestID result) (Suggestion result) (CostTime result)
                     (Extra result) |})
      end
  end.

(** The loop that copies the items; reading a field through a nil entry
    panics. *)
Fixpoint copyItems (items : list (option HTTPCheckRequest))
  : option (list CheckRequest) :=
  match items with
  | [] => Some []
  | None :: _ => None
  | Some item :: rest =>
      match copyItems rest with
      | None => None
      | Some copied =>
          Some ({| req_Content := hq_Content item; req_UserID := hq_UserID item;
                   req_Scene := hq_Scene item; req_RequestID := "";
                   req_ExtraData := hq_ExtraData item |} :: copied)
      end
  end.

(** [stamp] is [time.Now().Format("20060102150405")]. *)
Definition BatchCheckContent {L : Library} (s : ContentCheckService)
    (envs : nat -> CallEnv) (sched : list nat) (totalElapsed : Z) (stamp : string)
    (w : Store L) (bound : res HTTPBatchCheckRequest)
  : Store L * outcome HTTPResponse :=
  match bound with
  | Err err =>
      (w, Returned {| http_status := StatusBadRequest;
                      http_body :=
                        FailureBody ("Invalid request: " +:+ errorString err) |})
  | Ok req =>
      match copyItems (hb_Items req) with
      | None => (w, Panicked)
      | Some items =>
          let batchID :=
            if decide (hb_BatchID req = "") then "batch_" +:+ stamp
            else hb_BatchID req in
          match Service.BatchCheckContent s envs sched totalElapsed w items batchID with
          | (w, BatchPanic) => (w, Panicked)
          | (w, BatchReturn None _) => (w, Panicked)
          | (w, BatchReturn (Some result) err) =>
              (w, Returned {| http_status := StatusOK;
                              http_body :=
                                BatchBody (BatchID result) (Results result)
                                  (TotalCostTime result) err |})
          end
      end
  end.
End HTTPServer.

(** The names of the protobuf enum [ResultType]. *)
Definition pbResultName (n : Z) : option string :=
  if n =? pb.ResultType_PASS then Some "PASS"
  else if n =? pb.ResultType_REVIEW then Some "REVIEW"
  else if n =? pb.ResultType_REJECT then Some "REJECT"
  else if n =? pb.ResultType_WARNING then Some "WARNING"
  else None.

Definition resultName (r : ResultType) : string :=
  match r with
  | ResultTypePass => "PASS"
  | ResultTypeReview => "REVIEW"
  | ResultTypeReject => "REJECT"
  | ResultTypeWarning => "WARNING"
  end.

(** A gRPC request for one content, and an HTTP batch of two items, the
    second without content. *)
Definition helloRequest : pb.CheckContentRequest :=
  {| pb.rq_Content := "你好"; pb.rq_UserId := "u1"; pb.rq_Scene := "post";
     pb.rq_RequestId := ""; pb.rq_ExtraData := ∅ |}.

Definition twoItems : HTTPBatchCheckRequest :=
  {| hb_Items :=
       [ Some {| hq_Content := "你好"; hq_UserID := "u1"; hq_Scene := "post";
                 hq_ExtraData := ∅ |};
         Some {| hq_Content := ""; hq_UserID := "u1"; hq_Scene := "post";
                 hq_ExtraData := ∅ |} ];
     hb_BatchID := "" |}.

(** ** The semantic detector *)

(** [float64] values: binary64 floats. *)
Module F64.
Definition prec : Z := 53.
Definition emax : Z := 1024.
Definition t : Type := spec_float.
Definition of_Z (n : Z) : t := binary_normalize prec emax n 0 false.
Definition div (x y : t) : t := SFdiv prec emax x y.
Definition gtb (x y : t) : bool := SFltb y x.
End F64.

(** [%.1f]: the exact binary value rounded to one decimal, ties to
    even. *)
Definition fmt_f1 (x : spec_float) : string :=
  let sign (s : bool) := if s then "-" else "" in
  match x with
  | S754_zero s => sign s +:+ "0.0"
  | S754_infinity s => if s then "-Inf" else "+Inf"
  | S754_nan => "NaN"
  | S754_finite s m e =>
      let n := if 0 <=? e then Zpos m * 2 ^ e * 10
               else fmt.round_half_even (Zpos m * 10) (2 ^ (- e)) in
      sign s +:+ fmt.itoa (n / 10) +:+ "." +:+ fmt.itoa (n mod 10)
  end.

Module SemanticDetector.
Definition respectfulPattern : string :=
  "(?i)(您好|请问|麻烦|谢谢|感谢|劳驾|打扰了|不好意思)".
Definition greetingPattern : string :=
  "(?i)(早上好|上午好|中午好|下午好|晚上好|晚安|早安|嗨|喂|你好)".
Definition familyPattern : string :=
  "(?i)(你妈妈|你爸爸|你爷爷|你奶奶|你哥哥|你姐姐)(?:怎么样|好吗|还好吗|身体好吗)".
Definition insultPattern : string :=
  "(?i)(滚蛋|傻逼|废物|混蛋|白痴|笨蛋|蠢货|智障|垃圾|贱人|去死)".
Definition commandPattern : string :=
  "(?i)(必须|一定要|给我|立刻|马上|快点)(.{0,15})(否则|不然|不许|不准|要不然)".
Definition threatPattern : string :=
  "(?i)(小心|当心|后果|威胁|找你|等着|报复)".

Record textCategory := {
  category : string;
  confidence : F32.t;
  description : string
}.

Record t := { contextSize : Z; threshold : F32.t }.

Definition NewSemanticDetector (contextSize : Z) (threshold : F32.t) : t :=
  {| contextSize := contextSize; threshold := threshold |}.

Definition getCategoryRiskType (category : string) : RiskType :=
  if decide (category = "insult") then RiskTypeHarassment
  else if decide (category = "command") then RiskTypeHarassment
  else if decide (category = "threat") then RiskTypeHarassment
  else if decide (category = "spam") then RiskTypeSpam
  else RiskTypeUnknown.

Definition getCategoryDescription (category : string) : string :=
  if decide (category = "insult") then "侮辱性"
  else if decide (category = "command") then "命令性"
  else if decide (category = "threat") then "威胁性"
  else if decide (category = "spam") then "垃圾信息"
  else "未知".

Definition min (a b : Z) : Z := if a <? b then a else b.

Definition max (a b : F64.t) : F64.t := if F64.gtb a b then a else b.

Definition patternBasedDetection (re : Regexp) (content : string)
    (risks : list RiskItem) : bool * list RiskItem :=
  if MatchString re insultPattern content then
    (true, risks ++ [ NewRiskItem RiskTypeHarassment (F32.of_Z 85)
                        "检测到直接侮辱性语言" ])
  else if MatchString re threatPattern content then
    (true, risks ++ [ NewRiskItem RiskTypeHarassment (F32.of_Z 75)
                        "检测到潜在威胁性语言" ])
  else if MatchString re commandPattern content
          && strings.Contains content "你妈"
          && negb (MatchString re familyPattern content)
          && negb (MatchString re greetingPattern content) then
    (true, risks ++ [ NewRiskItem RiskTypeHarassment (F32.of_Z 80)
                        "检测到针对家人的负面表达" ])
  else (false, risks).

Definition familyTermAnalysis (re : Regexp) (content : string)
    (contextItems : list ContextItem) (risks : list RiskItem)
  : bool * list RiskItem :=
  if strings.Contains content "你妈" || strings.Contains content "你爸"
     || strings.Contains content "你爷" then
    if MatchString re familyPattern content
       || MatchString re respectfulPattern content
       || MatchString re greetingPattern content then (false, risks)
    else
      let hasRejection :=
        existsb (fun item =>
                   strings.Contains (ci_Content item) "不要"
                   || strings.Contains (ci_Content item) "别"
                   || strings.Contains (ci_Content item) "停止"
                   || strings.Contains (ci_Content item) "讨厌")
                contextItems in
      if hasRejection then
        (true, risks ++ [ NewRiskItem RiskTypeHarassment (F32.of_Z 75)
                            "检测到在对方反感后使用带有亲属词的可能冒犯内容" ])
      else (false, risks)
  else (false, risks).

(** The map [categories] of [classifyText]. *)
Definition categories : list (string * list string) :=
  [ ("insult", [ "废物"; "垃圾"; "蠢货"; "白痴"; "傻逼"; "混蛋"; "笨蛋"; "去死"; "滚蛋" ]);
    ("command", [ "必须"; "一定"; "马上"; "立刻"; "给我"; "快点" ]);
    ("threat", [ "小心"; "当心"; "威胁"; "后果"; "找你"; "报复" ]);
    ("spam", [ "优惠"; "打折"; "促销"; "免费"; "赚钱"; "发财"; "中奖"; "红包" ]) ].

(** The inner loop of [classifyText] over the keywords of one category. *)
Definition scoreKeywords (text : string) (keywords : list string)
  : F32.t * list string :=
  foldl (fun acc keyword =>
           if strings.Contains text keyword
           then (F32.add (fst acc) (F32.of_decimal 2 1), snd acc ++ [keyword])
           else acc)
        (F32.zero, []) keywords.

(** One round of the loop of [classifyText] over the categories; the
    state is [maxCategory], [maxScore] and [maxDesc]. *)
Definition classifyStep (text : string) (acc : string * F32.t * string)
    (entry : string * list string) : string * F32.t * string :=
  let '(maxCategory, maxScore, maxDesc) := acc in
  let '(score, matchedWords) := scoreKeywords text (snd entry) in
  if F32.gtb score maxScore then
    (fst entry, score,
     if 0 <? Z.of_nat (length matchedWords) then
       "检测到" +:+ getCategoryDescription (fst entry) +:+ "内容，包含关键词: "
         +:+ strings.Join
               (take (Z.to_nat (min 3 (Z.of_nat (length matchedWords)))) matchedWords)
               "、"
     else maxDesc)
  else acc.

(** [classifyText]; [order] lists the entries of [categories] in the
    order of the [range]. *)
Definition classifyText (order : list (string * list string)) (text : string)
  : textCategory :=
  let '(maxCategory, maxScore, maxDesc) :=
    foldl (classifyStep text) ("", F32.zero, "") order in
  if F32.ltb maxScore (F32.of_decimal 3 1) then
    {| category := "normal"; confidence := F32.zero; description := "" |}
  else
    {| category := maxCategory; confidence := maxScore; description := maxDesc |}.

(** [m[key]++]. *)
Definition increment (m : gmap string Z) (key : string) : gmap string Z :=
  <[ key := default 0 (m !! key) + 1 ]> m.

(** The two counting maps of [analyzeConversationPattern]. The counts
    are at most the square of the number of context items and are taken
    without the wrap-around of [int]. *)
Definition userMessageCount (ctx : CheckContext) : gmap string Z :=
  foldl (fun m item =>
           if decide (ci_UserID item = UserID ctx) then
             foldl (fun m otherItem =>
                      if decide (ci_UserID otherItem = UserID ctx) then m
                      else increment m (ci_UserID otherItem))
                   m (ContextItems ctx)
           else m)
        ∅ (ContextItems ctx).

Definition otherUserReplyCount (ctx : CheckContext) : gmap string Z :=
  foldl (fun m item =>
           if decide (ci_UserID item = UserID ctx) then m
           else increment m (ci_UserID item))
        ∅ (ContextItems ctx).

Definition isNegative (content : string) : bool :=
  strings.Contains content "别" || strings.Contains content "不要"
  || strings.Contains content "停止" || strings.Contains content "烦".

(** The loop over the context items that looks for a negative reply
    followed by a message of the sender; [i] is the index of the head of
    [items], and [ctx.ContextItems[i+1]] the item after it. [catOrder k]
    is the order of the [range] in the [k]-th call of [classifyText]. *)
Fixpoint negativeLoop (catOrder : nat -> list (string * list string))
    (currentUserID : string) (items : list ContextItem) (i : nat)
    (negativeResponses : Z) (risks : list RiskItem) : Z * list RiskItem :=
  match items with
  | [] => (negativeResponses, risks)
  | item :: rest =>
      if negb (bool_decide (ci_UserID item = currentUserID))
         && isNegative (ci_Content item) then
        let negativeResponses := negativeResponses + 1 in
        match rest with
        | next :: _ =>
            if bool_decide (ci_UserID next = currentUserID) then
              let category := classifyText (catOrder (S i)) (ci_Content next) in
              if bool_decide (category.(SemanticDetector.category) = "command")
                 || bool_decide (category.(SemanticDetector.category) = "insult")
              then
                let contentType :=
                  if bool_decide (category.(SemanticDetector.category) = "command")
                  then "命令型" else "侮辱性" in
                (negativeResponses,
                 risks ++ [ NewRiskItem RiskTypeContextViolation (F32.of_Z 70)
                              ("检测到在对方表达不满后继续发送" +:+ contentType
                               +:+ "内容") ])
              else negativeLoop catOrder currentUserID rest (S i)
                     negativeResponses risks
            else negativeLoop catOrder currentUserID rest (S i)
                   negativeResponses risks
        | [] => negativeLoop catOrder currentUserID rest (S i) negativeResponses risks
        end
      else negativeLoop catOrder currentUserID rest (S i) negativeResponses risks
  end.

(** [analyzeConversationPattern]; [userOrder] lists the entries of
    [userMessageCount] in the order of the [range]. *)
Definition analyzeConversationPattern
    (catOrder : nat -> list (string * list string))
    (userOrder : list (string * Z)) (ctx : CheckContext) (risks : list RiskItem)
  : list RiskItem :=
  if Z.of_nat (length (ContextItems ctx)) <? 2 then risks
  else
    let currentUserID := UserID ctx in
    let replies := otherUserReplyCount ctx in
    let risks :=
      match List.find (fun kv =>
                         let replyCount := default 0 (replies !! fst kv) in
                         (replyCount * 2 <? snd kv) && (2 <? snd kv))
                      userOrder with
      | Some (otherUserID, msgCount) =>
          let replyCount := default 0 (replies !! otherUserID) in
          risks ++
          [ {| Type_ := RiskTypeHarassment; Score := F32.of_Z 60;
               Description := "检测到不平衡的对话模式，可能是骚扰";
               Details :=
                 {[ "message_ratio" :=
                      fmt_f1 (F64.div (F64.of_Z msgCount)
                                (max (F64.of_Z 1) (F64.of_Z replyCount)));
                    "target_user" := otherUserID ]} |} ]
      | None => risks
      end in
    let '(negativeResponses, risks) :=
      negativeLoop catOrder currentUserID (ContextItems ctx) 0 0 risks in
    if 2 <=? negativeResponses then
      risks ++
      [ {| Type_ := RiskTypeSuspiciousBehavior; Score := F32.of_Z 65;
           Description := "检测到在多次负面回应后继续发送消息";
           Details := {[ "negative_responses" := fmt.itoa negativeResponses ]} |} ]
    else risks.

Definition Detect (d : t) (re : Regexp)
    (catOrder : nat -> list (string * list string))
    (userOrder : list (string * Z)) (ctx : CheckContext)
  : list RiskItem * option error :=
  let content := Content ctx in
  if decide (content = "") then ([], None)
  else
    let risks : list RiskItem := [] in
    match patternBasedDetection re content risks with
    | (true, risks) => (risks, None)
    | (false, risks) =>
        match familyTermAnalysis re content (ContextItems ctx) risks with
        | (true, risks) => (risks, None)
        | (false, risks) =>
            let category := classifyText (catOrder 0%nat) content in
            let risks :=
              if negb (bool_decide (category.(SemanticDetector.category) = "normal"))
                 && F32.gtb category.(confidence) (threshold d)
              then risks ++
                   [ NewRiskItem
                       (getCategoryRiskType category.(SemanticDetector.category))
                       (F32.mul category.(confidence) (F32.of_Z 100))
                       category.(description) ]
              else risks in
            let risks :=
              if 0 <? Z.of_nat (length (ContextItems ctx))
              then analyzeConversationPattern catOrder userOrder ctx risks
              else risks in
            (risks, None)
        end
    end.
End SemanticDetector.

(** The number of keywords of a list that occur in a text, and the score
    after that many additions of 0.2. *)
Definition hits (text : string) (keywords : list string) : nat :=
  length (List.filter (fun keyword => strings.Contains text keyword) keywords).

Definition addedScore (n : nat) : F32.t :=
  Nat.iter n (fun score => F32.add score (F32.of_decimal 2 1)) F32.zero.

(** A regular-expression engine that finds nothing, and a text with two
    of the spam keywords. *)
Definition matchesNothing : Regexp :=
  {| FindAllString := fun _ _ => []; MatchString := fun _ _ => false |}.

Definition twoSpamWords : string := "免费红包".

(** A context in which the sender has three earlier messages and another
    user one. *)
Definition pressingContext : CheckContext :=
  {| Content := "在吗"; UserID := "u1"; Scene := "chat";
     ContextItems :=
       [ {| ci_Content := "你好"; ci_UserID := "u1"; ci_Timestamp := 1;
            ci_ContentID := "m1" |};
         {| ci_Content := "嗯"; ci_UserID := "u2"; ci_Timestamp := 2;
            ci_ContentID := "m2" |};
         {| ci_Content := "在吗"; ci_UserID := "u1"; ci_Timestamp := 3;
            ci_ContentID := "m3" |};
         {| ci_Content := "回我"; ci_UserID := "u1"; ci_Timestamp := 4;
            ci_ContentID := "m4" |} ];
     ExtraData := ∅ |}.

(** * Properties *)

(** ** The harassment detector *)

Lemma find_existsb_false {A} (f : A -> bool) (l : list A) :
  existsb f l = false -> List.find f l = None.
Proof.
  induction l as [|a l IH]; simpl; [done|].
  destruct (f a); simpl; [done|]. exact IH.
Qed.

Lemma find_existsb_true {A} (f : A -> bool) (l : list A) :
  existsb f l = true -> exists a, List.find f l = Some a /\ a ∈ l /\ f a = true.
Proof.
  induction l as [|a l IH]; simpl; [done|].
  destruct (f a) eqn:Hfa; simpl.
  - intros _. exists a. split; [done|]. split; [left|done].
  - intros H. destruct (IH H) as (b & Hb & Hin & Hfb).
    exists b. split; [done|]. split; [by right|done].
Qed.

(** C4 (counterexample). On the content of the scenario the detector
    returns no item at all, so it does not return exactly one item of type
    Harassment with score 70. *)
Lemma C4_counterexample :
  HarassmentDetector.Detect (plainContext "你真是个废物") = ([], None)
  /\ ~ (exists item,
          fst (HarassmentDetector.Detect (plainContext "你真是个废物")) = [item]
          /\ Type_ item = RiskTypeHarassment /\ Score item = F32.of_Z 70).
Proof.
  assert (H : HarassmentDetector.Detect (plainContext "你真是个废物") = ([], None))
    by (vm_compute; reflexivity).
  split; [exact H|]. rewrite H. intros (item & Hitem & _). discriminate Hitem.
Qed.

(** C4 (amended). With no context items and a non-empty content,
    [HarassmentDetector.Detect] returns exactly one item, of type
    Harassment and score 70.0, when the lower-cased content contains one of
    the detector's keywords, and no item otherwise. The word 废物 is not
    one of the keywords and the content 你真是个废物 contains none of them,
    so that content yields no item; 你这是性骚扰 yields the one item. *)
Theorem C4_harassment_keyword_only (content userID scene : string)
    (extra : gmap string string) (order : list (string * Z)) :
  content <> "" ->
  let ctx := {| Content := content; UserID := userID; Scene := scene;
                ContextItems := []; ExtraData := extra |} in
  let hit :=
    existsb (fun keyword => strings.Contains (strings.ToLower content) keyword)
            HarassmentDetector.harassmentKeywords in
  (hit = true ->
     exists keyword item,
       keyword ∈ HarassmentDetector.harassmentKeywords
       /\ HarassmentDetector.Detect_ordered order ctx = ([item], None)
       /\ HarassmentDetector.Detect ctx = ([item], None)
       /\ item = HarassmentDetector.keywordItem keyword
       /\ Type_ item = RiskTypeHarassment /\ Score item = F32.of_Z 70)
  /\ (hit = false ->
      HarassmentDetector.Detect_ordered order ctx = ([], None)
      /\ HarassmentDetector.Detect ctx = ([], None))
  /\ ("废物" ∉ HarassmentDetector.harassmentKeywords)
  /\ HarassmentDetector.Detect (plainContext "你真是个废物") = ([], None)
  /\ fst (HarassmentDetector.Detect (plainContext "你这是性骚扰"))
     = [HarassmentDetector.keywordItem "骚扰"].
Proof.
  intros Hne ctx hit.
  assert (Hshape : forall order',
            HarassmentDetector.Detect_ordered order' ctx
            = (match List.find (fun keyword =>
                                  strings.Contains (strings.ToLower content) keyword)
                               HarassmentDetector.harassmentKeywords with
               | Some keyword => [HarassmentDetector.keywordItem keyword]
               | None => []
               end, None)).
  { intros order'. unfold HarassmentDetector.Detect_ordered. subst ctx. simpl.
    destruct (decide (content = "")); [contradiction|reflexivity]. }
  split; [|split; [|split; [|split]]].
  - intros Hhit. apply find_existsb_true in Hhit as (kw & Hfind & Hin & _).
    exists kw, (HarassmentDetector.keywordItem kw).
    unfold HarassmentDetector.Detect. rewrite !Hshape, Hfind. done.
  - intros Hmiss. apply find_existsb_false in Hmiss.
    unfold HarassmentDetector.Detect. rewrite !Hshape, Hmiss. done.
  - intros Hin. revert Hin. unfold HarassmentDetector.harassmentKeywords.
    rewrite !elem_of_cons, elem_of_nil. intros H.
    repeat (destruct H as [H|H]; [discriminate H|]). exact H.
  - vm_compute. reflexivity.
  - vm_compute. reflexivity.
Qed.

Lemma C4_harassment_keyword_only_witness :
  "这是侮辱" <> ""
  /\ exists item,
       HarassmentDetector.Detect (plainContext "这是侮辱") = ([item], None)
       /\ Type_ item = RiskTypeHarassment /\ Score item = F32.of_Z 70.
Proof.
  split; [discriminate|].
  destruct (C4_harassment_keyword_only "这是侮辱" "" "" ∅ []) as (Hhit & _);
    [discriminate|].
  destruct Hhit as (kw & item & _ & _ & Hdet & _ & Hty & Hsc);
    [vm_compute; reflexivity|].
  exists item. split; [exact Hdet|]. split; [exact Hty|exact Hsc].
Defined.

(** ** The rule engine *)

Lemma evaluateRule_never_matches (rule : Rule) (ctx : CheckContext)
    (existingRiskTypes : gmap RiskType bool) :
  RuleEngineImpl.evaluateRule rule ctx existingRiskTypes = (false, None).
Proof.
  unfold RuleEngineImpl.evaluateRule.
  repeat case_decide; repeat case_match; reflexivity.
Qed.

Lemma evaluateLoop_no_match (evalRule : Rule -> bool * option RiskItem)
    (sortedRules : list Rule) (risks : list RiskItem) :
  (forall rule, fst (evalRule rule) = false) ->
  RuleEngineImpl.evaluateLoop evalRule sortedRules risks F32.zero ResultTypePass
  = {| er_Result := ResultTypePass; er_Score := F32.zero; er_Risks := risks;
       er_Suggestion := ""; er_HasExplicitResult := false |}.
Proof.
  intros Hno. induction sortedRules as [|rule rest IH]; simpl.
  - reflexivity.
  - destruct (rule_Enabled rule); simpl; [|exact IH].
    specialize (Hno rule). destruct (evalRule rule) as [[] item]; simpl in Hno.
    + discriminate Hno.
    + exact IH.
Qed.

Lemma Evaluate_initialized (e : RuleEngine) (visit : list Rule)
    (ctx : CheckContext) (existingRisks : list RiskItem) :
  initialized e = true ->
  RuleEngineImpl.Evaluate e visit ctx existingRisks = Ok noMatch.
Proof.
  intros Hinit. unfold RuleEngineImpl.Evaluate, RuleEngineImpl.EvaluateWith.
  rewrite Hinit. simpl. f_equal. apply evaluateLoop_no_match.
  intros rule. by rewrite evaluateRule_never_matches.
Qed.

Lemma Evaluate_cases (e : RuleEngine) (visit : list Rule)
    (ctx : CheckContext) (existingRisks : list RiskItem) :
  RuleEngineImpl.Evaluate e visit ctx existingRisks = Ok noMatch
  \/ exists err, RuleEngineImpl.Evaluate e visit ctx existingRisks = Err err.
Proof.
  destruct (initialized e) eqn:Hinit.
  - left. by apply Evaluate_initialized.
  - right. unfold RuleEngineImpl.Evaluate, RuleEngineImpl.EvaluateWith.
    rewrite Hinit. simpl. eauto.
Qed.

(** Whatever the engine state, [doContentCheck] returns the banded verdict
    of the detector risks. *)
Lemma doContentCheck_banded (s : ContentCheckService)
    (order : list (string * Detector)) (visit : list Rule)
    (content userID scene : string) (contextItems : list ContextItem)
    (extraData : gmap string string) :
  let checkCtx := {| Content := content; UserID := userID; Scene := scene;
                     ContextItems := contextItems; ExtraData := extraData |} in
  Service.doContentCheck s order visit content userID scene contextItems extraData
  = Ok (Service.banded s (Service.runDetectors order checkCtx).1.1
          (Service.runDetectors order checkCtx).1.2
          (Service.runDetectors order checkCtx).2).
Proof.
  intros checkCtx. unfold Service.doContentCheck, Service.doContentCheckWith.
  fold checkCtx. destruct (Service.runDetectors order checkCtx) as [[allRisks total] mx].
  destruct (Evaluate_cases (ruleEngine s) visit checkCtx allRisks) as [H|[err H]];
    rewrite H; reflexivity.
Qed.

(** C2. On an initialized engine [Evaluate] returns, for every context,
    every list of existing risks and every rule set, the result with
    [HasExplicitResult = false], score 0, [Result = Pass] and no risk,
    because [evaluateRule] reports no match for every rule. Hence
    [doContentCheck] never takes the explicit-result branch: its verdict is
    the band of the highest detector score and its risk list is the
    detectors' list. *)
Theorem C2_engine_never_explicit (s : ContentCheckService)
    (order : list (string * Detector)) (visit : list Rule)
    (ctx : CheckContext) (existingRisks : list RiskItem) :
  initialized (ruleEngine s) = true ->
  (forall rule existingRiskTypes,
     RuleEngineImpl.evaluateRule rule ctx existingRiskTypes = (false, None))
  /\ RuleEngineImpl.Evaluate (ruleEngine s) visit ctx existingRisks
     = Ok {| er_Result := ResultTypePass; er_Score := F32.zero; er_Risks := [];
             er_Suggestion := ""; er_HasExplicitResult := false |}
  /\ let '(allRisks, totalScore, maxScore) := Service.runDetectors order ctx in
     Service.doContentCheck s order visit (Content ctx) (UserID ctx) (Scene ctx)
       (ContextItems ctx) (ExtraData ctx)
     = Ok {| Result := Service.band (RiskScoreThreshold (cfg s)) maxScore;
             RiskScore := maxScore;
             Risks := allRisks;
             RequestID := "";
             Suggestion :=
               Service.generateSuggestion
                 (Service.band (RiskScoreThreshold (cfg s)) maxScore) allRisks;
             CostTime := 0;
             Extra := {[ "total_score" := fmt.f2 totalScore ]} |}.
Proof.
  intros Hinit. split; [|split].
  - intros rule ex. apply evaluateRule_never_matches.
  - by apply Evaluate_initialized.
  - pose proof (doContentCheck_banded s order visit (Content ctx) (UserID ctx)
                  (Scene ctx) (ContextItems ctx) (ExtraData ctx)) as H.
    simpl in H. destruct ctx as [c u sc items extra]. simpl in *.
    destruct (Service.runDetectors order _) as [[allRisks total] mx].
    exact H.
Qed.

Lemma C2_engine_never_explicit_witness :
  initialized (ruleEngine exampleService) = true
  /\ RuleEngineImpl.Evaluate (ruleEngine exampleService) defaultRules
       (plainContext "敏感词1") [] = Ok noMatch.
Proof.
  split; [reflexivity|].
  apply (C2_engine_never_explicit exampleService exampleDetectors defaultRules
           (plainContext "敏感词1") []).
  reflexivity.
Defined.

(** ** Threshold bands *)

Lemma band_half_range :
  Forall (fun T => Service.band T (F32.mul (F32.of_Z T) (F32.of_decimal 5 1))
                   = ResultTypeWarning)
         (seqZ 1 100).
Proof. apply (bool_decide_unpack _). vm_compute. exact I. Qed.

(** C6. Without an explicit engine result (which is always, see C2) the
    verdict of [doContentCheck] is the band of the highest score [x] against
    [t = float32(T)]: Reject when [x >= t], else Review when
    [x >= t * 0.7], else Warning when [x >= t * 0.5], else Pass, the
    products being taken in [float32]. With [T = 70] the two inner edges
    are exactly 49 and 35, and the scores 70, 50, 35, 10 give Reject,
    Review, Warning, Pass. A score equal to [t * 0.5] is Warning for every
    [T] from 1 to 100. *)
Theorem C6_threshold_bands :
  (forall s order visit content userID scene contextItems extraData,
     exists r,
       Service.doContentCheck s order visit content userID scene contextItems
         extraData = Ok r
       /\ Result r = Service.band (RiskScoreThreshold (cfg s)) (RiskScore r)
       /\ RiskScore r
          = (Service.runDetectors order
               {| Content := content; UserID := userID; Scene := scene;
                  ContextItems := contextItems; ExtraData := extraData |}).2)
  /\ (forall T x,
        let t := F32.of_Z T in
        let t7 := F32.mul t (F32.of_decimal 7 1) in
        let t5 := F32.mul t (F32.of_decimal 5 1) in
        (F32.geb x t = true -> Service.band T x = ResultTypeReject)
        /\ (F32.geb x t = false -> F32.geb x t7 = true ->
            Service.band T x = ResultTypeReview)
        /\ (F32.geb x t = false -> F32.geb x t7 = false -> F32.geb x t5 = true ->
            Service.band T x = ResultTypeWarning)
        /\ (F32.geb x t = false -> F32.geb x t7 = false -> F32.geb x t5 = false ->
            Service.band T x = ResultTypePass))
  /\ F32.mul (F32.of_Z 70) (F32.of_decimal 7 1) = F32.of_Z 49
  /\ F32.mul (F32.of_Z 70) (F32.of_decimal 5 1) = F32.of_Z 35
  /\ Service.band 70 (F32.of_Z 70) = ResultTypeReject
  /\ Service.band 70 (F32.of_Z 50) = ResultTypeReview
  /\ Service.band 70 (F32.of_Z 35) = ResultTypeWarning
  /\ Service.band 70 (F32.of_Z 10) = ResultTypePass
  /\ (forall T, 1 <= T <= 100 ->
        Service.band T (F32.mul (F32.of_Z T) (F32.of_decimal 5 1))
        = ResultTypeWarning).
Proof.
  split; [|split].
  - intros. eexists. split; [apply doContentCheck_banded|]. split; reflexivity.
  - intros T x t t7 t5. unfold Service.band. fold t. fold t7. fold t5.
    repeat split; intros; repeat match goal with H : _ = _ |- _ => rewrite H end;
      reflexivity.
  - repeat split; try (vm_compute; reflexivity).
    intros T HT. pose proof band_half_range as H.
    rewrite Forall_forall in H. apply H. apply elem_of_seqZ. lia.
Qed.

Lemma C6_threshold_bands_witness :
  1 <= 70 <= 100
  /\ Service.band 70 (F32.mul (F32.of_Z 70) (F32.of_decimal 5 1)) = ResultTypeWarning.
Proof.
  split; [lia|].
  apply C6_threshold_bands. lia.
Defined.

(** ** The sensitive-word store *)

Lemma loadFromFile_nothing (fs : string -> FileRead) (path : string)
    (acc : gmap string bool) :
  yieldsNothing fs path -> fst (SensitiveWordsImpl.loadFromFile fs path acc) = acc.
Proof.
  unfold SensitiveWordsImpl.loadFromFile.
  intros [[e ->]|(lines & scanErr & -> & Hall)]; [reflexivity|]. simpl.
  induction Hall as [|line lines Hline _ IH]; simpl; [reflexivity|].
  destruct Hline as [Hblank|Hcomment].
  - rewrite Hblank. simpl. exact IH.
  - rewrite Hcomment, orb_true_r. exact IH.
Qed.

Lemma candidate_nothing (fs : string -> FileRead) (paths : list string) :
  Forall (yieldsNothing fs) paths -> SensitiveWordsImpl.candidate fs paths = ∅.
Proof.
  intros Hall. unfold SensitiveWordsImpl.candidate.
  assert (H : forall acc : gmap string bool,
            foldl (fun newWords path =>
                     fst (SensitiveWordsImpl.loadFromFile fs path newWords))
                  acc paths = acc); [|apply H].
  induction Hall as [|path paths Hpath _ IH]; intros acc; simpl; [reflexivity|].
  rewrite loadFromFile_nothing by exact Hpath. apply IH.
Qed.

(** C10. [Update] builds the candidate set from the configured files and
    installs it only when it is non-empty; otherwise the store is returned
    as it was. In particular, when every configured source is unreadable or
    yields no word, the previous word set is left unchanged. [Update]
    never reports an error and never changes the configured paths. *)
Theorem C10_update_keeps_words (fs : string -> FileRead) (sw : SensitiveWords) :
  let newWords := SensitiveWordsImpl.candidate fs (filePaths sw) in
  (newWords <> ∅ ->
     SensitiveWordsImpl.Update fs sw
     = ({| words := newWords; filePaths := filePaths sw |}, None))
  /\ (newWords = ∅ -> SensitiveWordsImpl.Update fs sw = (sw, None))
  /\ (Forall (yieldsNothing fs) (filePaths sw) ->
        SensitiveWordsImpl.Update fs sw = (sw, None)
        /\ words (fst (SensitiveWordsImpl.Update fs sw)) = words sw)
  /\ snd (SensitiveWordsImpl.Update fs sw) = None
  /\ filePaths (fst (SensitiveWordsImpl.Update fs sw)) = filePaths sw.
Proof.
  intros newWords.
  assert (Hempty : newWords = ∅ -> SensitiveWordsImpl.Update fs sw = (sw, None)).
  { intros H. unfold SensitiveWordsImpl.Update. fold newWords. rewrite H.
    rewrite map_size_empty. reflexivity. }
  assert (Hfull : newWords <> ∅ ->
            SensitiveWordsImpl.Update fs sw
            = ({| words := newWords; filePaths := filePaths sw |}, None)).
  { intros H. unfold SensitiveWordsImpl.Update. fold newWords.
    apply map_size_non_empty_iff in H.
    destruct (0 <? Z.of_nat (size newWords)) eqn:Hsz; [reflexivity|].
    apply Z.ltb_ge in Hsz. lia. }
  split; [exact Hfull|]. split; [exact Hempty|]. split; [|split].
  - intros Hall. apply candidate_nothing in Hall.
    rewrite (Hempty Hall). split; reflexivity.
  - destruct (decide (newWords = ∅)) as [H|H];
      [rewrite (Hempty H)|rewrite (Hfull H)]; reflexivity.
  - destruct (decide (newWords = ∅)) as [H|H];
      [rewrite (Hempty H)|rewrite (Hfull H)]; reflexivity.
Qed.

Lemma C10_update_keeps_words_witness :
  Forall (yieldsNothing (fun _ => OpenFailed (Errorf "open: no such file")))
         (filePaths oneWordStore)
  /\ words (fst (SensitiveWordsImpl.Update
                   (fun _ => OpenFailed (Errorf "open: no such file")) oneWordStore))
     = {[ "敏感词1" := true ]}.
Proof.
  assert (H : Forall (yieldsNothing (fun _ => OpenFailed (Errorf "open: no such file")))
                (filePaths oneWordStore)).
  { apply Forall_forall. intros path _. left. eexists. reflexivity. }
  split; [exact H|].
  destruct (C10_update_keeps_words (fun _ => OpenFailed (Errorf "open: no such file"))
              oneWordStore) as (_ & _ & Hkeep & _).
  destruct (Hkeep H) as [_ Hwords]. exact Hwords.
Defined.

(** ** The risk list of the orchestrator *)

Lemma foldl_accumulate_risks (risks : list RiskItem)
    (acc : list RiskItem * F32.t * F32.t) :
  (foldl Service.accumulate acc risks).1.1 = acc.1.1 ++ risks.
Proof.
  revert acc. induction risks as [|risk risks IH]; intros [[allRisks total] mx]; simpl.
  - by rewrite app_nil_r.
  - rewrite IH. simpl. by rewrite <- app_assoc.
Qed.

Lemma detectorLoop_risks (ctx : CheckContext) (order : list (string * Detector))
    (acc : list RiskItem * F32.t * F32.t) :
  (foldl (Service.detectorStep ctx) acc order).1.1 = acc.1.1 ++ detectedBy order ctx.
Proof.
  revert acc. unfold detectedBy.
  induction order as [|entry order IH]; intros acc; simpl.
  - by rewrite app_nil_r.
  - rewrite IH. unfold Service.detectorStep, outputOf.
    destruct (Detect entry.2 ctx) as [risks [err|]]; simpl.
    + reflexivity.
    + rewrite foldl_accumulate_risks. by rewrite <- app_assoc.
Qed.

Lemma runDetectors_risks (order : list (string * Detector)) (ctx : CheckContext) :
  (Service.runDetectors order ctx).1.1 = detectedBy order ctx.
Proof. unfold Service.runDetectors. by rewrite detectorLoop_risks. Qed.

Lemma mergeExisting_spec (risk : RiskItem) (allRisks : list RiskItem) :
  typesOf (Service.mergeExisting risk allRisks).2 = typesOf allRisks
  /\ ((Service.mergeExisting risk allRisks).1 = true <-> Type_ risk ∈ typesOf allRisks).
Proof.
  induction allRisks as [|existing rest [IHty IHfound]]; simpl.
  - split; [reflexivity|]. split; [discriminate|]. by intros ?%elem_of_nil.
  - destruct (decide (Type_ existing = Type_ risk)) as [Heq|Hne]; simpl.
    + split.
      * by destruct (F32.gtb (Score risk) (Score existing)).
      * split; [|done]. intros _. rewrite Heq. left.
    + destruct (Service.mergeExisting risk rest) as [found rest'] eqn:Hrest.
      simpl in *. split; [by rewrite IHty|].
      rewrite IHfound, elem_of_cons.
      split; [by right|]. intros [Heq|Hin]; [congruence|exact Hin].
Qed.

(** Merging one engine item leaves the types in place and appends the new
    type only when it is not there yet. *)
Lemma mergeRisk_types (allRisks : list RiskItem) (mx : F32.t) (risk : RiskItem) :
  typesOf (Service.mergeRisk (allRisks, mx) risk).1
  = if bool_decide (Type_ risk ∈ typesOf allRisks) then typesOf allRisks
    else typesOf allRisks ++ [Type_ risk].
Proof.
  unfold Service.mergeRisk.
  destruct (mergeExisting_spec risk allRisks) as [Hty Hfound].
  destruct (Service.mergeExisting risk allRisks) as [found merged]. simpl in *.
  destruct found; simpl.
  - rewrite bool_decide_eq_true_2 by (by apply Hfound). exact Hty.
  - rewrite bool_decide_eq_false_2.
    + unfold typesOf in *. by rewrite map_app, Hty.
    + intros Hin. apply Hfound in Hin. discriminate Hin.
Qed.

Lemma mergeLoop_types (engineRisks allRisks : list RiskItem) (mx : F32.t) :
  exists added,
    typesOf (foldl Service.mergeRisk (allRisks, mx) engineRisks).1
    = typesOf allRisks ++ added
    /\ NoDup added
    /\ (forall t, t ∈ added -> t ∉ typesOf allRisks)
    /\ (forall t, t ∈ added -> t ∈ typesOf engineRisks).
Proof.
  revert allRisks mx.
  induction engineRisks as [|risk rest IH]; intros allRisks mx; cbn [foldl].
  - exists []. rewrite app_nil_r. split; [done|]. split; [constructor|].
    split; intros t Ht; by apply elem_of_nil in Ht.
  - pose proof (mergeRisk_types allRisks mx risk) as Hstep.
    destruct (Service.mergeRisk (allRisks, mx) risk) as [allRisks' mx'].
    simpl in Hstep.
    destruct (IH allRisks' mx') as (added & Hty & Hnd & Hfresh & Hfrom).
    case_bool_decide as Hin.
    + exists added. rewrite Hty, Hstep. split; [done|]. split; [done|].
      split.
      * intros t Ht. specialize (Hfresh t Ht). by rewrite Hstep in Hfresh.
      * intros t Ht. right. by apply Hfrom.
    + exists (Type_ risk :: added). rewrite Hty, Hstep, <- app_assoc. simpl.
      split; [done|]. split; [|split].
      * constructor; [|done]. intros Hdup. apply (Hfresh _ Hdup).
        rewrite Hstep. apply elem_of_app. right. left.
      * intros t [->|Ht]%elem_of_cons; [done|].
        specialize (Hfresh t Ht). rewrite Hstep in Hfresh.
        intros Hold. apply Hfresh. apply elem_of_app. by left.
      * intros t [->|Ht]%elem_of_cons; [left|right; by apply Hfrom].
Qed.

Lemma mergeExisting_first (risk existing : RiskItem) (before after : list RiskItem) :
  Type_ existing = Type_ risk ->
  Type_ risk ∉ typesOf before ->
  Service.mergeExisting risk (before ++ existing :: after)
  = (true,
     before ++
       (if F32.gtb (Score risk) (Score existing)
        then {| Type_ := Type_ existing; Score := Score risk;
                Description := Description risk; Details := Details existing |}
        else existing) :: after).
Proof.
  intros Heq. induction before as [|b before IH]; intros Hfresh; simpl.
  - destruct (decide (Type_ existing = Type_ risk)); [reflexivity|contradiction].
  - destruct (decide (Type_ b = Type_ risk)) as [Hb|Hb].
    + exfalso. apply Hfresh. simpl. rewrite Hb. left.
    + rewrite IH; [reflexivity|]. intros Hin. apply Hfresh. simpl. by right.
Qed.

Lemma doContentCheck_risks (s : ContentCheckService)
    (order : list (string * Detector)) (visit : list Rule)
    (content userID scene : string) (contextItems : list ContextItem)
    (extraData : gmap string string) :
  exists r,
    Service.doContentCheck s order visit content userID scene contextItems extraData
    = Ok r
    /\ Risks r
       = detectedBy order
           {| Content := content; UserID := userID; Scene := scene;
              ContextItems := contextItems; ExtraData := extraData |}.
Proof.
  eexists. split; [apply doContentCheck_banded|]. simpl. apply runDetectors_risks.
Qed.

Lemma exampleDetectors_visit :
  exampleDetectors ≡ₚ map_to_list (detectors exampleService)
  /\ rev exampleDetectors ≡ₚ map_to_list (detectors exampleService).
Proof.
  assert (H : map_to_list (detectors exampleService) ≡ₚ exampleDetectors).
  { apply map_to_list_to_map. apply (bool_decide_unpack _). vm_compute. exact I. }
  split; [by symmetry|]. rewrite H. symmetry. apply Permutation_rev.
Qed.

(** C1 (counterexample). The harassment detector finds a keyword and a
    repeat pattern in one call; both items are of type Harassment and both
    are in the risk list that [doContentCheck] returns. *)
Lemma C1_counterexample :
  exampleDetectors ≡ₚ map_to_list (detectors exampleService)
  /\ exists r,
       Service.doContentCheck exampleService exampleDetectors defaultRules
         "骚扰" "u1" "chat" twoEarlierMessages ∅ = Ok r
       /\ typesOf (Risks r) = [RiskTypeHarassment; RiskTypeHarassment]
       /\ ~ NoDup (typesOf (Risks r)).
Proof.
  split; [apply exampleDetectors_visit|].
  eexists. split; [vm_compute; reflexivity|]. split; [vm_compute; reflexivity|].
  intros Hnd. apply NoDup_cons in Hnd as [Hfresh _]. apply Hfresh. left.
Qed.

(** C1 (amended). The merge step of [doContentCheck] adds an engine item
    only when no item of its type is in the list yet; otherwise the first
    item of that type takes the engine item's score and description when
    that score is higher. The types of the returned list are therefore the
    types emitted by the detectors, in order and with their repetitions,
    followed by distinct new types: the list has at most one item per type
    exactly when the detectors emitted at most one item per type. With
    the engine as shipped the returned list is the detectors' list. *)
Theorem C1_merge_by_type
    (evaluate : CheckContext -> list RiskItem -> res RuleEngineResult)
    (s : ContentCheckService) (order : list (string * Detector))
    (content userID scene : string) (contextItems : list ContextItem)
    (extraData : gmap string string) :
  let ctx := {| Content := content; UserID := userID; Scene := scene;
                ContextItems := contextItems; ExtraData := extraData |} in
  (exists r added,
     Service.doContentCheckWith evaluate s order content userID scene contextItems
       extraData = Ok r
     /\ typesOf (Risks r) = typesOf (detectedBy order ctx) ++ added
     /\ NoDup added
     /\ (forall t, t ∈ added -> t ∉ typesOf (detectedBy order ctx))
     /\ (NoDup (typesOf (detectedBy order ctx)) <-> NoDup (typesOf (Risks r))))
  /\ (forall visit,
        exists r,
          Service.doContentCheck s order visit content userID scene contextItems
            extraData = Ok r
          /\ Risks r = detectedBy order ctx)
  /\ (forall risk existing before after,
        Type_ existing = Type_ risk ->
        Type_ risk ∉ typesOf before ->
        Service.mergeExisting risk (before ++ existing :: after)
        = (true,
           before ++
             (if F32.gtb (Score risk) (Score existing)
              then {| Type_ := Type_ existing; Score := Score risk;
                      Description := Description risk;
                      Details := Details existing |}
              else existing) :: after)).
Proof.
  intros ctx. split; [|split].
  - assert (Hiff : forall added,
              NoDup added ->
              (forall t, t ∈ added -> t ∉ typesOf (detectedBy order ctx)) ->
              NoDup (typesOf (detectedBy order ctx))
              <-> NoDup (typesOf (detectedBy order ctx) ++ added)).
    { intros added Hnd Hfresh. rewrite NoDup_app. split.
      - intros H. split; [exact H|]. split; [|exact Hnd].
        intros t Hold Hnew. by apply (Hfresh t Hnew).
      - by intros [H _]. }
    assert (Hplain : forall total mx,
              exists added,
                typesOf (Risks (Service.banded s (detectedBy order ctx) total mx))
                = typesOf (detectedBy order ctx) ++ added
                /\ NoDup added
                /\ (forall t, t ∈ added -> t ∉ typesOf (detectedBy order ctx))).
    { intros. exists []. simpl. rewrite app_nil_r. split; [done|].
      split; [constructor|]. intros t Ht. by apply elem_of_nil in Ht. }
    unfold Service.doContentCheckWith. fold ctx.
    pose proof (runDetectors_risks order ctx) as Hdet.
    destruct (Service.runDetectors order ctx) as [[allRisks total] mx].
    simpl in Hdet. subst allRisks.
    destruct (evaluate ctx (detectedBy order ctx)) as [engineResult|err].
    + destruct (mergeLoop_types (er_Risks engineResult) (detectedBy order ctx) mx)
        as (added & Hty & Hnd & Hfresh & _).
      destruct (foldl Service.mergeRisk (detectedBy order ctx, mx)
                  (er_Risks engineResult)) as [merged mx'].
      simpl in Hty.
      destruct (er_HasExplicitResult engineResult); eexists; exists added;
        (split; [reflexivity|]); simpl; rewrite Hty;
        (split; [reflexivity|]); (split; [exact Hnd|]); (split; [exact Hfresh|]);
        by apply Hiff.
    + destruct (Hplain total mx) as (added & Hty & Hnd & Hfresh).
      eexists; exists added. split; [reflexivity|]. rewrite Hty.
      split; [reflexivity|]. split; [exact Hnd|]. split; [exact Hfresh|].
      by apply Hiff.
  - intros visit. apply doContentCheck_risks.
  - intros. by apply mergeExisting_first.
Qed.

Lemma C1_merge_by_type_witness :
  exists r,
    Service.doContentCheck exampleService exampleDetectors defaultRules
      "敏感词1骚扰" "u1" "chat" [] ∅ = Ok r
    /\ NoDup (typesOf (Risks r)).
Proof.
  destruct (C1_merge_by_type
              (RuleEngineImpl.Evaluate (ruleEngine exampleService) defaultRules)
              exampleService exampleDetectors "敏感词1骚扰" "u1" "chat" [] ∅)
    as [(r & added & Hrun & _ & _ & _ & Hiff) _].
  exists r. split; [exact Hrun|]. apply Hiff.
  apply (bool_decide_unpack _). vm_compute. exact I.
Defined.

(** A detector that emits two items of one type in a call defeats the
    invariant in every registry that holds it, whatever the other
    detectors and the order of the visit. *)
Lemma duplicates_survive (s : ContentCheckService)
    (order : list (string * Detector)) (visit : list Rule)
    (ctx : CheckContext) (entry : string * Detector) (risks : list RiskItem) :
  entry ∈ order ->
  Detect entry.2 ctx = (risks, None) ->
  ~ NoDup (typesOf risks) ->
  exists r,
    Service.doContentCheck s order visit (Content ctx) (UserID ctx) (Scene ctx)
      (ContextItems ctx) (ExtraData ctx) = Ok r
    /\ ~ NoDup (typesOf (Risks r)).
Proof.
  intros Hin Hdet Hdup.
  destruct (doContentCheck_risks s order visit (Content ctx) (UserID ctx)
              (Scene ctx) (ContextItems ctx) (ExtraData ctx)) as (r & Hrun & Hrisks).
  exists r. split; [exact Hrun|]. rewrite Hrisks.
  destruct ctx as [c u sc items extra]. simpl.
  set (ctx := {| Content := c |}) in *.
  intros Hnd. apply Hdup. clear Hrun Hrisks r.
  induction order as [|e order IH]; [by apply elem_of_nil in Hin|].
  unfold detectedBy, typesOf in Hnd. simpl in Hnd.
  rewrite map_app in Hnd. apply NoDup_app in Hnd as (Hhead & _ & Htail).
  apply elem_of_cons in Hin as [->|Hin].
  - unfold outputOf in Hhead. rewrite Hdet in Hhead. exact Hhead.
  - apply IH; assumption.
Qed.

(** Every item of the spam detector has type Spam, so any two of its
    checks that fire in one call give two items of one type. *)
Lemma SpamDetector_types (re : Regexp) (ctx : CheckContext) :
  Forall (fun item => Type_ item = RiskTypeSpam) (SpamDetector.Detect re ctx).1.
Proof.
  unfold SpamDetector.Detect.
  destruct (decide (Content ctx = "")); [constructor|]. simpl.
  repeat match goal with
         | |- Forall _ (match ?c with _ => _ end) => destruct c
         | |- Forall _ (if ?c then _ else _) => destruct c
         | |- Forall _ (_ ++ _) => apply Forall_app; split
         | |- Forall _ [_] => apply Forall_singleton; reflexivity
         | |- Forall _ [] => constructor
         end.
Qed.

Lemma SpamDetector_phone_and_money (re : Regexp) (ctx : CheckContext) :
  Content ctx <> "" ->
  FindAllString re SpamDetector.phonePattern (Content ctx) <> [] ->
  FindAllString re SpamDetector.moneyPattern (Content ctx) <> [] ->
  ~ NoDup (typesOf (SpamDetector.Detect re ctx).1).
Proof.
  intros Hne Hphone Hmoney Hnd.
  assert (Hlen : (2 <= length (SpamDetector.Detect re ctx).1)%nat).
  { unfold SpamDetector.Detect.
    destruct (decide (Content ctx = "")); [contradiction|]. simpl.
    destruct (FindAllString re SpamDetector.phonePattern (Content ctx)); [done|].
    destruct (FindAllString re SpamDetector.moneyPattern (Content ctx)); [done|].
    simpl.
    repeat match goal with
           | |- context [match ?c with _ => _ end] => destruct c
           end; rewrite ?length_app; simpl; lia. }
  pose proof (SpamDetector_types re ctx) as Hty.
  destruct (SpamDetector.Detect re ctx).1 as [|a [|b rest]]; simpl in Hlen; try lia.
  apply Forall_cons in Hty as [Ha Hty]. apply Forall_cons in Hty as [Hb _].
  unfold typesOf in Hnd. simpl in Hnd. rewrite Ha, Hb in Hnd.
  apply NoDup_cons in Hnd as [Hfresh _]. apply Hfresh. left.
Qed.

(** ** The order of the detectors *)

Lemma detectedBy_Permutation (ctx : CheckContext)
    (order order' : list (string * Detector)) :
  order ≡ₚ order' -> detectedBy order ctx ≡ₚ detectedBy order' ctx.
Proof.
  unfold detectedBy. induction 1 as [|e l l' _ IH|e e' l|l l' l'' _ IH1 _ IH2]; simpl.
  - reflexivity.
  - by rewrite IH.
  - rewrite !app_assoc. f_equiv. apply Permutation_app_comm.
  - by rewrite IH1.
Qed.


(** *** The highest score does not depend on the order *)

Ltac f32_cases :=
  unfold F32.gtb, F32.ltb, SFltb, SFcompare in *;
  repeat match goal with
         | x : F32.t |- _ => destruct x as [[]|[]| |[] ? ?]
         end;
  simpl in *; try done.

Ltac order_cases :=
  intros;
  repeat match goal with
         | H : context [PosDef.Pos.compare_cont Eq ?a ?b] |- _ =>
             change (PosDef.Pos.compare_cont Eq a b) with (Pos.compare a b) in H
         | |- context [PosDef.Pos.compare_cont Eq ?a ?b] =>
             change (PosDef.Pos.compare_cont Eq a b) with (Pos.compare a b)
         | H : context [Z.compare ?a ?b] |- _ => destruct (Z.compare_spec a b); subst
         | |- context [Z.compare ?a ?b] => destruct (Z.compare_spec a b); subst
         | H : context [Pos.compare ?a ?b] |- _ => destruct (Pos.compare_spec a b); subst
         | |- context [Pos.compare ?a ?b] => destruct (Pos.compare_spec a b); subst
         end;
  try done; try lia.

Lemma higher_fromZero (m x : F32.t) : fromZero m -> fromZero (higher m x).
Proof.
  unfold higher. intros Hm. destruct (F32.gtb x m) eqn:Hgt; [|exact Hm].
  revert Hgt. f32_cases.
Qed.

Lemma gtb_trans (m x y : F32.t) :
  fromZero m -> F32.gtb x m = true -> F32.gtb y x = true -> F32.gtb y m = true.
Proof. f32_cases; order_cases. Qed.

Lemma gtb_asym (m x y : F32.t) :
  fromZero m -> F32.gtb x m = true -> F32.gtb y x = true -> F32.gtb x y = false.
Proof. f32_cases; order_cases. Qed.

Lemma gtb_total (m x y : F32.t) :
  fromZero m -> F32.gtb x m = true -> F32.gtb y m = true ->
  F32.gtb y x = false -> F32.gtb x y = false -> x = y.
Proof. f32_cases; order_cases. Qed.

Lemma higher_comm (m x y : F32.t) :
  fromZero m -> higher (higher m x) y = higher (higher m y) x.
Proof.
  intros Hm. unfold higher.
  destruct (F32.gtb x m) eqn:Hx, (F32.gtb y m) eqn:Hy; rewrite ?Hx, ?Hy; try done.
  - destruct (F32.gtb y x) eqn:Hyx.
    + by rewrite (gtb_asym m x y).
    + destruct (F32.gtb x y) eqn:Hxy; [done|]. by apply (gtb_total m).
  - destruct (F32.gtb y x) eqn:Hyx; [|done].
    by rewrite (gtb_trans m x y) in Hy.
  - destruct (F32.gtb x y) eqn:Hxy; [|done].
    by rewrite (gtb_trans m y x) in Hx.
Qed.

Lemma foldl_higher_Permutation (l l' : list F32.t) (m : F32.t) :
  fromZero m -> l ≡ₚ l' -> foldl higher m l = foldl higher m l'.
Proof.
  intros Hm Hperm. revert m Hm.
  induction Hperm as [|x l l' _ IH|x y l|l l' l'' _ IH1 _ IH2]; intros m Hm; simpl.
  - reflexivity.
  - apply IH. by apply higher_fromZero.
  - by rewrite (higher_comm m y x).
  - rewrite IH1 by done. by apply IH2.
Qed.

Lemma foldl_accumulate_max (risks : list RiskItem)
    (acc : list RiskItem * F32.t * F32.t) :
  (foldl Service.accumulate acc risks).2 = foldl higher acc.2 (List.map Score risks).
Proof.
  revert acc. induction risks as [|risk risks IH]; intros [[allRisks total] mx]; simpl.
  - reflexivity.
  - rewrite IH. reflexivity.
Qed.

Lemma detectorLoop_max (ctx : CheckContext) (order : list (string * Detector))
    (acc : list RiskItem * F32.t * F32.t) :
  (foldl (Service.detectorStep ctx) acc order).2
  = foldl higher acc.2 (List.map Score (detectedBy order ctx)).
Proof.
  revert acc. unfold detectedBy.
  induction order as [|entry order IH]; intros acc; simpl.
  - reflexivity.
  - rewrite IH. rewrite map_app, foldl_app. f_equal.
    unfold Service.detectorStep, outputOf.
    destruct (Detect entry.2 ctx) as [risks [err|]]; simpl.
    + reflexivity.
    + apply foldl_accumulate_max.
Qed.

Lemma runDetectors_max (order : list (string * Detector)) (ctx : CheckContext) :
  (Service.runDetectors order ctx).2
  = foldl higher F32.zero (List.map Score (detectedBy order ctx)).
Proof. unfold Service.runDetectors. by rewrite detectorLoop_max. Qed.



(** ** The order of the rules *)

Lemma swapIfLower_cases (i j : nat) (rules : list Rule) :
  i <> j ->
  (RuleEngineImpl.swapIfLower i j rules = rules
   /\ forall ri rj, rules !! i = Some ri -> rules !! j = Some rj ->
                    rule_Priority rj <= rule_Priority ri)
  \/ (exists ri rj,
        rules !! i = Some ri /\ rules !! j = Some rj
        /\ rule_Priority ri < rule_Priority rj
        /\ RuleEngineImpl.swapIfLower i j rules !! i = Some rj
        /\ RuleEngineImpl.swapIfLower i j rules !! j = Some ri
        /\ forall p, p <> i -> p <> j ->
                     RuleEngineImpl.swapIfLower i j rules !! p = rules !! p).
Proof.
  intros Hij. unfold RuleEngineImpl.swapIfLower.
  destruct (rules !! i) as [ri|] eqn:Hi; [|left; split; [done|]; intros; discriminate].
  destruct (rules !! j) as [rj|] eqn:Hj; [|left; split; [done|]; intros; discriminate].
  destruct (rule_Priority ri <? rule_Priority rj) eqn:Hlt.
  - right. exists ri, rj. apply Z.ltb_lt in Hlt.
    pose proof (lookup_lt_Some _ _ _ Hi). pose proof (lookup_lt_Some _ _ _ Hj).
    repeat split; try done.
    + rewrite list_lookup_insert_ne by done. by rewrite list_lookup_insert_eq.
    + rewrite list_lookup_insert_eq; [done|]. by rewrite length_insert.
    + intros p Hpi Hpj. by rewrite !list_lookup_insert_ne.
  - left. split; [done|]. intros ? ? [= <-] [= <-]. apply Z.ltb_ge in Hlt. lia.
Qed.

Lemma swapIfLower_Permutation (i j : nat) (rules : list Rule) :
  RuleEngineImpl.swapIfLower i j rules ≡ₚ rules.
Proof.
  unfold RuleEngineImpl.swapIfLower.
  destruct (rules !! i) as [ri|] eqn:Hi; [|done].
  destruct (rules !! j) as [rj|] eqn:Hj; [|done].
  destruct (rule_Priority ri <? rule_Priority rj); [|done].
  by apply Permutation_insert_swap.
Qed.

Lemma swapIfLower_sortedUpTo (i j : nat) (rules : list Rule) :
  (i < j)%nat -> sortedUpTo i rules ->
  sortedUpTo i (RuleEngineImpl.swapIfLower i j rules).
Proof.
  intros Hij Hsorted.
  destruct (swapIfLower_cases i j rules)
    as [[-> _]|(ri & rj & Hi & Hj & _ & Hi' & Hj' & Hp)]; [lia|done|].
  intros k p rk rp Hk Hkp Hlk Hlp.
  rewrite Hp in Hlk by lia.
  destruct (decide (p = i)) as [->|Hpi]; [|destruct (decide (p = j)) as [->|Hpj]].
  - rewrite Hi' in Hlp. injection Hlp as <-. apply (Hsorted k j); [done|lia|done|done].
  - rewrite Hj' in Hlp. injection Hlp as <-. apply (Hsorted k i); done.
  - rewrite Hp in Hlp by done. by apply (Hsorted k p).
Qed.

Lemma swapIfLower_headAbove (i j : nat) (rules : list Rule) :
  (i < j)%nat -> headAbove i j rules ->
  headAbove i (S j) (RuleEngineImpl.swapIfLower i j rules).
Proof.
  intros Hij Hhead.
  destruct (swapIfLower_cases i j rules)
    as [[-> Hle]|(ri & rj & Hi & Hj & Hlt & Hi' & Hj' & Hp)]; [lia| |].
  - intros p rI rp Hrange HlI Hlp. destruct (decide (p = j)) as [->|Hpj].
    + by apply Hle.
    + apply (Hhead p); [lia|done|done].
  - intros p rI rp Hrange HlI Hlp. rewrite Hi' in HlI. injection HlI as <-.
    destruct (decide (p = j)) as [->|Hpj].
    + rewrite Hj' in Hlp. injection Hlp as <-. lia.
    + rewrite Hp in Hlp by lia.
      pose proof (Hhead p ri rp ltac:(lia) Hi Hlp). lia.
Qed.

Lemma innerLoop_spec (n i : nat) (rules : list Rule) :
  sortedUpTo i rules ->
  RuleEngineImpl.innerLoop n i rules ≡ₚ rules
  /\ sortedUpTo i (RuleEngineImpl.innerLoop n i rules)
  /\ headAbove i n (RuleEngineImpl.innerLoop n i rules).
Proof.
  intros Hsorted. unfold RuleEngineImpl.innerLoop.
  assert (H : forall c,
            let rules' := foldl (fun rules j => RuleEngineImpl.swapIfLower i j rules)
                                rules (seq (i + 1) c) in
            rules' ≡ₚ rules /\ sortedUpTo i rules' /\ headAbove i (i + 1 + c) rules').
  { induction c as [|c (IHp & IHs & IHh)]; cbv zeta in *.
    - simpl. split; [done|]. split; [done|]. intros j ? ? ?. lia.
    - rewrite seq_S, foldl_app. cbn [foldl].
      split; [by rewrite swapIfLower_Permutation|].
      split; [apply swapIfLower_sortedUpTo; [lia|done]|].
      replace (i + 1 + S c)%nat with (S (i + 1 + c)) by lia.
      apply swapIfLower_headAbove; [lia|done]. }
  destruct (H (n - (i + 1))%nat) as (Hp & Hs & Hh).
  split; [done|]. split; [done|].
  intros j ri rj Hrange. apply Hh. lia.
Qed.

Lemma sortedUpTo_S (n i : nat) (rules : list Rule) :
  length rules = n -> sortedUpTo i rules -> headAbove i n rules ->
  sortedUpTo (S i) rules.
Proof.
  intros Hlen Hsorted Hhead k j rk rj Hk Hkj Hlk Hlj.
  destruct (decide (k = i)) as [->|Hki].
  - apply (Hhead j); [|done|done]. apply lookup_lt_Some in Hlj. lia.
  - apply (Hsorted k j); [lia|done|done|done].
Qed.

Lemma sortRulesByPriority_spec (visit : list Rule) :
  RuleEngineImpl.sortRulesByPriority visit ≡ₚ visit
  /\ descending (RuleEngineImpl.sortRulesByPriority visit).
Proof.
  unfold RuleEngineImpl.sortRulesByPriority.
  set (n := length visit).
  assert (H : forall c,
            let rules := foldl (fun rules i => RuleEngineImpl.innerLoop n i rules)
                               visit (seq 0 c) in
            rules ≡ₚ visit /\ sortedUpTo c rules).
  { induction c as [|c (IHp & IHs)]; cbv zeta in *.
    - simpl. split; [done|]. intros k ? ? ? ?. lia.
    - rewrite seq_S, foldl_app. cbn [foldl]. rewrite Nat.add_0_l.
      destruct (innerLoop_spec n c _ IHs) as (Hp & Hs & Hh).
      split; [by rewrite Hp|].
      apply (sortedUpTo_S n); [|done|done].
      rewrite Hp, IHp. reflexivity. }
  destruct (H (n - 1)%nat) as (Hp & Hs). split; [done|].
  intros k j rk rj Hkj Hlk Hlj. apply (Hs k j); [|done|done|done].
  apply lookup_lt_Some in Hlj. rewrite Hp in Hlj. fold n in Hlj. lia.
Qed.

(** ** The rule loop *)

Lemma getActionType_Reject (action : string) :
  RuleEngineImpl.getActionType action = ResultTypeReject <-> action = "block".
Proof.
  unfold RuleEngineImpl.getActionType. repeat case_decide; split; congruence.
Qed.

Lemma evaluateLoop_reject (evalRule : Rule -> bool * option RiskItem)
    (before after : list Rule) (rule : Rule) (risks : list RiskItem)
    (highestScore : F32.t) (highestScoreResult : ResultType) :
  Forall (fun r => ~ rejects evalRule r) before ->
  rejects evalRule rule ->
  RuleEngineImpl.evaluateLoop evalRule (before ++ rule :: after) risks
    highestScore highestScoreResult
  = {| er_Result := ResultTypeReject; er_Score := rule_Score rule;
       er_Risks := risks ++ matchedItems evalRule (before ++ [rule]);
       er_Suggestion := RuleEngineImpl.generateSuggestion rule;
       er_HasExplicitResult := true |}.
Proof.
  intros Hbefore (Hen & Hmatch & Hact).
  revert risks highestScore highestScoreResult.
  induction Hbefore as [|r before Hr _ IH]; intros risks hs hr; simpl.
  - rewrite Hen. simpl. destruct (evalRule rule) as [matched item]. simpl in Hmatch.
    subst matched. rewrite Hact.
    destruct (F32.gtb (rule_Score rule) hs);
      (destruct (decide (ResultTypeReject = ResultTypeReject)); [|done]);
      destruct item; by rewrite ?app_nil_r.
  - destruct (rule_Enabled r) eqn:Hren; simpl; [|apply IH].
    destruct (evalRule r) as [[] item] eqn:Hev; [|apply IH].
    destruct (decide (RuleEngineImpl.getActionType (rule_Action r) = ResultTypeReject))
      as [Hrej|Hrej].
    { exfalso. apply Hr. split; [done|]. split; [by rewrite Hev|done]. }
    destruct (F32.gtb (rule_Score r) hs); destruct item; rewrite IH;
      by rewrite <- ?app_assoc.
Qed.

(** C5. In the loop of [Evaluate], written over the per-rule evaluator,
    the first enabled rule in priority order that matches and whose action
    maps to Reject ends the evaluation: the result is Reject with that
    rule's score, [HasExplicitResult = true] and the suggestion built from
    the rule, and its risks are the items of the rules evaluated up to and
    including that rule. The rules after it play no part: any rule set
    with the same rules up to that one gives the same result. These later
    rules have a priority no higher than the rule's, the sort being a
    descending permutation of the rule set, and the action that maps to
    Reject is the string "block". *)
Theorem C5_reject_short_circuit
    (evalRule : Rule -> CheckContext -> gmap RiskType bool -> bool * option RiskItem)
    (e : RuleEngine) (visit : list Rule) (ctx : CheckContext)
    (existingRisks : list RiskItem) (before after : list Rule) (rule : Rule) :
  let ev := fun r => evalRule r ctx (RuleEngineImpl.existingTypes existingRisks) in
  initialized e = true ->
  RuleEngineImpl.sortRulesByPriority visit = before ++ rule :: after ->
  rejects ev rule ->
  Forall (fun r => ~ rejects ev r) before ->
  RuleEngineImpl.EvaluateWith evalRule e visit ctx existingRisks
  = Ok {| er_Result := ResultTypeReject; er_Score := rule_Score rule;
          er_Risks := matchedItems ev (before ++ [rule]);
          er_Suggestion := RuleEngineImpl.generateSuggestion rule;
          er_HasExplicitResult := true |}
  /\ (forall visit' after',
        RuleEngineImpl.sortRulesByPriority visit' = before ++ rule :: after' ->
        RuleEngineImpl.EvaluateWith evalRule e visit' ctx existingRisks
        = RuleEngineImpl.EvaluateWith evalRule e visit ctx existingRisks)
  /\ Forall (fun r => rule_Priority r <= rule_Priority rule) after
  /\ RuleEngineImpl.sortRulesByPriority visit ≡ₚ visit
  /\ (rule_Action rule = "block"
      /\ forall action,
           RuleEngineImpl.getActionType action = ResultTypeReject <-> action = "block").
Proof.
  intros ev Hinit Hsorted Hrule Hbefore.
  assert (Hrun : forall visit' after',
            RuleEngineImpl.sortRulesByPriority visit' = before ++ rule :: after' ->
            RuleEngineImpl.EvaluateWith evalRule e visit' ctx existingRisks
            = Ok {| er_Result := ResultTypeReject; er_Score := rule_Score rule;
                    er_Risks := matchedItems ev (before ++ [rule]);
                    er_Suggestion := RuleEngineImpl.generateSuggestion rule;
                    er_HasExplicitResult := true |}).
  { intros visit' after' Hs. unfold RuleEngineImpl.EvaluateWith.
    rewrite Hinit, Hs. simpl. f_equal.
    by rewrite (evaluateLoop_reject ev before after' rule). }
  split; [by apply (Hrun visit after)|].
  split; [intros visit' after' Hs; by rewrite (Hrun visit' after'), (Hrun visit after)|].
  destruct (sortRulesByPriority_spec visit) as [Hperm Hdesc].
  split; [|split; [exact Hperm|]].
  - apply Forall_forall. intros r [j Hj]%list_elem_of_lookup.
    apply (Hdesc (length before) (length before + S j)%nat); [lia| |].
    + rewrite Hsorted. by rewrite list_lookup_middle.
    + rewrite Hsorted. rewrite lookup_app_r by lia.
      replace (length before + S j - length before)%nat with (S j) by lia. exact Hj.
  - split; [|apply getActionType_Reject].
    apply getActionType_Reject. apply Hrule.
Qed.

Lemma C5_reject_short_circuit_witness :
  exists first rest,
    RuleEngineImpl.sortRulesByPriority defaultRules = [] ++ first :: rest
    /\ rejects (fun r => sensitiveOnly r (plainContext "敏感词1")
                           (RuleEngineImpl.existingTypes [])) first
    /\ er_Result <$> (match RuleEngineImpl.EvaluateWith sensitiveOnly defaultEngine
                              defaultRules (plainContext "敏感词1") [] with
                      | Ok r => Some r
                      | Err _ => None
                      end) = Some ResultTypeReject.
Proof.
  destruct defaultRules as [|first rest] eqn:Hrules; [discriminate Hrules|].
  exists first, rest.
  assert (Hsorted : RuleEngineImpl.sortRulesByPriority (first :: rest)
                    = [] ++ first :: rest).
  { injection Hrules as <- <-. vm_compute. reflexivity. }
  assert (Hrej : rejects (fun r => sensitiveOnly r (plainContext "敏感词1")
                                     (RuleEngineImpl.existingTypes [])) first).
  { injection Hrules as <- <-. repeat split. }
  split; [exact Hsorted|]. split; [exact Hrej|].
  destruct (C5_reject_short_circuit sensitiveOnly defaultEngine (first :: rest)
              (plainContext "敏感词1") [] [] rest first eq_refl Hsorted Hrej
              (Forall_nil_2 _)) as [Hrun _].
  rewrite Hrun. reflexivity.
Defined.

(** ** The result cache *)

Lemma CheckContent_miss {L : Library} (s : ContentCheckService) (env : CallEnv)
    (w : Store L) (content userID scene : string) (extraData : gmap string string)
    (err : error) :
  content <> "" ->
  Service.getCachedResult (redisGetOk env) w (Service.cacheKey L content) (now env)
  = Err err ->
  exists r,
    Service.doContentCheck s (detectorOrder env) (ruleVisit env) content userID scene
      [] extraData = Ok r
    /\ Service.CheckContent s env w content userID scene extraData
       = (if decide (Result r = ResultTypeReject) then w
          else Service.cacheResult (redisSetOk env) w (Service.cacheKey L content)
                 (Service.withRequest r (Service.requestID "req_" (now env) userID)
                    (elapsed env))
                 (CacheTTL (cfg s) * Service.nanosPerSecond) (writeTime env),
          Ok (Service.withRequest r (Service.requestID "req_" (now env) userID)
                (elapsed env))).
Proof.
  intros Hne Hmiss.
  destruct (doContentCheck_risks s (detectorOrder env) (ruleVisit env) content userID
              scene [] extraData) as (r & Hrun & _).
  exists r. split; [exact Hrun|].
  unfold Service.CheckContent.
  destruct (decide (content = "")); [contradiction|].
  rewrite Hmiss, Hrun. reflexivity.
Qed.

Lemma CheckContent_hit {L : Library} (s : ContentCheckService) (env : CallEnv)
    (w : Store L) (content userID scene : string) (extraData : gmap string string)
    (cached : CheckResult) :
  content <> "" ->
  Service.getCachedResult (redisGetOk env) w (Service.cacheKey L content) (now env)
  = Ok cached ->
  Service.CheckContent s env w content userID scene extraData
  = (w, Ok (Service.withRequest cached (Service.requestID "req_" (now env) userID) 0)).
Proof.
  intros Hne Hhit. unfold Service.CheckContent.
  destruct (decide (content = "")); [contradiction|]. by rewrite Hhit.
Qed.





(** ** The fallback latch of the remote detectors *)


(** *** The cloud NLP detector *)






(** *** The local LLM detector *)






(** *** The AI detector *)




(** ** The batch coordinator *)

Lemma CheckContent_error {L : Library} (s : ContentCheckService) (env : CallEnv)
    (w : Store L) (content userID scene : string) (extraData : gmap string string)
    (e : error) :
  (Service.CheckContent s env w content userID scene extraData).2 = Err e
  <-> content = "" /\ e = ErrEmptyContent.
Proof.
  split.
  - intros Herr. destruct (decide (content = "")) as [->|Hne].
    + split; [reflexivity|]. by injection Herr as <-.
    + exfalso.
      destruct (Service.getCachedResult (redisGetOk env) w (Service.cacheKey L content)
                  (now env)) as [cached|err] eqn:Hget.
      * by rewrite (CheckContent_hit s env w content userID scene extraData cached)
          in Herr.
      * destruct (CheckContent_miss s env w content userID scene extraData err Hne Hget)
          as (r & _ & Hcall).
        by rewrite Hcall in Herr.
  - intros [-> ->]. reflexivity.
Qed.

Lemma runTasks_snoc {L : Library} (s : ContentCheckService) (envs : nat -> CallEnv)
    (items : list CheckRequest) (sched : list nat) (i : nat) (w : Store L) :
  Service.runTasks s envs items (sched ++ [i]) w
  = Service.taskStep s envs items (Service.runTasks s envs items sched w) i.
Proof. unfold Service.runTasks. by rewrite foldl_app. Qed.

(** The channel receives one report per scheduled task, in schedule
    order, each carrying the outcome of that task's own call. *)
Lemma runTasks_received {L : Library} (s : ContentCheckService) (envs : nat -> CallEnv)
    (items : list CheckRequest) (sched : list nat) (w : Store L) :
  Forall (fun i => is_Some (items !! i)) sched ->
  length (Service.runTasks s envs items sched w).2 = length sched
  /\ forall k i req,
       sched !! k = Some i -> items !! i = Some req ->
       (Service.runTasks s envs items sched w).2 !! k
       = Some {| br_index := i;
                 br_outcome := taskOutcome s envs items sched w k i req |}.
Proof.
  induction sched as [|i sched IH] using rev_ind; intros Hvalid.
  - split; [reflexivity|]. intros k i req Hk. by rewrite lookup_nil in Hk.
  - apply Forall_app in Hvalid as [Hvalid Hi].
    apply Forall_singleton in Hi as [req Hreq].
    destruct (IH Hvalid) as [Hlen Hlook].
    rewrite runTasks_snoc. unfold Service.taskStep. rewrite Hreq.
    destruct (Service.CheckContent s (envs i) _ _ _ _ _) as [w' out] eqn:Hcall.
    simpl. split; [rewrite !length_app, Hlen; reflexivity|].
    intros k j req' Hk Hj.
    destruct (decide (k < length sched)%nat) as [Hlt|Hge].
    + rewrite lookup_app_l in Hk by done. rewrite lookup_app_l by lia.
      rewrite (Hlook k j req' Hk Hj). unfold taskOutcome.
      by rewrite take_app_le by lia.
    + assert (k = length sched) as ->.
      { apply lookup_lt_Some in Hk. rewrite length_app in Hk. simpl in Hk. lia. }
      rewrite list_lookup_middle in Hk by done. injection Hk as <-.
      rewrite Hreq in Hj. injection Hj as <-.
      rewrite <- Hlen at 1. rewrite list_lookup_middle by done.
      unfold taskOutcome. rewrite take_app_length. by rewrite Hcall.
Qed.

Lemma collect_snoc (received : list batchResult) (r : batchResult) :
  Service.collect (received ++ [r]) = Service.collectStep (Service.collect received) r.
Proof. unfold Service.collect. by rewrite foldl_app. Qed.

Lemma errorsSeen_snoc (received : list batchResult) (r : batchResult) :
  errorsSeen (received ++ [r])
  = errorsSeen received ++ match br_outcome r with
                           | Err e => [e]
                           | Ok _ => []
                           end.
Proof.
  unfold errorsSeen. rewrite omap_app. simpl. by destruct (br_outcome r).
Qed.

(** The drained map holds the successful outcomes under their indices and
    the error kept is the last one that arrived. *)
Lemma collect_spec (received : list batchResult) :
  NoDup (List.map br_index received) ->
  (forall r, r ∈ received ->
             (Service.collect received).1 !! br_index r
             = match br_outcome r with
               | Ok result => Some result
               | Err _ => None
               end)
  /\ (forall i, i ∉ List.map br_index received ->
                (Service.collect received).1 !! i = None)
  /\ (Service.collect received).2 = last (errorsSeen received).
Proof.
  induction received as [|x received IH] using rev_ind; intros Hnd.
  - split; [intros r Hr; by apply elem_of_nil in Hr|]. split; [|reflexivity].
    intros i _. apply lookup_empty.
  - rewrite map_app in Hnd. apply NoDup_app in Hnd as (Hnd & Hfresh & _).
    destruct (IH Hnd) as (Hin & Hout & Hlast).
    assert (Hx : br_index x ∉ List.map br_index received).
    { intros Hmem. apply (Hfresh _ Hmem). simpl. left. }
    rewrite collect_snoc, errorsSeen_snoc. unfold Service.collectStep.
    destruct (br_outcome x) as [result|e] eqn:Hox; simpl.
    + split; [|split].
      * intros r [Hr|Hr]%elem_of_app.
        -- rewrite lookup_insert_ne; [by apply Hin|].
           intros Heq. apply Hx. rewrite Heq. by apply list_elem_of_fmap_2.
        -- apply list_elem_of_singleton in Hr. subst r.
           by rewrite lookup_insert_eq, Hox.
      * intros i Hi. rewrite map_app in Hi. rewrite lookup_insert_ne.
        -- apply Hout. intros Hmem. apply Hi. apply elem_of_app. by left.
        -- intros <-. apply Hi. apply elem_of_app. right. simpl. left.
      * by rewrite app_nil_r.
    + split; [|split].
      * intros r [Hr|Hr]%elem_of_app; [by apply Hin|].
        apply list_elem_of_singleton in Hr. subst r. rewrite Hox. by apply Hout.
      * intros i Hi. rewrite map_app in Hi. apply Hout.
        intros Hmem. apply Hi. apply elem_of_app. by left.
      * by rewrite last_snoc.
Qed.

Lemma assemble_lookup (batchID : string) (n i : nat) (resultMap : gmap nat CheckResult) :
  (i < n)%nat ->
  Service.assemble batchID n resultMap !! i
  = Some (default (Service.failedItem batchID i) (resultMap !! i)).
Proof.
  intros Hi. unfold Service.assemble.
  rewrite list_lookup_fmap, lookup_seq_lt by done. reflexivity.
Qed.

Lemma received_indices {L : Library} (s : ContentCheckService) (envs : nat -> CallEnv)
    (items : list CheckRequest) (sched : list nat) (w : Store L) :
  Forall (fun i => is_Some (items !! i)) sched ->
  List.map br_index (Service.runTasks s envs items sched w).2 = sched.
Proof.
  intros Hvalid. destruct (runTasks_received s envs items sched w Hvalid) as [Hlen Hlook].
  apply list_eq. intros k. rewrite list_lookup_fmap.
  destruct (sched !! k) as [i|] eqn:Hk.
  - rewrite Forall_forall in Hvalid.
    destruct (Hvalid i) as [req Hreq]; [by eapply list_elem_of_lookup_2|].
    by rewrite (Hlook k i req Hk Hreq).
  - apply lookup_ge_None in Hk. rewrite lookup_ge_None_2; [done|]. lia.
Qed.

Lemma errorsSeen_empty_content {L : Library} (s : ContentCheckService)
    (envs : nat -> CallEnv) (items : list CheckRequest) (sched : list nat)
    (w : Store L) :
  Forall (fun i => is_Some (items !! i)) sched ->
  forall e, e ∈ errorsSeen (Service.runTasks s envs items sched w).2 ->
            e = ErrEmptyContent
            /\ exists i req, i ∈ sched /\ items !! i = Some req /\ req_Content req = "".
Proof.
  intros Hvalid e He.
  destruct (runTasks_received s envs items sched w Hvalid) as [Hlen Hlook].
  unfold errorsSeen in He. apply list_elem_of_omap in He as (r & Hr & Hre).
  apply list_elem_of_lookup in Hr as [k Hk].
  destruct (sched !! k) as [i|] eqn:Hsk.
  - rewrite Forall_forall in Hvalid.
    destruct (Hvalid i) as [req Hreq]; [by eapply list_elem_of_lookup_2|].
    rewrite (Hlook k i req Hsk Hreq) in Hk. injection Hk as <-. simpl in Hre.
    unfold taskOutcome in Hre.
    destruct (Service.CheckContent _ _ _ _ _ _ _).2 as [r|e'] eqn:Hout; [discriminate|].
    injection Hre as ->. apply CheckContent_error in Hout as [Hempty ->].
    split; [reflexivity|]. exists i, req. split; [by eapply list_elem_of_lookup_2|done].
  - apply lookup_ge_None in Hsk. apply lookup_lt_Some in Hk. lia.
Qed.

(** C9. [BatchCheckContent] on a non-empty batch returns one result per
    (kept) item, in input order, whatever the order in which the tasks
    complete. The slot of an item whose evaluation failed holds the default
    verdict (Pass, score 0, [Extra["error"]] set); every other slot holds
    the result of that item's own [CheckContent] call. Next to the
    complete list the call returns the last error that arrived on the
    channel, earlier ones being overwritten. An evaluation fails exactly
    when the item's content is empty, with [ErrEmptyContent]. *)
Theorem C9_batch_partial_failure {L : Library} (s : ContentCheckService)
    (envs : nat -> CallEnv) (sched : list nat) (totalElapsed : Z)
    (w : Store L) (items : list CheckRequest) (batchID : string) :
  items <> [] ->
  0 <= BatchCheckMaxSize (cfg s) ->
  sched ≡ₚ seq 0 (length (Service.truncate s items)) ->
  let kept := Service.truncate s items in
  let received := (Service.runTasks s envs kept sched w).2 in
  exists w' results lastError,
    Service.BatchCheckContent s envs sched totalElapsed w items batchID
    = (w', BatchReturn (Some {| BatchID := batchID; Results := results;
                                TotalCostTime := totalElapsed |}) lastError)
    /\ length results = length kept
    /\ (forall i req,
          kept !! i = Some req ->
          exists k,
            sched !! k = Some i
            /\ results !! i
               = Some (match taskOutcome s envs kept sched w k i req with
                       | Ok r => r
                       | Err _ => Service.failedItem batchID i
                       end)
            /\ ((exists e, taskOutcome s envs kept sched w k i req = Err e)
                <-> req_Content req = "")
            /\ (req_Content req = "" ->
                results !! i = Some (Service.failedItem batchID i)))
    /\ (forall i,
          Result (Service.failedItem batchID i) = ResultTypePass
          /\ RiskScore (Service.failedItem batchID i) = F32.zero
          /\ Extra (Service.failedItem batchID i) !! "error" = Some "处理失败")
    /\ lastError = last (errorsSeen received)
    /\ (lastError = None <-> Forall (fun req => req_Content req <> "") kept)
    /\ (lastError <> None -> lastError = Some ErrEmptyContent).
Proof.
  intros Hne Hmax Hperm kept received.
  assert (Hvalid : Forall (fun i => is_Some (kept !! i)) sched).
  { apply Forall_forall. intros i Hi. rewrite Hperm in Hi.
    apply elem_of_seq in Hi. apply lookup_lt_is_Some. fold kept in Hi. lia. }
  assert (Hnd : NoDup sched) by (rewrite Hperm; apply NoDup_seq).
  destruct (runTasks_received s envs kept sched w Hvalid) as [Hlen Hlook].
  pose proof (received_indices s envs kept sched w Hvalid) as Hidx.
  fold received in Hlen, Hlook, Hidx.
  destruct (collect_spec received) as (Hin & Hout & Hlast); [by rewrite Hidx|].
  unfold Service.BatchCheckContent.
  destruct (Z.of_nat (length items) =? 0) eqn:Hzero.
  { apply Z.eqb_eq in Hzero. destruct items; [done|simpl in Hzero; lia]. }
  replace (BatchCheckMaxSize (cfg s) <? 0) with false by (symmetry; apply Z.ltb_ge; lia).
  rewrite andb_false_r. fold kept.
  destruct (Service.runTasks s envs kept sched w) as [w' received'] eqn:Hrun.
  cbn in received. subst received. rename received' into received.
  destruct (Service.collect received) as [resultMap lastError] eqn:Hcol.
  simpl in Hin, Hout, Hlast.
  eexists. eexists. eexists. split; [reflexivity|].
  assert (Hslot : forall i req,
            kept !! i = Some req ->
            exists k,
              sched !! k = Some i
              /\ Service.assemble batchID (length kept) resultMap !! i
                 = Some (match taskOutcome s envs kept sched w k i req with
                         | Ok r => r
                         | Err _ => Service.failedItem batchID i
                         end)).
  { intros i req Hreq.
    assert (Hi : i ∈ sched).
    { rewrite Hperm. apply elem_of_seq. apply lookup_lt_Some in Hreq.
      fold kept. lia. }
    apply list_elem_of_lookup in Hi as [k Hk]. exists k. split; [exact Hk|].
    rewrite assemble_lookup by (by eapply lookup_lt_Some).
    specialize (Hlook k i req Hk Hreq).
    pose proof (Hin _ (list_elem_of_lookup_2 _ _ _ Hlook)) as Hres. simpl in Hres.
    rewrite Hres. by destruct (taskOutcome s envs kept sched w k i req). }
  split; [|split; [|split; [|split; [|split]]]].
  - unfold Service.assemble. by rewrite length_map, length_seq.
  - intros i req Hreq. destruct (Hslot i req Hreq) as (k & Hk & Hres).
    exists k. split; [exact Hk|]. split; [exact Hres|].
    assert (Hfail : (exists e, taskOutcome s envs kept sched w k i req = Err e)
                    <-> req_Content req = "").
    { unfold taskOutcome. split.
      - intros [e He]. by apply CheckContent_error in He as [? _].
      - intros Hempty. exists ErrEmptyContent. by apply CheckContent_error. }
    split; [exact Hfail|]. intros Hempty. apply Hfail in Hempty as [e He].
    by rewrite Hres, He.
  - intros i. repeat split.
  - exact Hlast.
  - rewrite Hlast. split.
    + intros Hnone. apply Forall_forall. intros req Hreq Hempty.
      apply list_elem_of_lookup in Hreq as [i Hi].
      destruct (Hslot i req Hi) as (k & Hk & _).
      specialize (Hlook k i req Hk Hi).
      assert (He : ErrEmptyContent ∈ errorsSeen received).
      { unfold errorsSeen. apply list_elem_of_omap.
        eexists. split; [by eapply list_elem_of_lookup_2|]. simpl.
        unfold taskOutcome.
        destruct (Service.CheckContent _ _ _ _ _ _ _).2 as [r|e] eqn:Hout'.
        - assert ((Service.CheckContent s (envs i)
                     (Service.runTasks s envs kept (take k sched) w).1
                     (req_Content req) (req_UserID req) (req_Scene req)
                     (req_ExtraData req)).2 = Err ErrEmptyContent) as Hbad
            by (by apply CheckContent_error).
          rewrite Hout' in Hbad. discriminate Hbad.
        - apply CheckContent_error in Hout' as [_ ->]. reflexivity. }
      apply last_None in Hnone. rewrite Hnone in He. by apply elem_of_nil in He.
    + intros Hall. apply last_None.
      destruct (errorsSeen received) as [|e es] eqn:Hes; [reflexivity|].
      exfalso.
      destruct (errorsSeen_empty_content s envs kept sched w Hvalid e)
        as (_ & i & req & _ & Hreq & Hempty).
      { rewrite Hrun. simpl. rewrite Hes. left. }
      rewrite Forall_forall in Hall.
      by apply (Hall req (list_elem_of_lookup_2 _ _ _ Hreq)).
  - rewrite Hlast. intros Hsome.
    destruct (last (errorsSeen received)) as [e|] eqn:Hl; [|done].
    f_equal.
    apply (errorsSeen_empty_content s envs kept sched w Hvalid e).
    rewrite Hrun. simpl. apply last_Some in Hl as [l' ->].
    apply elem_of_app. right. left.
Qed.

Lemma C9_batch_partial_failure_witness :
  exampleBatch <> []
  /\ 0 <= BatchCheckMaxSize (cfg exampleService)
  /\ [2; 0; 1]%nat ≡ₚ seq 0 (length (Service.truncate exampleService exampleBatch))
  /\ exists w' results lastError,
       Service.BatchCheckContent (L := plainLibrary) exampleService
         (fun i => exampleEnv (1000 + Z.of_nat i)) [2; 0; 1]%nat 7 ∅ exampleBatch "b1"
       = (w', BatchReturn (Some {| BatchID := "b1"; Results := results;
                                   TotalCostTime := 7 |}) lastError)
       /\ length results = 3%nat
       /\ results !! 1%nat = Some (Service.failedItem "b1" 1).
Proof.
  assert (H1 : exampleBatch <> []) by discriminate.
  assert (H2 : 0 <= BatchCheckMaxSize (cfg exampleService)) by (simpl; lia).
  assert (H3 : [2; 0; 1]%nat
               ≡ₚ seq 0 (length (Service.truncate exampleService exampleBatch))).
  { change (seq 0 (length (Service.truncate exampleService exampleBatch)))
      with [0; 1; 2]%nat.
    rewrite (Permutation_swap 0 2 [1])%nat. apply perm_skip. apply Permutation_swap. }
  split; [exact H1|]. split; [exact H2|]. split; [exact H3|].
  destruct (C9_batch_partial_failure (L := plainLibrary) exampleService
              (fun i => exampleEnv (1000 + Z.of_nat i)) [2; 0; 1]%nat 7 ∅ exampleBatch
              "b1" H1 H2 H3)
    as (w' & results & lastError & Hcall & Hlen & Hslots & _).
  exists w', results, lastError. split; [exact Hcall|]. split; [exact Hlen|].
  destruct (Hslots 1%nat {| req_Content := ""; req_UserID := "u1"; req_Scene := "post";
                            req_RequestID := ""; req_ExtraData := ∅ |} eq_refl)
    as (k & _ & _ & _ & Hfailed).
  apply Hfailed. reflexivity.
Defined.

(** * Further properties of the code *)

(** ** The orchestrator *)

Lemma detectorLoop_answering (ctx : CheckContext) (order : list (string * Detector))
    (acc : list RiskItem * F32.t * F32.t) :
  foldl (Service.detectorStep ctx) acc order
  = foldl (Service.detectorStep ctx) acc (answering ctx order).
Proof.
  revert acc. induction order as [|entry order IH]; intros acc; simpl; [reflexivity|].
  unfold Service.detectorStep at 2. 
  destruct (Detect entry.2 ctx) as [risks [err|]] eqn:Hdet; simpl.
  - apply IH.
  - rewrite IH. f_equal. unfold Service.detectorStep. by rewrite Hdet.
Qed.

(** X1. The pipeline fails open on detectors: a detector whose [Detect]
    returns an error contributes nothing to the result, even when it
    returned items next to the error; the result is the one of the run
    that visits only the detectors that answered. *)
Theorem X1_failing_detectors_ignored (s : ContentCheckService)
    (order : list (string * Detector)) (visit : list Rule)
    (content userID scene : string) (contextItems : list ContextItem)
    (extraData : gmap string string) :
  let ctx := {| Content := content; UserID := userID; Scene := scene;
                ContextItems := contextItems; ExtraData := extraData |} in
  Service.doContentCheck s order visit content userID scene contextItems extraData
  = Service.doContentCheck s (answering ctx order) visit content userID scene
      contextItems extraData
  /\ forall name d items err,
       Detect d ctx = (items, Some err) ->
       Service.doContentCheck s ((name, d) :: order) visit content userID scene
         contextItems extraData
       = Service.doContentCheck s order visit content userID scene contextItems
           extraData.
Proof.
  intros ctx.
  assert (Hrun : forall o, Service.runDetectors o ctx
                           = Service.runDetectors (answering ctx o) ctx).
  { intros o. unfold Service.runDetectors. apply detectorLoop_answering. }
  split.
  - unfold Service.doContentCheck, Service.doContentCheckWith. fold ctx.
    by rewrite <- Hrun.
  - intros name d items err Hdet.
    unfold Service.doContentCheck, Service.doContentCheckWith. fold ctx.
    rewrite (Hrun ((name, d) :: order)), (Hrun order). simpl. by rewrite Hdet.
Qed.

Lemma gtb_irrefl (x : F32.t) : F32.gtb x x = false.
Proof. f32_cases; order_cases. Qed.

Lemma foldl_higher_keeps_below (l : list F32.t) (m x : F32.t) :
  fromZero m -> F32.gtb x m = false -> F32.gtb x (foldl higher m l) = false.
Proof.
  revert m. induction l as [|y l IH]; intros m Hm Hx; simpl; [exact Hx|].
  apply IH; [by apply higher_fromZero|].
  unfold higher. destruct (F32.gtb y m) eqn:Hy; [|exact Hx].
  destruct (F32.gtb x y) eqn:Hxy; [|reflexivity].
  by rewrite (gtb_trans m y x) in Hx.
Qed.

Lemma foldl_higher_upper (l : list F32.t) (m x : F32.t) :
  fromZero m -> x ∈ l -> F32.gtb x (foldl higher m l) = false.
Proof.
  revert m. induction l as [|y l IH]; intros m Hm Hin; [by apply elem_of_nil in Hin|].
  simpl. apply elem_of_cons in Hin as [->|Hin].
  - apply foldl_higher_keeps_below; [by apply higher_fromZero|].
    unfold higher. destruct (F32.gtb y m) eqn:Hy; [apply gtb_irrefl|exact Hy].
  - apply IH; [by apply higher_fromZero|exact Hin].
Qed.

Lemma foldl_higher_attained (l : list F32.t) (m : F32.t) :
  foldl higher m l = m \/ foldl higher m l ∈ l.
Proof.
  revert m. induction l as [|y l IH]; intros m; simpl; [by left|].
  destruct (IH (higher m y)) as [H|H].
  - rewrite H. unfold higher. destruct (F32.gtb y m); [right; left|by left].
  - right. by right.
Qed.

(** X2. The risk score that [doContentCheck] returns is the highest score
    among the returned items: no item has a score above it, and it is the
    score of one of the items, or 0 when no item has a positive score (in
    particular when there is none). The verdict is the band of that
    score. *)
Theorem X2_risk_score_is_highest (s : ContentCheckService)
    (order : list (string * Detector)) (visit : list Rule)
    (content userID scene : string) (contextItems : list ContextItem)
    (extraData : gmap string string) :
  exists r,
    Service.doContentCheck s order visit content userID scene contextItems extraData
    = Ok r
    /\ (forall item, item ∈ Risks r -> F32.gtb (Score item) (RiskScore r) = false)
    /\ (RiskScore r = F32.zero
        \/ exists item, item ∈ Risks r /\ Score item = RiskScore r)
    /\ (Risks r = [] -> RiskScore r = F32.zero)
    /\ Result r = Service.band (RiskScoreThreshold (cfg s)) (RiskScore r).
Proof.
  eexists. split; [apply doContentCheck_banded|]. simpl.
  rewrite runDetectors_risks, runDetectors_max.
  set (ctx := {| Content := content |}).
  split; [|split; [|split]].
  - intros item Hin. apply foldl_higher_upper; [exact I|].
    by apply list_elem_of_fmap_2.
  - destruct (foldl_higher_attained (List.map Score (detectedBy order ctx)) F32.zero)
      as [H|H]; [by left|right].
    apply list_elem_of_fmap in H as (item & Heq & Hin). by exists item.
  - intros ->. reflexivity.
  - reflexivity.
Qed.

(** X3. [CheckContent] and [CheckContentWithContext] return an error in
    one case only, an empty content, and the error is then
    [ErrEmptyContent]; the store is left as it was. No failure of a
    detector, of the rule engine or of the cache reaches the caller. *)
Theorem X3_only_empty_content_fails {L : Library} (s : ContentCheckService)
    (env : CallEnv) (w : Store L) (content userID scene : string)
    (contextItems : list ContextItem) (extraData : gmap string string) :
  (forall e,
     (Service.CheckContent s env w content userID scene extraData).2 = Err e
     <-> content = "" /\ e = ErrEmptyContent)
  /\ (forall e,
        Service.CheckContentWithContext s env content userID scene contextItems
          extraData = Err e
        <-> content = "" /\ e = ErrEmptyContent)
  /\ (content = "" ->
      Service.CheckContent s env w content userID scene extraData
      = (w, Err ErrEmptyContent)).
Proof.
  split; [|split].
  - intros e. apply CheckContent_error.
  - intros e. unfold Service.CheckContentWithContext.
    destruct (decide (content = "")) as [->|Hne].
    + split; [intros [= <-]; done|intros [_ ->]; reflexivity].
    + rewrite doContentCheck_banded. split; [discriminate|intros [? _]; done].
  - intros ->. reflexivity.
Qed.

(** X4. A cache that cannot serve is never an error: when the read misses
    because Redis does not answer, the key is absent, the entry has
    expired or its bytes do not decode, [CheckContent] returns the verdict
    of the pipeline with the request id and the elapsed time of this call;
    and when Redis does not take the write the store is left as it was. *)
Theorem X4_cache_failure_falls_through {L : Library} (s : ContentCheckService)
    (env : CallEnv) (w : Store L) (content userID scene : string)
    (extraData : gmap string string) :
  content <> "" ->
  cacheMiss env w (Service.cacheKey L content) ->
  exists r,
    Service.doContentCheck s (detectorOrder env) (ruleVisit env) content userID scene
      [] extraData = Ok r
    /\ (Service.CheckContent s env w content userID scene extraData).2
       = Ok (Service.withRequest r (Service.requestID "req_" (now env) userID)
               (elapsed env))
    /\ (redisSetOk env = false ->
        (Service.CheckContent s env w content userID scene extraData).1 = w).
Proof.
  intros Hne Hmiss.
  assert (Hget : exists err,
            Service.getCachedResult (redisGetOk env) w (Service.cacheKey L content)
              (now env) = Err err).
  { unfold Service.getCachedResult, Service.redisGet.
    destruct Hmiss as [->|[->|[(data & deadline & -> & Hexp)|(data & deadline & -> & Hdec)]]].
    - simpl. eauto.
    - destruct (redisGetOk env); simpl; eauto.
    - destruct (redisGetOk env); simpl; [|eauto].
      replace (now env <? deadline) with false by (symmetry; apply Z.ltb_ge; lia).
      eauto.
    - destruct (redisGetOk env); simpl; [|eauto].
      destruct deadline as [deadline|]; [destruct (now env <? deadline)|];
        rewrite ?Hdec; eauto. }
  destruct Hget as [err Hget].
  destruct (CheckContent_miss s env w content userID scene extraData err Hne Hget)
    as (r & Hrun & Hcall).
  exists r. split; [exact Hrun|]. rewrite Hcall. simpl. split; [reflexivity|].
  intros Hset. destruct (decide (Result r = ResultTypeReject)); [reflexivity|].
  unfold Service.cacheResult. by rewrite Hset.
Qed.

Lemma X4_cache_failure_falls_through_witness :
  "你好" <> ""
  /\ cacheMiss (L := plainLibrary) (exampleEnv 1000) ∅
       (Service.cacheKey plainLibrary "你好")
  /\ exists r,
       (Service.CheckContent (L := plainLibrary) exampleService (exampleEnv 1000) ∅
          "你好" "u1" "post" ∅).2 = Ok r
       /\ RequestID r = Service.requestID "req_" 1000 "u1".
Proof.
  assert (Hne : "你好" <> "") by discriminate.
  assert (Hmiss : cacheMiss (L := plainLibrary) (exampleEnv 1000) ∅
                    (Service.cacheKey plainLibrary "你好")).
  { right. left. apply lookup_empty. }
  split; [exact Hne|]. split; [exact Hmiss|].
  destruct (X4_cache_failure_falls_through (L := plainLibrary) exampleService
              (exampleEnv 1000) ∅ "你好" "u1" "post" ∅ Hne Hmiss)
    as (r & _ & Hcall & _).
  eexists. split; [exact Hcall|]. reflexivity.
Defined.

(** ** Batches and streams *)

(** X5. A batch longer than the configured maximum [M] is cut to its first
    [M] items without notice: for [M > 0] the call is the call on those
    items, and the result list has [min(len, M)] entries for every
    [M >= 0]. An empty batch is refused with [ErrInvalidRequest], and a
    negative maximum makes the slicing of a non-empty batch panic. *)
Theorem X5_batch_truncation {L : Library} (s : ContentCheckService)
    (envs : nat -> CallEnv) (sched : list nat) (totalElapsed : Z)
    (w : Store L) (items : list CheckRequest) (batchID : string) :
  let M := BatchCheckMaxSize (cfg s) in
  (items = [] ->
   Service.BatchCheckContent s envs sched totalElapsed w items batchID
   = (w, BatchReturn None (Some ErrInvalidRequest)))
  /\ (items <> [] -> M < 0 ->
      Service.BatchCheckContent s envs sched totalElapsed w items batchID
      = (w, BatchPanic))
  /\ (items <> [] -> 0 <= M ->
      exists w' results err,
        Service.BatchCheckContent s envs sched totalElapsed w items batchID
        = (w', BatchReturn (Some {| BatchID := batchID; Results := results;
                                    TotalCostTime := totalElapsed |}) err)
        /\ length results = Nat.min (length items) (Z.to_nat M))
  /\ (items <> [] -> 0 < M ->
      Service.BatchCheckContent s envs sched totalElapsed w items batchID
      = Service.BatchCheckContent s envs sched totalElapsed w
          (take (Z.to_nat M) items) batchID).
Proof.
  intros M. split; [|split; [|split]].
  - intros ->. reflexivity.
  - intros Hne Hneg. unfold Service.BatchCheckContent. fold M.
    destruct items as [|item items]; [done|].
    replace (Z.of_nat (length (item :: items)) =? 0) with false
      by (symmetry; apply Z.eqb_neq; simpl; lia).
    replace (M <? Z.of_nat (length (item :: items))) with true
      by (symmetry; apply Z.ltb_lt; lia).
    replace (M <? 0) with true by (symmetry; apply Z.ltb_lt; lia).
    reflexivity.
  - intros Hne Hpos. unfold Service.BatchCheckContent. fold M.
    replace (Z.of_nat (length items) =? 0) with false
      by (symmetry; apply Z.eqb_neq; destruct items; [done|simpl; lia]).
    replace (M <? 0) with false by (symmetry; apply Z.ltb_ge; lia).
    rewrite andb_false_r.
    destruct (Service.runTasks s envs (Service.truncate s items) sched w)
      as [w' received].
    destruct (Service.collect received) as [resultMap lastError].
    eexists. eexists. eexists. split; [reflexivity|].
    unfold Service.assemble. rewrite length_map, length_seq.
    unfold Service.truncate. fold M.
    destruct (M <? Z.of_nat (length items)) eqn:Hlt.
    + apply Z.ltb_lt in Hlt. rewrite length_take. lia.
    + apply Z.ltb_ge in Hlt. lia.
  - intros Hne Hpos. unfold Service.BatchCheckContent. fold M.
    assert (Hlen : length (take (Z.to_nat M) items)
                   = Nat.min (Z.to_nat M) (length items)) by apply length_take.
    assert (Hitems : (0 < length items)%nat) by (destruct items; [done|simpl; lia]).
    replace (Z.of_nat (length items) =? 0) with false
      by (symmetry; apply Z.eqb_neq; lia).
    replace (Z.of_nat (length (take (Z.to_nat M) items)) =? 0) with false
      by (symmetry; apply Z.eqb_neq; lia).
    replace (M <? 0) with false by (symmetry; apply Z.ltb_ge; lia).
    rewrite !andb_false_r.
    assert (Htr : Service.truncate s (take (Z.to_nat M) items)
                  = Service.truncate s items).
    { unfold Service.truncate. fold M.
      replace (M <? Z.of_nat (length (take (Z.to_nat M) items))) with false
        by (symmetry; apply Z.ltb_ge; lia).
      destruct (M <? Z.of_nat (length items)) eqn:Hlt; [reflexivity|].
      apply Z.ltb_ge in Hlt. apply take_ge. lia. }
    by rewrite Htr.
Qed.

Lemma X5_batch_truncation_witness :
  exampleBatch <> []
  /\ 0 <= BatchCheckMaxSize (cfg smallBatchService)
  /\ exists w' results err,
       Service.BatchCheckContent (L := plainLibrary) smallBatchService
         (fun i => exampleEnv (1000 + Z.of_nat i)) [1; 0]%nat 7 ∅ exampleBatch "b2"
       = (w', BatchReturn (Some {| BatchID := "b2"; Results := results;
                                   TotalCostTime := 7 |}) err)
       /\ length results = 2%nat.
Proof.
  assert (H1 : exampleBatch <> []) by discriminate.
  assert (H2 : 0 <= BatchCheckMaxSize (cfg smallBatchService)) by (simpl; lia).
  split; [exact H1|]. split; [exact H2|].
  destruct (X5_batch_truncation (L := plainLibrary) smallBatchService
              (fun i => exampleEnv (1000 + Z.of_nat i)) [1; 0]%nat 7 ∅ exampleBatch "b2")
    as (_ & _ & Hcut & _).
  destruct (Hcut H1 H2) as (w' & results & err & Hcall & Hlen).
  exists w', results, err. split; [exact Hcall|exact Hlen].
Defined.




(** ** The threshold at the edges *)

Lemma geb_notAboveZero (t x : F32.t) :
  notAboveZero t = true -> fromZero x -> F32.geb x t = true.
Proof.
  unfold F32.geb, F32.leb, SFleb, SFcompare.
  destruct t as [[]|[]| |[] ? ?], x as [[]|[]| |[] ? ?]; simpl; done.
Qed.

Lemma foldl_higher_fromZero (l : list F32.t) (m : F32.t) :
  fromZero m -> fromZero (foldl higher m l).
Proof.
  revert m. induction l as [|x l IH]; intros m Hm; simpl; [exact Hm|].
  apply IH. by apply higher_fromZero.
Qed.

Lemma threshold_range_notAboveZero :
  Forall (fun T => notAboveZero (F32.of_Z T) = true) (seqZ (-100) 101).
Proof. apply (bool_decide_unpack _). vm_compute. exact I. Qed.

Lemma threshold_range_passes_zero :
  Forall (fun T => Service.band T F32.zero = ResultTypePass) (seqZ 1 100).
Proof. apply (bool_decide_unpack _). vm_compute. exact I. Qed.

(** X7. With a reject threshold of 0 or below (down to -100) every content
    is rejected, whatever the detectors return, even when they return
    nothing. With a threshold from 1 to 100 a content on which no detector
    reports an item passes, with score 0 and the approval text as
    suggestion. *)
Theorem X7_threshold_edges (s : ContentCheckService)
    (order : list (string * Detector)) (visit : list Rule)
    (content userID scene : string) (contextItems : list ContextItem)
    (extraData : gmap string string) :
  let T := RiskScoreThreshold (cfg s) in
  let ctx := {| Content := content; UserID := userID; Scene := scene;
                ContextItems := contextItems; ExtraData := extraData |} in
  (-100 <= T <= 0 ->
   exists r,
     Service.doContentCheck s order visit content userID scene contextItems
       extraData = Ok r
     /\ Result r = ResultTypeReject)
  /\ (1 <= T <= 100 ->
      detectedBy order ctx = [] ->
      exists r,
        Service.doContentCheck s order visit content userID scene contextItems
          extraData = Ok r
        /\ Result r = ResultTypePass /\ RiskScore r = F32.zero /\ Risks r = []
        /\ Suggestion r = "内容审核通过").
Proof.
  intros T ctx. split.
  - intros HT. eexists. split; [apply doContentCheck_banded|]. simpl.
    fold T. fold ctx. unfold Service.band.
    rewrite geb_notAboveZero; [reflexivity| |].
    + pose proof threshold_range_notAboveZero as H. rewrite Forall_forall in H.
      apply H. apply elem_of_seqZ. lia.
    + rewrite runDetectors_max. by apply foldl_higher_fromZero.
  - intros HT Hnone. eexists. split; [apply doContentCheck_banded|]. simpl.
    fold T. fold ctx. rewrite runDetectors_max, runDetectors_risks, Hnone. simpl.
    assert (Hband : Service.band T F32.zero = ResultTypePass).
    { pose proof threshold_range_passes_zero as H. rewrite Forall_forall in H.
      apply H. apply elem_of_seqZ. lia. }
    rewrite Hband. done.
Qed.

Lemma X7_threshold_edges_witness :
  -100 <= RiskScoreThreshold (cfg zeroThresholdService) <= 0
  /\ exists r,
       Service.doContentCheck zeroThresholdService exampleDetectors defaultRules
         "你好" "u1" "post" [] ∅ = Ok r
       /\ Result r = ResultTypeReject.
Proof.
  assert (H : -100 <= RiskScoreThreshold (cfg zeroThresholdService) <= 0)
    by (simpl; lia).
  split; [exact H|].
  destruct (X7_threshold_edges zeroThresholdService exampleDetectors defaultRules
              "你好" "u1" "post" [] ∅) as [Hlow _].
  exact (Hlow H).
Defined.

(** ** Loading the rules *)

Lemma storeRules_lookup (rules : list Rule) (m : gmap string Rule) :
  exists m',
    RuleLoader.storeRules (List.map Some rules) m = Some m'
    /\ forall id, m' !! id = match lastWithID id rules with
                             | Some rule => Some rule
                             | None => m !! id
                             end.
Proof.
  revert m. induction rules as [|rule rules IH]; intros m; simpl.
  - exists m. split; [reflexivity|]. intros id. reflexivity.
  - destruct (IH (<[ rule_ID rule := rule ]> m)) as (m' & Hm' & Hlookup).
    exists m'. split; [exact Hm'|]. intros id. rewrite Hlookup.
    unfold lastWithID. simpl.
    destruct (bool_decide_reflect (rule_ID rule = id)) as [Hid|Hid].
    + destruct (List.filter _ rules) as [|r l] eqn:Hf.
      * simpl. subst id. apply lookup_insert_eq.
      * change (last (rule :: r :: l)) with (last (r :: l)).
        destruct (last (r :: l)) eqn:Hlast; [reflexivity|].
        by apply last_None in Hlast.
    + destruct (last (List.filter _ rules)); [reflexivity|].
      by apply lookup_insert_ne.
Qed.

Lemma storeRules_nil_entry (before : list Rule) (after : list (option Rule))
    (m : gmap string Rule) :
  RuleLoader.storeRules (List.map Some before ++ None :: after) m = None.
Proof.
  revert m. induction before as [|rule before IH]; intros m; simpl; [reflexivity|].
  apply IH.
Qed.

Lemma storeRules_size (rules : list Rule) (m m' : gmap string Rule) :
  RuleLoader.storeRules (List.map Some rules) m = Some m' ->
  (size m' <= size m + length rules)%nat.
Proof.
  revert m. induction rules as [|rule rules IH]; intros m; simpl.
  - intros [= <-]. lia.
  - intros H. apply IH in H.
    pose proof (map_size_insert (rule_ID rule) rule m) as Hs.
    destruct (m !! rule_ID rule); simpl in *; lia.
Qed.

(** X8. When the rule file is read and decoded and holds no null entry,
    [loadRules] returns no error, marks the engine initialized and keeps,
    for every identifier, the last rule of the file with that identifier
    (an earlier rule with the same id is overwritten), so that the engine
    never holds more rules than the file lists; [Evaluate] on the loaded
    engine does not fail. A null entry in the array makes [loadRules]
    panic. *)
Theorem X8_loadRules_last_id_wins (src : RuleSource) (e : RuleEngine)
    (data : string) (ruleData : RuleData) (rules : list Rule) :
  ioutil_ReadFile src (ruleFile e) = Ok data ->
  json_UnmarshalRules src data = Ok ruleData ->
  (rd_Rules ruleData = List.map Some rules ->
   exists e',
     RuleLoader.loadRules src e = Returned (e', None)
     /\ initialized e' = true
     /\ ruleFile e' = ruleFile e
     /\ (forall id, Rules (ruleSet e') !! id = lastWithID id rules)
     /\ (size (Rules (ruleSet e')) <= length rules)%nat
     /\ Actions (ruleSet e') = rd_Actions ruleData
     /\ RuleCategories (ruleSet e') = rd_Categories ruleData
     /\ forall visit ctx existingRisks,
          RuleEngineImpl.Evaluate e' visit ctx existingRisks = Ok noMatch)
  /\ (forall after,
        rd_Rules ruleData = List.map Some rules ++ None :: after ->
        RuleLoader.loadRules src e = Panicked).
Proof.
  intros Hread Hdecode. split.
  - intros Hrules. unfold RuleLoader.loadRules. rewrite Hread, Hdecode, Hrules.
    destruct (storeRules_lookup rules ∅) as (m' & Hm' & Hlookup).
    rewrite Hm'. eexists. split; [reflexivity|]. simpl.
    repeat split.
    + intros id. rewrite Hlookup. destruct (lastWithID id rules); [reflexivity|].
      apply lookup_empty.
    + apply storeRules_size in Hm'. rewrite map_size_empty in Hm'. lia.
    + intros visit ctx existingRisks. by apply Evaluate_initialized.
  - intros after Hrules. unfold RuleLoader.loadRules.
    rewrite Hread, Hdecode, Hrules. by rewrite storeRules_nil_entry.
Qed.

Lemma X8_loadRules_last_id_wins_witness :
  exists e',
    RuleLoader.loadRules defaultSource defaultEngine = Returned (e', None)
    /\ initialized e' = true
    /\ forall id, Rules (ruleSet e') !! id = lastWithID id defaultRules.
Proof.
  destruct (X8_loadRules_last_id_wins defaultSource defaultEngine "rules"
              defaultRuleData defaultRules eq_refl eq_refl) as [Hok _].
  destruct (Hok eq_refl) as (e' & Hload & Hinit & _ & Hlookup & _).
  exists e'. auto.
Defined.

(** X9. [NewRuleEngine] gives an engine only when the file was read and
    decoded: a read failure and a decoding failure each give an error that
    carries the cause after a fixed prefix, and no engine; [loadRules]
    leaves an engine untouched when it fails. An engine that
    [NewRuleEngine] does return is initialized, so [Evaluate] on it
    never answers that the engine is not initialized. *)
Theorem X9_NewRuleEngine_all_or_nothing (src : RuleSource) (path : string) :
  (forall err,
     ioutil_ReadFile src path = Err err ->
     RuleLoader.NewRuleEngine src path
     = Returned (Err (Errorf ("failed to read rule file: " +:+ errorString err))))
  /\ (forall data err,
        ioutil_ReadFile src path = Ok data ->
        json_UnmarshalRules src data = Err err ->
        RuleLoader.NewRuleEngine src path
        = Returned (Err (Errorf ("failed to unmarshal rule data: "
                                 +:+ errorString err))))
  /\ (forall e e' err,
        RuleLoader.loadRules src e = Returned (e', Some err) -> e' = e)
  /\ (forall e,
        RuleLoader.NewRuleEngine src path = Returned (Ok e) ->
        initialized e = true /\ ruleFile e = path
        /\ (exists data ruleData,
              ioutil_ReadFile src path = Ok data
              /\ json_UnmarshalRules src data = Ok ruleData)
        /\ forall visit ctx existingRisks,
             RuleEngineImpl.Evaluate e visit ctx existingRisks = Ok noMatch).
Proof.
  split; [|split; [|split]].
  - intros err Hread. unfold RuleLoader.NewRuleEngine, RuleLoader.loadRules.
    simpl. by rewrite Hread.
  - intros data err Hread Hdecode.
    unfold RuleLoader.NewRuleEngine, RuleLoader.loadRules. simpl.
    by rewrite Hread, Hdecode.
  - intros e e' err. unfold RuleLoader.loadRules.
    destruct (ioutil_ReadFile src (ruleFile e)) as [data|?]; [|congruence].
    destruct (json_UnmarshalRules src data) as [ruleData|?]; [|congruence].
    destruct (RuleLoader.storeRules _ _); congruence.
  - intros e. unfold RuleLoader.NewRuleEngine, RuleLoader.loadRules. simpl.
    destruct (ioutil_ReadFile src path) as [data|?]; [|congruence].
    destruct (json_UnmarshalRules src data) as [ruleData|?] eqn:Hdecode;
      [|congruence].
    destruct (RuleLoader.storeRules _ _); [|congruence].
    intros [= <-]. simpl. split; [reflexivity|]. split; [reflexivity|].
    split; [eauto|].
    intros visit ctx existingRisks. by apply Evaluate_initialized.
Qed.

Lemma X9_NewRuleEngine_all_or_nothing_witness :
  RuleLoader.NewRuleEngine defaultSource "missing.json"
  = Returned (Err (Errorf ("failed to read rule file: "
                           +:+ "open missing.json: no such file or directory"))).
Proof.
  destruct (X9_NewRuleEngine_all_or_nothing defaultSource "missing.json")
    as [Hread _].
  exact (Hread (Errorf "open missing.json: no such file or directory") eq_refl).
Defined.

(** ** Evaluation when no rule rejects *)

Lemma matchedRules_app (ev : Rule -> bool * option RiskItem) (l1 l2 : list Rule) :
  matchedRules ev (l1 ++ l2) = matchedRules ev l1 ++ matchedRules ev l2.
Proof. unfold matchedRules. apply List.filter_app. Qed.

Lemma matchedItems_cons (ev : Rule -> bool * option RiskItem) (rule : Rule)
    (rules : list Rule) :
  matchedItems ev (rule :: rules) = matchedItems ev [rule] ++ matchedItems ev rules.
Proof. unfold matchedItems. simpl. by rewrite app_nil_r. Qed.

Lemma evaluateLoop_no_reject (ev : Rule -> bool * option RiskItem)
    (rules seen : list Rule) (risks : list RiskItem)
    (highestScore : F32.t) (highestScoreResult : ResultType) :
  Forall (fun rule => ~ rejects ev rule) rules ->
  highestScoreResult <> ResultTypeReject ->
  (F32.gtb highestScore F32.zero = true ->
   exists rule, rule ∈ matchedRules ev seen /\ rule_Score rule = highestScore
                /\ RuleEngineImpl.getActionType (rule_Action rule)
                   = highestScoreResult) ->
  let r := RuleEngineImpl.evaluateLoop ev rules risks highestScore
             highestScoreResult in
  er_Risks r = risks ++ matchedItems ev rules
  /\ er_Suggestion r = ""
  /\ er_Score r
     = foldl higher highestScore (List.map rule_Score (matchedRules ev rules))
  /\ er_HasExplicitResult r = F32.gtb (er_Score r) F32.zero
  /\ er_Result r <> ResultTypeReject
  /\ (er_HasExplicitResult r = false -> er_Result r = ResultTypePass)
  /\ (er_HasExplicitResult r = true ->
      exists rule, rule ∈ matchedRules ev (seen ++ rules)
                   /\ rule_Score rule = er_Score r
                   /\ RuleEngineImpl.getActionType (rule_Action rule) = er_Result r).
Proof.
  revert seen risks highestScore highestScoreResult.
  induction rules as [|rule rules IH];
    intros seen risks hs hr Hno Hhr Hlead; cbv zeta.
  - simpl. rewrite !app_nil_r. destruct (F32.gtb hs F32.zero) eqn:Hgt; simpl.
    + rewrite Hgt. repeat split; first [done | intros _; by apply Hlead].
    + rewrite Hgt. repeat split; done.
  - apply Forall_cons in Hno as [Hrule Hno].
    rewrite matchedItems_cons.
    replace (seen ++ rule :: rules) with ((seen ++ [rule]) ++ rules)
      by (by rewrite <- app_assoc).
    assert (Hkeep : F32.gtb hs F32.zero = true ->
                    exists r0, r0 ∈ matchedRules ev (seen ++ [rule])
                               /\ rule_Score r0 = hs
                               /\ RuleEngineImpl.getActionType (rule_Action r0) = hr).
    { intros Hgt. destruct (Hlead Hgt) as (r0 & Hin & Hs & Ha). exists r0.
      rewrite matchedRules_app. split; [|done]. apply elem_of_app. by left. }
    simpl. unfold matchedRules at 1. simpl. fold (matchedRules ev rules).
    unfold matchedItems at 1. simpl.
    destruct (rule_Enabled rule) eqn:Hen; simpl.
    2:{ specialize (IH (seen ++ [rule]) risks hs hr Hno Hhr Hkeep).
        cbv zeta in IH. exact IH. }
    destruct (ev rule) as [[] riskItem] eqn:Hev; simpl.
    2:{ specialize (IH (seen ++ [rule]) risks hs hr Hno Hhr Hkeep).
        cbv zeta in IH. exact IH. }
    assert (Hact : RuleEngineImpl.getActionType (rule_Action rule)
                   <> ResultTypeReject).
    { intros Hact. apply Hrule. unfold rejects. by rewrite Hen, Hev. }
    destruct (decide (RuleEngineImpl.getActionType (rule_Action rule)
                      = ResultTypeReject)) as [|_]; [done|].
    set (risks' := match riskItem with
                   | Some item => risks ++ [item]
                   | None => risks
                   end).
    assert (Hrisks : forall tail,
               risks' ++ tail
               = risks ++ (match riskItem with
                           | Some item => [item]
                           | None => []
                           end ++ []) ++ tail).
    { intros tail. subst risks'. destruct riskItem; simpl.
      - by rewrite <- app_assoc.
      - reflexivity. }
    assert (Hin : rule ∈ matchedRules ev (seen ++ [rule])).
    { rewrite matchedRules_app. apply elem_of_app. right.
      unfold matchedRules. simpl. rewrite Hen, Hev. simpl. apply list_elem_of_here. }
    unfold higher at 2.
    destruct (F32.gtb (rule_Score rule) hs) eqn:Hraise.
    + assert (Hpos : F32.gtb (rule_Score rule) F32.zero = true
                     -> exists r0, r0 ∈ matchedRules ev (seen ++ [rule])
                                   /\ rule_Score r0 = rule_Score rule
                                   /\ RuleEngineImpl.getActionType (rule_Action r0)
                                      = RuleEngineImpl.getActionType
                                          (rule_Action rule)).
      { intros _. by exists rule. }
      specialize (IH (seen ++ [rule]) risks' (rule_Score rule)
                    (RuleEngineImpl.getActionType (rule_Action rule)) Hno Hact Hpos).
      cbv zeta in IH. rewrite Hrisks in IH. exact IH.
    + specialize (IH (seen ++ [rule]) risks' hs hr Hno Hhr Hkeep).
      cbv zeta in IH. rewrite Hrisks in IH. exact IH.
Qed.

Lemma rejects_Permutation (ev : Rule -> bool * option RiskItem)
    (l l' : list Rule) :
  l ≡ₚ l' ->
  Forall (fun rule => ~ rejects ev rule) l ->
  Forall (fun rule => ~ rejects ev rule) l'.
Proof. intros Hp H. by rewrite <- Hp. Qed.

(** X10. When the engine is initialized and no enabled rule that matches
    has the action [block], [Evaluate] runs through all rules: it returns
    the items of all matching rules in priority order, an empty
    suggestion, and as score the highest score of a matching rule (0 when
    none is above 0). The result is explicit exactly when that score is
    above 0; it is then the action of a matching rule holding that score,
    it is Pass otherwise, and it is never Reject. *)
Theorem X10_evaluate_without_reject
    (evalRule : Rule -> CheckContext -> gmap RiskType bool -> bool * option RiskItem)
    (e : RuleEngine) (visit : list Rule) (ctx : CheckContext)
    (existingRisks : list RiskItem) :
  let ev := fun r => evalRule r ctx (RuleEngineImpl.existingTypes existingRisks) in
  let sorted := RuleEngineImpl.sortRulesByPriority visit in
  initialized e = true ->
  Forall (fun rule => ~ rejects ev rule) visit ->
  exists r,
    RuleEngineImpl.EvaluateWith evalRule e visit ctx existingRisks = Ok r
    /\ er_Risks r = matchedItems ev sorted
    /\ er_Suggestion r = ""
    /\ er_Score r = foldl higher F32.zero (List.map rule_Score (matchedRules ev sorted))
    /\ er_HasExplicitResult r = F32.gtb (er_Score r) F32.zero
    /\ er_Result r <> ResultTypeReject
    /\ (er_HasExplicitResult r = false -> er_Result r = ResultTypePass)
    /\ (er_HasExplicitResult r = true ->
        exists rule, rule ∈ visit /\ rule_Enabled rule = true
                     /\ fst (ev rule) = true
                     /\ rule_Score rule = er_Score r
                     /\ RuleEngineImpl.getActionType (rule_Action rule)
                        = er_Result r).
Proof.
  intros ev sorted Hinit Hno.
  destruct (sortRulesByPriority_spec visit) as [Hperm _]. fold sorted in Hperm.
  assert (Hno' : Forall (fun rule => ~ rejects ev rule) sorted)
    by (eapply rejects_Permutation; [symmetry; exact Hperm|exact Hno]).
  unfold RuleEngineImpl.EvaluateWith. rewrite Hinit. simpl.
  eexists. split; [reflexivity|]. fold ev. fold sorted.
  destruct (evaluateLoop_no_reject ev sorted [] [] F32.zero ResultTypePass Hno')
    as (Hrisks & Hsugg & Hscore & Hexp & Hres & Hpass & Hlead); [done|done|].
  repeat split; try done.
  intros Hx. destruct (Hlead Hx) as (rule & Hin & Hs & Ha).
  exists rule. simpl in Hin. unfold matchedRules in Hin.
  apply list_elem_of_In, List.filter_In in Hin as [Hin Hm].
  apply andb_true_iff in Hm as [Hen Hm].
  repeat split; try done. rewrite <- Hperm. by apply list_elem_of_In.
Qed.

Lemma X10_evaluate_without_reject_witness :
  exists r,
    RuleEngineImpl.EvaluateWith spamAndContext defaultEngine defaultRules
      (plainContext "优惠") [] = Ok r
    /\ er_Result r = ResultTypeWarning
    /\ er_Score r = F32.of_Z 60
    /\ typesOf (er_Risks r) = [RiskTypeSpam; RiskTypeContextViolation]
    /\ er_HasExplicitResult r = true.
Proof.
  assert (Hno : Forall (fun rule =>
                          ~ rejects (fun r => spamAndContext r (plainContext "优惠")
                                                (RuleEngineImpl.existingTypes []))
                              rule) defaultRules).
  { repeat constructor; intros (_ & Hm & Ha); vm_compute in Hm, Ha; congruence. }
  destruct (X10_evaluate_without_reject spamAndContext defaultEngine defaultRules
              (plainContext "优惠") [] eq_refl Hno) as (r & Hr & _).
  exists r. split; [exact Hr|].
  vm_compute in Hr. injection Hr as <-. by vm_compute.
Defined.

(** ** The order of evaluation *)

Lemma descending_cons (a : Rule) (l : list Rule) :
  descending (a :: l)
  <-> Forall (fun b => rule_Priority b <= rule_Priority a) l /\ descending l.
Proof.
  unfold descending. split.
  - intros H. split.
    + apply Forall_forall. intros b Hb.
      apply list_elem_of_lookup in Hb as [j Hj].
      apply (H 0%nat (S j) a b); [lia|done|done].
    + intros k j rk rj Hkj Hk Hj. apply (H (S k) (S j) rk rj); [lia|done|done].
  - intros [Hall H] k j rk rj Hkj Hk Hj.
    destruct j as [|j]; [lia|]. simpl in Hj.
    destruct k as [|k]; simpl in Hk.
    + injection Hk as <-. rewrite Forall_forall in Hall. apply Hall.
      by eapply list_elem_of_lookup_2.
    + apply (H k j rk rj); [lia|done|done].
Qed.

Lemma descending_unique (l1 l2 : list Rule) :
  NoDup (List.map rule_Priority l1) -> l1 ≡ₚ l2 ->
  descending l1 -> descending l2 -> l1 = l2.
Proof.
  revert l2. induction l1 as [|a t1 IH]; intros l2 Hnd Hp H1 H2.
  - by apply Permutation_nil_l in Hp.
  - destruct l2 as [|b t2]; [by apply Permutation_nil_r in Hp|].
    simpl in Hnd. apply NoDup_cons in Hnd as [Ha Hnd].
    apply descending_cons in H1 as [Hall1 H1].
    apply descending_cons in H2 as [Hall2 H2].
    rewrite Forall_forall in Hall1, Hall2.
    assert (Hab : a = b).
    { assert (Hina : a ∈ b :: t2) by (rewrite <- Hp; apply list_elem_of_here).
      assert (Hinb : b ∈ a :: t1) by (rewrite Hp; apply list_elem_of_here).
      apply elem_of_cons in Hina as [|Hina]; [done|].
      apply elem_of_cons in Hinb as [|Hinb]; [done|].
      exfalso. apply Ha.
      assert (Heq : rule_Priority a = rule_Priority b).
      { apply Hall2 in Hina. apply Hall1 in Hinb. lia. }
      rewrite Heq. apply list_elem_of_In, in_map. by apply list_elem_of_In. }
    subst b. f_equal. apply IH; [done| |done|done].
    by apply Permutation_cons_inv in Hp.
Qed.

(** X11. When the rules of the engine have pairwise distinct priorities,
    the order in which the runtime hands out the rule map does not
    matter: every visiting order sorts to the same list, and [Evaluate]
    gives the same result. *)
Theorem X11_distinct_priorities_fix_order
    (evalRule : Rule -> CheckContext -> gmap RiskType bool -> bool * option RiskItem)
    (e : RuleEngine) (visit visit' : list Rule) (ctx : CheckContext)
    (existingRisks : list RiskItem) :
  NoDup (List.map rule_Priority visit) ->
  visit ≡ₚ visit' ->
  RuleEngineImpl.sortRulesByPriority visit = RuleEngineImpl.sortRulesByPriority visit'
  /\ RuleEngineImpl.EvaluateWith evalRule e visit ctx existingRisks
     = RuleEngineImpl.EvaluateWith evalRule e visit' ctx existingRisks
  /\ RuleEngineImpl.Evaluate e visit ctx existingRisks
     = RuleEngineImpl.Evaluate e visit' ctx existingRisks.
Proof.
  intros Hnd Hp.
  destruct (sortRulesByPriority_spec visit) as [Hp1 Hd1].
  destruct (sortRulesByPriority_spec visit') as [Hp2 Hd2].
  assert (Heq : RuleEngineImpl.sortRulesByPriority visit
                = RuleEngineImpl.sortRulesByPriority visit').
  { apply descending_unique; [|by rewrite Hp1, Hp2|done|done].
    pose proof (Permutation_map rule_Priority Hp1) as Hpm. by rewrite Hpm. }
  split; [exact Heq|].
  unfold RuleEngineImpl.Evaluate, RuleEngineImpl.EvaluateWith. by rewrite Heq.
Qed.

Lemma X11_distinct_priorities_fix_order_witness :
  NoDup (List.map rule_Priority defaultRules)
  /\ defaultRules ≡ₚ rev defaultRules
  /\ RuleEngineImpl.sortRulesByPriority defaultRules
     = RuleEngineImpl.sortRulesByPriority (rev defaultRules).
Proof.
  assert (Hnd : NoDup (List.map rule_Priority defaultRules)).
  { apply (bool_decide_unpack _). by vm_compute. }
  assert (Hp : defaultRules ≡ₚ rev defaultRules)
    by apply Permutation_rev.
  split; [exact Hnd|]. split; [exact Hp|].
  destruct (X11_distinct_priorities_fix_order RuleEngineImpl.evaluateRule
              defaultEngine defaultRules (rev defaultRules) (plainContext "")
              [] Hnd Hp) as [Heq _].
  exact Heq.
Defined.

Lemma swapIfLower_descending (i j : nat) (rules : list Rule) :
  (i < j)%nat -> descending rules -> RuleEngineImpl.swapIfLower i j rules = rules.
Proof.
  intros Hij Hd. unfold RuleEngineImpl.swapIfLower.
  destruct (rules !! i) as [ri|] eqn:Hi; [|reflexivity].
  destruct (rules !! j) as [rj|] eqn:Hj; [|reflexivity].
  destruct (Z.ltb_spec (rule_Priority ri) (rule_Priority rj)) as [Hlt|]; [|reflexivity].
  pose proof (Hd i j ri rj Hij Hi Hj). lia.
Qed.

Lemma innerLoop_descending (n i : nat) (rules : list Rule) :
  descending rules -> RuleEngineImpl.innerLoop n i rules = rules.
Proof.
  intros Hd. unfold RuleEngineImpl.innerLoop.
  assert (H : forall js, Forall (fun j => (i < j)%nat) js ->
                         foldl (fun rules j => RuleEngineImpl.swapIfLower i j rules)
                               rules js = rules).
  { induction js as [|j js IH]; intros Hjs; simpl; [reflexivity|].
    apply Forall_cons in Hjs as [Hj Hjs].
    rewrite swapIfLower_descending by done. by apply IH. }
  apply H. apply Forall_forall. intros j Hj. apply elem_of_seq in Hj. lia.
Qed.

(** X12. Sorting leaves a rule list that is already in descending order
    of priority as it is, rules of equal priority included, and so sorting
    twice is the same as sorting once. *)
Theorem X12_sorted_rules_unchanged (visit : list Rule) :
  (descending visit -> RuleEngineImpl.sortRulesByPriority visit = visit)
  /\ RuleEngineImpl.sortRulesByPriority (RuleEngineImpl.sortRulesByPriority visit)
     = RuleEngineImpl.sortRulesByPriority visit.
Proof.
  assert (H : forall l, descending l -> RuleEngineImpl.sortRulesByPriority l = l).
  { intros l Hd. unfold RuleEngineImpl.sortRulesByPriority. cbv zeta.
    generalize (seq 0 (length l - 1)). intros is_.
    induction is_ as [|i is_ IH]; simpl; [reflexivity|].
    by rewrite innerLoop_descending. }
  split; [apply H|]. apply H. apply sortRulesByPriority_spec.
Qed.

Lemma X12_sorted_rules_unchanged_witness :
  descending defaultRules
  /\ RuleEngineImpl.sortRulesByPriority defaultRules = defaultRules.
Proof.
  assert (Hd : descending defaultRules).
  { unfold defaultRules. rewrite !descending_cons.
    repeat split; try (repeat constructor; simpl; lia).
    intros k j rk rj _ Hk. by rewrite lookup_nil in Hk. }
  split; [exact Hd|].
  destruct (X12_sorted_rules_unchanged defaultRules) as [H _]. exact (H Hd).
Defined.

(** ** The sensitive-word store *)

Lemma HasPrefix_spec (s p : string) :
  strings.HasPrefix s p = true <-> exists post, s = p +:+ post.
Proof.
  revert s. induction p as [|c p IH]; intros s.
  - split; [intros _; by exists s|]. intros _. by destruct s.
  - destruct s as [|d s]; simpl.
    + split; [done|]. intros [post H]. discriminate.
    + rewrite andb_true_iff, IH. split.
      * intros [Hc [post ->]]. apply Ascii.eqb_eq in Hc as ->. by exists post.
      * intros [post H]. injection H as -> ->. split; [apply Ascii.eqb_refl|eauto].
Qed.

Lemma Contains_spec (s sub : string) :
  strings.Contains s sub = true <-> exists pre post, s = pre +:+ sub +:+ post.
Proof.
  induction s as [|d s IH].
  - change (strings.Contains "" sub) with (strings.HasPrefix "" sub || false).
    rewrite orb_false_r, HasPrefix_spec. split.
    + intros [post ->]. by exists "", post.
    + intros (pre & post & H). destruct pre; [by exists post|discriminate].
  - change (strings.Contains (String d s) sub)
      with (strings.HasPrefix (String d s) sub || strings.Contains s sub).
    rewrite orb_true_iff, IH, HasPrefix_spec. split.
    + intros [[post ->]|(pre & post & ->)].
      * by exists "", post.
      * by exists (String d pre), post.
    + intros (pre & post & H). destruct pre as [|c pre].
      * left. by exists post.
      * right. injection H as -> ->. by exists pre, post.
Qed.

Lemma Contains_nonempty (content word : string) :
  word <> "" -> strings.Contains content word = true -> content <> "".
Proof. intros Hw H ->. destruct word; [done|]. simpl in H. discriminate. Qed.

Lemma givesb_gives (line word : string) :
  givesb line word = true <-> gives line word.
Proof.
  unfold givesb, gives.
  rewrite !andb_true_iff, !negb_true_iff, bool_decide_eq_true, bool_decide_eq_false.
  tauto.
Qed.

Lemma scan_lookup (lines : list string) (acc : gmap string bool) (word : string) :
  foldl (fun words line =>
           let word := strings.TrimSpace line in
           if bool_decide (word = "") || strings.HasPrefix word "#"
           then words
           else <[ word := true ]> words) acc lines !! word
  = if existsb (fun line => givesb line word) lines then Some true else acc !! word.
Proof.
  revert acc. induction lines as [|line lines IH]; intros acc; [reflexivity|].
  cbn [foldl existsb]. rewrite IH. cbv zeta.
  destruct (existsb _ lines); [by rewrite orb_true_r|]. rewrite orb_false_r.
  unfold givesb.
  destruct (bool_decide_reflect (strings.TrimSpace line = word)) as [Heq|Hne].
  - subst word. simpl.
    destruct (bool_decide (strings.TrimSpace line = "")); [reflexivity|].
    destruct (strings.HasPrefix (strings.TrimSpace line) "#"); [reflexivity|].
    simpl. apply lookup_insert_eq.
  - rewrite !andb_false_l.
    destruct (_ || _); [reflexivity|]. by apply lookup_insert_ne.
Qed.

Lemma loadFromFile_lookup (fs : string -> FileRead) (path : string)
    (acc : gmap string bool) (word : string) :
  fst (SensitiveWordsImpl.loadFromFile fs path acc) !! word
  = if fileGives fs path word then Some true else acc !! word.
Proof.
  unfold SensitiveWordsImpl.loadFromFile, fileGives.
  destruct (fs path) as [e|lines scanErr]; [reflexivity|]. simpl.
  apply scan_lookup.
Qed.

Lemma candidate_lookup (fs : string -> FileRead) (paths : list string)
    (word : string) :
  SensitiveWordsImpl.candidate fs paths !! word
  = if existsb (fun path => fileGives fs path word) paths then Some true else None.
Proof.
  unfold SensitiveWordsImpl.candidate.
  assert (H : forall acc,
             foldl (fun newWords path =>
                      fst (SensitiveWordsImpl.loadFromFile fs path newWords))
                   acc paths !! word
             = if existsb (fun path => fileGives fs path word) paths
               then Some true else acc !! word).
  { induction paths as [|path paths IH]; intros acc; [reflexivity|].
    cbn [foldl existsb]. rewrite IH, loadFromFile_lookup.
    destruct (existsb _ paths); [by rewrite orb_true_r|]. by rewrite orb_false_r. }
  rewrite H. by rewrite lookup_empty.
Qed.

Lemma candidate_wellformed (fs : string -> FileRead) (paths : list string) :
  SensitiveWordsImpl.candidate fs paths !! "" = None
  /\ forall word b, SensitiveWordsImpl.candidate fs paths !! word = Some b -> b = true.
Proof.
  split.
  - rewrite candidate_lookup. destruct (existsb _ paths) eqn:Hex; [|reflexivity].
    apply existsb_exists in Hex as (path & _ & Hfile). unfold fileGives in Hfile.
    destruct (fs path) as [|lines scanErr]; [discriminate|].
    apply existsb_exists in Hfile as (line & _ & Hg).
    apply givesb_gives in Hg as (_ & Hne & _). done.
  - intros word b. rewrite candidate_lookup. destruct (existsb _ paths); congruence.
Qed.

(** X13. The candidate set that [Update] builds holds exactly the words
    given by some line of some configured file that could be opened: the
    line trimmed of white space, when that is not empty and does not
    start with [#]. Every value in it is [true]. Lines read before a
    scanner error count; a file that cannot be opened gives nothing and
    does not stop the other files from being read. *)
Theorem X13_candidate_words (fs : string -> FileRead) (paths : list string)
    (word : string) :
  (is_Some (SensitiveWordsImpl.candidate fs paths !! word)
   <-> exists path lines scanErr line,
         path ∈ paths /\ fs path = Scanned lines scanErr
         /\ line ∈ lines /\ gives line word)
  /\ (forall b, SensitiveWordsImpl.candidate fs paths !! word = Some b -> b = true)
  /\ SensitiveWordsImpl.candidate fs paths !! "" = None
  /\ (forall before after,
        paths = before ++ after ->
        Forall (fun p => exists e, fs p = OpenFailed e) before ->
        SensitiveWordsImpl.candidate fs paths
        = SensitiveWordsImpl.candidate fs after).
Proof.
  rewrite !candidate_lookup. split; [|split; [|split]].
  - destruct (existsb _ paths) eqn:Hex.
    + split; [intros _|by eauto].
      apply existsb_exists in Hex as (path & Hpath & Hfile).
      unfold fileGives in Hfile.
      destruct (fs path) as [|lines scanErr] eqn:Hfs; [discriminate|].
      apply existsb_exists in Hfile as (line & Hline & Hg).
      exists path, lines, scanErr, line.
      rewrite !list_elem_of_In, <- givesb_gives. done.
    + split; [by intros [? ?]|].
      intros (path & lines & scanErr & line & Hpath & Hfs & Hline & Hg).
      exfalso. apply not_true_iff_false in Hex. apply Hex.
      apply existsb_exists. exists path. split; [by apply list_elem_of_In|].
      unfold fileGives. rewrite Hfs. apply existsb_exists. exists line.
      split; [by apply list_elem_of_In|]. by apply givesb_gives.
  - intros b. destruct (existsb _ paths); congruence.
  - rewrite <- candidate_lookup. apply candidate_wellformed.
  - intros before after -> Hall. unfold SensitiveWordsImpl.candidate.
    rewrite foldl_app. f_equal.
    induction before as [|p before IH] using rev_ind; [reflexivity|].
    apply Forall_app in Hall as [Hall Hp]. rewrite Forall_singleton in Hp.
    destruct Hp as [e Hp].
    rewrite foldl_app. simpl. rewrite IH by done.
    unfold SensitiveWordsImpl.loadFromFile. by rewrite Hp.
Qed.

Lemma SetWordList_lookup (l : list string) (acc : gmap string bool) (w : string) :
  foldl (fun m word => if decide (word = "") then m else <[ word := true ]> m)
        acc l !! w
  = if bool_decide (w ∈ l) && negb (bool_decide (w = ""))
    then Some true else acc !! w.
Proof.
  revert acc. induction l as [|x l IH]; intros acc; [reflexivity|].
  cbn [foldl]. rewrite IH.
  destruct (decide (w = "")) as [Hw|Hw].
  - rewrite (bool_decide_eq_true_2 (w = "")) by done. rewrite !andb_false_r.
    destruct (decide (x = "")) as [Hx|Hx]; [done|].
    apply lookup_insert_ne. congruence.
  - rewrite (bool_decide_eq_false_2 (w = "")) by done. rewrite !andb_true_r.
    destruct (decide (x = w)) as [Hxw|Hxw].
    + rewrite (bool_decide_eq_true_2 (w ∈ x :: l))
        by (rewrite Hxw; apply list_elem_of_here).
      destruct (bool_decide (w ∈ l)); [done|].
      destruct (decide (x = "")) as [Hx|Hx]; [congruence|].
      rewrite Hxw. apply lookup_insert_eq.
    + destruct (bool_decide_reflect (w ∈ l)) as [Hin|Hnin].
      * by rewrite (bool_decide_eq_true_2 (w ∈ x :: l))
          by (apply elem_of_cons; by right).
      * rewrite (bool_decide_eq_false_2 (w ∈ x :: l)).
        2:{ intros Hin'. apply elem_of_cons in Hin' as [Heq|]; [congruence|done]. }
        destruct (decide (x = "")) as [Hx|Hx]; [done|]. by apply lookup_insert_ne.
Qed.

(** X14. Every store that [NewSensitiveWords] makes and the exported
    methods change keeps three things: the empty string is not a word
    (it would be found in every content), every stored value is [true],
    and the default file stays first in the list of word files. A word
    that [ContainsWord] reports on such a store is therefore never empty,
    is a stored word and occurs in the content. *)
Theorem X14_store_invariant (sw : SensitiveWords) :
  built sw ->
  words sw !! "" = None
  /\ (forall word b, words sw !! word = Some b -> b = true)
  /\ (exists rest, filePaths sw = "config/sensitive_words.txt" :: rest)
  /\ (forall visit content word,
        rangesOver visit (words sw) ->
        SensitiveWordsImpl.ContainsWord visit content = (true, word) ->
        word <> "" /\ words sw !! word = Some true
        /\ strings.Contains content word = true).
Proof.
  intros Hb.
  assert (Hinv : words sw !! "" = None
                 /\ (forall word b, words sw !! word = Some b -> b = true)
                 /\ (exists rest, filePaths sw = "config/sensitive_words.txt" :: rest)).
  { assert (Hupd : forall fs sw0,
               words sw0 !! "" = None
               /\ (forall word b, words sw0 !! word = Some b -> b = true)
               /\ (exists rest,
                     filePaths sw0 = "config/sensitive_words.txt" :: rest) ->
               words (SensitiveWordsImpl.Update fs sw0).1 !! "" = None
               /\ (forall word b,
                     words (SensitiveWordsImpl.Update fs sw0).1 !! word = Some b ->
                     b = true)
               /\ (exists rest,
                     filePaths (SensitiveWordsImpl.Update fs sw0).1
                     = "config/sensitive_words.txt" :: rest)).
    { intros fs sw0 (H0 & Ht & Hp). unfold SensitiveWordsImpl.Update. cbv zeta.
      destruct (0 <? _); simpl; [|done].
      destruct (candidate_wellformed fs (filePaths sw0)) as [Hc0 Hct]. done. }
    induction Hb as [fs|fs sw _ IH|sw word _ IH|sw word _ IH|sw l _ IH|sw path _ IH].
    - apply Hupd. simpl. split; [apply lookup_empty|]. split; [|by eexists].
      intros word b H. by rewrite lookup_empty in H.
    - by apply Hupd.
    - destruct IH as (H0 & Ht & Hp). unfold SensitiveWordsImpl.AddWord.
      destruct (decide (word = "")) as [|Hw]; [done|]. simpl.
      split; [by rewrite lookup_insert_ne|]. split; [|done].
      intros w b. destruct (decide (word = w)) as [->|Hne].
      + rewrite lookup_insert_eq. congruence.
      + rewrite lookup_insert_ne by done. apply Ht.
    - destruct IH as (H0 & Ht & Hp). simpl.
      split; [by apply lookup_delete_None; right|]. split; [|done].
      intros w b Hw. apply lookup_delete_Some in Hw as [_ Hw]. by eapply Ht.
    - destruct IH as (H0 & Ht & Hp). simpl. rewrite SetWordList_lookup.
      split; [by rewrite andb_false_r, lookup_empty|]. split; [|done].
      intros w b. rewrite SetWordList_lookup, lookup_empty.
      destruct (_ && _); congruence.
    - destruct IH as (H0 & Ht & [rest Hp]). simpl. rewrite Hp.
      split; [done|]. split; [done|]. by eexists. }
  destruct Hinv as (H0 & Ht & Hp).
  split; [done|]. split; [done|]. split; [done|].
  intros visit content word [_ Hr]. unfold SensitiveWordsImpl.ContainsWord.
  destruct (decide (content = "")); [congruence|].
  destruct (List.find _ visit) as [w|] eqn:Hfind; [|congruence].
  intros [= ->]. apply List.find_some in Hfind as [Hin Hc].
  apply list_elem_of_In, Hr in Hin as [b Hb'].
  split; [congruence|]. split; [|done].
  rewrite Hb'. f_equal. by eapply Ht.
Qed.

Lemma X14_store_invariant_witness :
  built (SensitiveWordsImpl.AddWord
           (SensitiveWordsImpl.NewSensitiveWords brokenFile) "博彩")
  /\ words (SensitiveWordsImpl.AddWord
              (SensitiveWordsImpl.NewSensitiveWords brokenFile) "博彩") !! "" = None.
Proof.
  assert (Hb : built (SensitiveWordsImpl.AddWord
                        (SensitiveWordsImpl.NewSensitiveWords brokenFile) "博彩"))
    by (apply built_AddWord, built_New).
  split; [exact Hb|].
  destruct (X14_store_invariant _ Hb) as [H0 _]. exact H0.
Defined.

Lemma ContainsWord_found (visit : list string) (content : string) :
  fst (SensitiveWordsImpl.ContainsWord visit content)
  = negb (bool_decide (content = ""))
    && existsb (fun word => strings.Contains content word) visit.
Proof.
  unfold SensitiveWordsImpl.ContainsWord.
  destruct (decide (content = "")) as [Hc|Hc].
  - by rewrite (bool_decide_eq_true_2 _ Hc).
  - rewrite (bool_decide_eq_false_2 _ Hc). simpl.
    destruct (List.find _ visit) as [w|] eqn:Hfind; simpl.
    + symmetry. apply existsb_exists. exists w. by apply List.find_some in Hfind.
    + symmetry. apply not_true_iff_false. intros Hex.
      apply existsb_exists in Hex as (w & Hin & Hw).
      by rewrite (List.find_none _ _ Hfind w Hin) in Hw.
Qed.

Lemma ContainsWord_reported (visit : list string) (content word : string) :
  SensitiveWordsImpl.ContainsWord visit content = (true, word) ->
  word ∈ visit /\ strings.Contains content word = true /\ content <> "".
Proof.
  unfold SensitiveWordsImpl.ContainsWord.
  destruct (decide (content = "")); [congruence|].
  destruct (List.find _ visit) as [w|] eqn:Hfind; [|congruence].
  intros [= ->]. apply List.find_some in Hfind as [Hin Hc].
  by rewrite list_elem_of_In.
Qed.

Lemma ContainsWord_cases (visit : list string) (content : string) :
  SensitiveWordsImpl.ContainsWord visit content = (false, "")
  \/ exists word, SensitiveWordsImpl.ContainsWord visit content = (true, word).
Proof.
  unfold SensitiveWordsImpl.ContainsWord.
  destruct (decide (content = "")); [by left|].
  destruct (List.find _ visit) as [w|]; [right; by exists w|by left].
Qed.

Lemma existsb_Permutation {A} (f : A -> bool) (l l' : list A) :
  l ≡ₚ l' -> existsb f l = existsb f l'.
Proof.
  intros Hp. apply eq_true_iff_eq. rewrite !existsb_exists.
  split; intros (x & Hin & Hx); exists x; split; try done.
  - apply list_elem_of_In. rewrite <- Hp. by apply list_elem_of_In.
  - apply list_elem_of_In. rewrite Hp. by apply list_elem_of_In.
Qed.

(** X15. [ContainsWord] answers yes exactly when the content is not empty
    and some word of the store occurs in it as a substring; the word it
    reports is a word of the store that occurs in the content. Whether it
    answers yes does not depend on the order in which the map is ranged
    over (which word is reported can). The sensitive-word detector built
    on it gives one item of score 80 naming the reported word, or no
    item, and never an error. *)
Theorem X15_ContainsWord_any_order (visit visit' : list string) (ctx : CheckContext) :
  let content := Content ctx in
  let answer := SensitiveWordsImpl.ContainsWord visit content in
  (fst answer = true
   <-> content <> ""
       /\ exists word pre post, word ∈ visit /\ content = pre +:+ word +:+ post)
  /\ (fst answer = true ->
      snd answer ∈ visit /\ strings.Contains content (snd answer) = true)
  /\ (fst answer = false -> answer = (false, ""))
  /\ (visit ≡ₚ visit' ->
      fst (SensitiveWordsImpl.ContainsWord visit' content) = fst answer)
  /\ SensitiveWordDetector.Detect (SensitiveWordsImpl.ContainsWord visit) ctx
     = (if fst answer
        then [ {| Type_ := RiskTypeSensitiveWord; Score := F32.of_Z 80;
                  Description := "内容包含敏感词: " +:+ snd answer;
                  Details := {[ "word" := snd answer ]} |} ]
        else [], None).
Proof.
  intros content answer. subst answer. split; [|split; [|split; [|split]]].
  - rewrite ContainsWord_found, andb_true_iff, negb_true_iff, bool_decide_eq_false,
      existsb_exists.
    split.
    + intros [Hc (w & Hin & Hw)]. split; [done|].
      apply Contains_spec in Hw as (pre & post & Hw).
      exists w, pre, post. by rewrite list_elem_of_In.
    + intros [Hc (w & pre & post & Hin & Hw)]. split; [done|].
      exists w. split; [by apply list_elem_of_In|].
      apply Contains_spec. eauto.
  - destruct (ContainsWord_cases visit content) as [H|[w H]]; rewrite H; simpl.
    + done.
    + intros _. by apply ContainsWord_reported in H as (? & ? & _).
  - destruct (ContainsWord_cases visit content) as [H|[w H]]; rewrite H; simpl; done.
  - intros Hp. rewrite !ContainsWord_found. f_equal. symmetry.
    by apply existsb_Permutation.
  - unfold SensitiveWordDetector.Detect. fold content.
    destruct (decide (content = "")) as [Hc|Hc].
    + unfold SensitiveWordsImpl.ContainsWord.
      by destruct (decide (content = "")).
    + by destruct (SensitiveWordsImpl.ContainsWord visit content) as [[] w].
Qed.

Lemma X15_ContainsWord_any_order_witness :
  [ "赌博"; "敏感词1" ] ≡ₚ [ "敏感词1"; "赌博" ]
  /\ fst (SensitiveWordsImpl.ContainsWord [ "敏感词1"; "赌博" ] "网络赌博")
     = fst (SensitiveWordsImpl.ContainsWord [ "赌博"; "敏感词1" ] "网络赌博").
Proof.
  assert (Hp : [ "赌博"; "敏感词1" ] ≡ₚ [ "敏感词1"; "赌博" ]) by apply perm_swap.
  split; [exact Hp|].
  destruct (X15_ContainsWord_any_order [ "赌博"; "敏感词1" ] [ "敏感词1"; "赌博" ]
              (plainContext "网络赌博")) as (_ & _ & _ & H & _).
  exact (H Hp).
Defined.

(** X16. A word added with [AddWord] is found from then on: every
    content in which it occurs is flagged, whatever the order of the
    range. A word removed with [RemoveWord] is never reported again.
    Adding the empty word changes nothing, removing a word that is not
    stored changes nothing, and adding a new word and removing it gives
    the store back; neither method touches the list of files. *)
Theorem X16_AddWord_RemoveWord (sw : SensitiveWords) (word : string) :
  (word <> "" ->
   forall visit content,
     rangesOver visit (words (SensitiveWordsImpl.AddWord sw word)) ->
     strings.Contains content word = true ->
     fst (SensitiveWordsImpl.ContainsWord visit content) = true)
  /\ (forall visit content,
        rangesOver visit (words (SensitiveWordsImpl.RemoveWord sw word)) ->
        SensitiveWordsImpl.ContainsWord visit content <> (true, word))
  /\ SensitiveWordsImpl.AddWord sw "" = sw
  /\ (words sw !! word = None ->
      SensitiveWordsImpl.RemoveWord sw word = sw
      /\ SensitiveWordsImpl.RemoveWord (SensitiveWordsImpl.AddWord sw word) word = sw)
  /\ filePaths (SensitiveWordsImpl.AddWord sw word) = filePaths sw
  /\ filePaths (SensitiveWordsImpl.RemoveWord sw word) = filePaths sw.
Proof.
  split; [|split; [|split; [|split; [|split]]]].
  - intros Hw visit content [_ Hr] Hc.
    rewrite ContainsWord_found, andb_true_iff, negb_true_iff, bool_decide_eq_false.
    split; [by eapply Contains_nonempty|].
    apply existsb_exists. exists word. split; [|done].
    apply list_elem_of_In, Hr. unfold SensitiveWordsImpl.AddWord.
    destruct (decide (word = "")); [done|]. simpl. rewrite lookup_insert_eq. eauto.
  - intros visit content [_ Hr] H.
    apply ContainsWord_reported in H as (Hin & _ & _).
    apply Hr in Hin as [b Hb]. simpl in Hb. by rewrite lookup_delete_eq in Hb.
  - reflexivity.
  - intros Hnone. destruct sw as [ws fp]. simpl in Hnone.
    unfold SensitiveWordsImpl.RemoveWord, SensitiveWordsImpl.AddWord. simpl. split.
    + by rewrite delete_id.
    + destruct (decide (word = "")); simpl.
      * by rewrite delete_id.
      * by rewrite delete_insert_eq, delete_id.
  - unfold SensitiveWordsImpl.AddWord. by destruct (decide (word = "")).
  - reflexivity.
Qed.

Lemma X16_AddWord_RemoveWord_witness :
  "赌博" <> ""
  /\ rangesOver [ "赌博"; "敏感词1" ]
       (words (SensitiveWordsImpl.AddWord oneWordStore "赌博"))
  /\ strings.Contains "网络赌博" "赌博" = true
  /\ fst (SensitiveWordsImpl.ContainsWord [ "赌博"; "敏感词1" ] "网络赌博") = true.
Proof.
  assert (Hw : "赌博" <> "") by done.
  assert (Hr : rangesOver [ "赌博"; "敏感词1" ]
                 (words (SensitiveWordsImpl.AddWord oneWordStore "赌博"))).
  { split.
    - apply (bool_decide_unpack _). by vm_compute.
    - intros w. unfold SensitiveWordsImpl.AddWord.
      destruct (decide ("赌博" = "")) as [|_]; [done|]. simpl.
      rewrite lookup_insert_is_Some', !elem_of_cons, elem_of_nil.
      unfold is_Some. setoid_rewrite lookup_singleton_Some.
      split.
      + intros [->|[->|[]]]; eauto.
      + intros [<-|(x & <- & _)]; auto. }
  assert (Hc : strings.Contains "网络赌博" "赌博" = true) by (by vm_compute).
  split; [exact Hw|]. split; [exact Hr|]. split; [exact Hc|].
  destruct (X16_AddWord_RemoveWord oneWordStore "赌博") as [H _].
  exact (H Hw _ _ Hr Hc).
Defined.

Lemma GetAllWords_visit (visit : list string) :
  SensitiveWordsQuery.GetAllWords visit = visit.
Proof.
  unfold SensitiveWordsQuery.GetAllWords.
  assert (H : forall acc, foldl (fun words word => words ++ [word]) acc visit
                          = acc ++ visit).
  { induction visit as [|w visit IH]; intros acc; simpl.
    - by rewrite app_nil_r.
    - rewrite IH. by rewrite <- app_assoc. }
  apply H.
Qed.

(** X17. After [SetWordList] the store holds the non-empty words of the
    list, each once: [GetAllWords] returns them in some order without
    repetition, whatever the store held before, and the list of files is
    kept. *)
Theorem X17_SetWordList_GetAllWords (sw : SensitiveWords) (l visit : list string) :
  rangesOver visit (words (SensitiveWordsImpl.SetWordList sw l)) ->
  SensitiveWordsQuery.GetAllWords visit
  ≡ₚ remove_dups (List.filter (fun word => negb (bool_decide (word = ""))) l)
  /\ NoDup (SensitiveWordsQuery.GetAllWords visit)
  /\ (forall word, word ∈ SensitiveWordsQuery.GetAllWords visit
                   <-> word ∈ l /\ word <> "")
  /\ filePaths (SensitiveWordsImpl.SetWordList sw l) = filePaths sw.
Proof.
  intros [Hnd Hr]. rewrite GetAllWords_visit.
  assert (Hmem : forall word, word ∈ visit <-> word ∈ l /\ word <> "").
  { intros word. rewrite Hr. simpl. rewrite SetWordList_lookup, lookup_empty.
    destruct (bool_decide_reflect (word ∈ l)) as [Hin|Hnin];
      destruct (bool_decide_reflect (word = "")) as [He|Hne]; simpl;
      (split; [intros [b Hb]; congruence || auto | intros [H1 H2]; tauto || eauto]). }
  split; [|done].
  apply NoDup_Permutation; [done|apply NoDup_remove_dups|].
  intros word. rewrite Hmem, elem_of_remove_dups, !list_elem_of_In, List.filter_In,
    negb_true_iff, bool_decide_eq_false. done.
Qed.

Lemma X17_SetWordList_GetAllWords_witness :
  rangesOver [ "诈骗"; "赌博" ]
    (words (SensitiveWordsImpl.SetWordList oneWordStore [ "赌博"; ""; "诈骗"; "赌博" ]))
  /\ SensitiveWordsQuery.GetAllWords [ "诈骗"; "赌博" ]
     ≡ₚ remove_dups (List.filter (fun word => negb (bool_decide (word = "")))
                       [ "赌博"; ""; "诈骗"; "赌博" ]).
Proof.
  assert (Hr : rangesOver [ "诈骗"; "赌博" ]
                 (words (SensitiveWordsImpl.SetWordList oneWordStore
                           [ "赌博"; ""; "诈骗"; "赌博" ]))).
  { split.
    - apply (bool_decide_unpack _). by vm_compute.
    - intros w. unfold SensitiveWordsImpl.SetWordList. cbn [words].
      rewrite SetWordList_lookup, lookup_empty.
      rewrite !elem_of_cons, elem_of_nil.
      destruct (bool_decide_reflect (w ∈ [ "赌博"; ""; "诈骗"; "赌博" ])) as [Hin|Hnin];
        destruct (bool_decide_reflect (w = "")) as [He|Hne]; simpl.
      + subst w. split; [intros [H|[H|[]]]; discriminate H|intros [b Hb]; discriminate Hb].
      + split; [eauto|intros _].
        rewrite !elem_of_cons, elem_of_nil in Hin.
        destruct Hin as [H|[H|[H|[H|[]]]]]; auto; congruence.
      + subst w. split; [intros [H|[H|[]]]; discriminate H|intros [b Hb]; discriminate Hb].
      + split; [|intros [b Hb]; discriminate Hb]. intros H. exfalso. apply Hnin.
        rewrite !elem_of_cons, elem_of_nil. destruct H as [H|[H|[]]]; auto. }
  split; [exact Hr|].
  destruct (X17_SetWordList_GetAllWords oneWordStore _ _ Hr) as [H _]. exact H.
Defined.

Lemma X13_candidate_words_witness :
  Forall (fun p => exists e, brokenFile p = OpenFailed e) [ "extra.txt" ]
  /\ SensitiveWordsImpl.candidate brokenFile
       [ "extra.txt"; "config/sensitive_words.txt" ]
     = SensitiveWordsImpl.candidate brokenFile [ "config/sensitive_words.txt" ]
  /\ is_Some (SensitiveWordsImpl.candidate brokenFile
                [ "extra.txt"; "config/sensitive_words.txt" ] !! "赌博").
Proof.
  assert (Hall : Forall (fun p => exists e, brokenFile p = OpenFailed e)
                   [ "extra.txt" ]).
  { apply Forall_singleton. by eexists. }
  split; [exact Hall|].
  destruct (X13_candidate_words brokenFile
              [ "extra.txt"; "config/sensitive_words.txt" ] "赌博")
    as (Hin & _ & _ & Hskip).
  split; [exact (Hskip [ "extra.txt" ] [ "config/sensitive_words.txt" ] eq_refl Hall)|].
  apply Hin. exists "config/sensitive_words.txt". do 2 eexists. exists " 赌博 ".
  split; [apply elem_of_cons; right; apply list_elem_of_here|].
  split; [reflexivity|]. split; [|by vm_compute].
  do 2 (apply elem_of_cons; right). apply list_elem_of_here.
Defined.

(** ** The context rules of the harassment detector *)

Lemma targetCounts_fold (me u : string) (items : list ContextItem)
    (acc : gmap string Z) :
  foldl (fun m item =>
           if decide (ci_UserID item = me) then m
           else <[ ci_UserID item := default 0 (m !! ci_UserID item) + 1 ]> m)
        acc items !! u
  = if decide (u = me) then acc !! u
    else
      let n := length (filter (fun item => ci_UserID item = u) items) in
      if decide (n = 0%nat) then acc !! u
      else Some (default 0 (acc !! u) + Z.of_nat n).
Proof.
  revert acc. induction items as [|item items IH]; intros acc; cbn [foldl].
  - destruct (decide (u = me)); reflexivity.
  - rewrite IH. clear IH. destruct (decide (u = me)) as [Hme|Hme].
    + destruct (decide (ci_UserID item = me)) as [|Hi]; [reflexivity|].
      apply lookup_insert_ne. congruence.
    + cbv zeta. rewrite filter_cons.
      destruct (decide (ci_UserID item = u)) as [Hu|Hu].
      * destruct (decide (ci_UserID item = me)) as [|Hi]; [congruence|].
        rewrite Hu, lookup_insert_eq. cbn [length default].
        destruct (decide (length (filter _ items) = 0%nat)) as [Hz|Hz].
        -- rewrite Hz. destruct (decide (1 = 0)%nat); [lia|]. unfold id. f_equal; lia.
        -- destruct (decide (S _ = 0%nat)); [lia|]. unfold id. f_equal; lia.
      * destruct (decide (ci_UserID item = me)) as [|Hi]; [reflexivity|].
        by rewrite lookup_insert_ne.
Qed.







(** ** One item at the threshold *)

Lemma threshold_reached (t x m : F32.t) :
  aboveZero t = true -> fromZero m ->
  F32.leb t x = true -> F32.gtb x m = false -> F32.geb m t = true.
Proof.
  unfold F32.geb, F32.leb, SFleb. f32_cases; order_cases.
Qed.

Lemma threshold_range_aboveZero :
  Forall (fun T => aboveZero (F32.of_Z T) = true) (seqZ 1 100).
Proof. apply (bool_decide_unpack _). vm_compute. exact I. Qed.

Lemma doContentCheck_rejects (s : ContentCheckService)
    (order : list (string * Detector)) (visit : list Rule)
    (ctx : CheckContext) (item : RiskItem) :
  1 <= RiskScoreThreshold (cfg s) <= 100 ->
  item ∈ detectedBy order ctx ->
  F32.leb (F32.of_Z (RiskScoreThreshold (cfg s))) (Score item) = true ->
  exists r,
    Service.doContentCheck s order visit (Content ctx) (UserID ctx) (Scene ctx)
      (ContextItems ctx) (ExtraData ctx) = Ok r
    /\ Result r = ResultTypeReject.
Proof.
  intros HT Hin Hscore. eexists. split; [apply doContentCheck_banded|].
  destruct ctx as [content userID scene contextItems extraData]. simpl.
  set (ctx := {| Content := content; UserID := userID; Scene := scene;
                 ContextItems := contextItems; ExtraData := extraData |}) in *.
  unfold Service.band.
  rewrite (threshold_reached _ (Score item)); [reflexivity| | |exact Hscore|].
  - pose proof threshold_range_aboveZero as H. rewrite Forall_forall in H.
    apply H, elem_of_seqZ. lia.
  - rewrite runDetectors_max. by apply foldl_higher_fromZero.
  - rewrite runDetectors_max. apply foldl_higher_upper; [exact I|].
    by apply list_elem_of_fmap_2.
Qed.

(** X19. One item is enough to reject: when the threshold is between 1
    and 100 and some detector that answers without error reports an item
    whose score is at or above the threshold, the verdict is Reject,
    whatever the other detectors and the rule engine give. *)
Theorem X19_item_at_threshold_rejects (s : ContentCheckService)
    (order : list (string * Detector)) (visit : list Rule)
    (content userID scene : string) (contextItems : list ContextItem)
    (extraData : gmap string string) (name : string) (d : Detector)
    (risks : list RiskItem) (item : RiskItem) :
  let ctx := {| Content := content; UserID := userID; Scene := scene;
                ContextItems := contextItems; ExtraData := extraData |} in
  1 <= RiskScoreThreshold (cfg s) <= 100 ->
  (name, d) ∈ order ->
  Detect d ctx = (risks, None) ->
  item ∈ risks ->
  F32.leb (F32.of_Z (RiskScoreThreshold (cfg s))) (Score item) = true ->
  exists r,
    Service.doContentCheck s order visit content userID scene contextItems extraData
    = Ok r
    /\ Result r = ResultTypeReject
    /\ item ∈ Risks r.
Proof.
  intros ctx HT Hd Hout Hin Hscore.
  assert (Hitem : item ∈ detectedBy order ctx).
  { unfold detectedBy. apply list_elem_of_In, in_concat.
    exists (outputOf d ctx). split.
    - apply in_map_iff. exists (name, d). split; [reflexivity|].
      by apply list_elem_of_In.
    - unfold outputOf. rewrite Hout. by apply list_elem_of_In. }
  destruct (doContentCheck_rejects s order visit ctx item HT Hitem Hscore)
    as (r & Hr & Hres).
  exists r. split; [exact Hr|]. split; [exact Hres|].
  destruct (doContentCheck_risks s order visit content userID scene contextItems
              extraData) as (r' & Hr' & Hrisks).
  simpl in Hr. rewrite Hr in Hr'. injection Hr' as <-. by rewrite Hrisks.
Qed.

Lemma X19_item_at_threshold_rejects_witness :
  exists r,
    Service.doContentCheck exampleService exampleDetectors defaultRules
      "敏感词1" "u1" "post" [] ∅ = Ok r
    /\ Result r = ResultTypeReject.
Proof.
  destruct (X19_item_at_threshold_rejects exampleService exampleDetectors
              defaultRules "敏感词1" "u1" "post" [] ∅ "sensitive"
              (SensitiveWordDetector.detector
                 (SensitiveWordsImpl.ContainsWord [ "敏感词1" ]))
              [ {| Type_ := RiskTypeSensitiveWord; Score := F32.of_Z 80;
                   Description := "内容包含敏感词: " +:+ "敏感词1";
                   Details := {[ "word" := "敏感词1" ]} |} ]
              {| Type_ := RiskTypeSensitiveWord; Score := F32.of_Z 80;
                 Description := "内容包含敏感词: " +:+ "敏感词1";
                 Details := {[ "word" := "敏感词1" ]} |})
    as (r & Hr & Hres & _).
  - simpl. lia.
  - apply list_elem_of_here.
  - reflexivity.
  - apply list_elem_of_here.
  - by vm_compute.
  - exists r. split; [exact Hr|exact Hres].
Defined.

(** ** The rule-based fallback and the live analysis *)

Ltac sublist_tac :=
  repeat first [ apply sublist_nil_l | apply sublist_skip | apply sublist_cons ].

Ltac pick_last :=
  match goal with
  | |- exists item, item ∈ ?l /\ _ =>
      let x := eval cbn in (last l) in
      match x with
      | Some ?y => exists y
      end
  end;
  split; [repeat first [apply list_elem_of_here | apply list_elem_of_further]
         |reflexivity].


Lemma refusalInContext_existsb (ctx : CheckContext) :
  existsb NLPDetector.containsRejection (List.map ci_Content (ContextItems ctx)) = true
  <-> refusalInContext ctx.
Proof.
  unfold refusalInContext. rewrite existsb_exists. split.
  - intros (text & Hin & H). apply in_map_iff in Hin as (item & <- & Hin).
    exists item. by rewrite list_elem_of_In.
  - intros (item & Hin & Hr). exists (ci_Content item). split; [|done].
    apply in_map. by apply list_elem_of_In.
Qed.






Lemma NLP_live_rules (threshold : F32.t) (result : AnalysisResult)
    (ctx : CheckContext) (details : gmap string string) :
  let contextContent := List.map ci_Content (ContextItems ctx) in
  let risks :=
    if IsToxic result && F32.gtb (Risk result) threshold then
      [ {| Type_ := RiskTypeHarassment;
           Score := F32.mul (Risk result) (F32.of_Z 100);
           Description := Explanation result;
           Details := details |} ]
    else [] in
  let risks :=
    if negb (bool_decide (Intent result = ""))
       && negb (bool_decide (Intent result = "neutral"))
       && F32.gtb (Risk result) threshold
    then risks ++
         [ NewRiskItem (NLPDetector.getIntentRiskType (Intent result))
             (F32.mul (Risk result) (F32.of_Z 80))
             ("检测到" +:+ NLPDetector.getIntentDescription (Intent result) +:+ "意图") ]
    else risks in
  let risks :=
    if (0 <? Z.of_nat (length contextContent))
       && NLPDetector.hasContextualRisk result contextContent
    then risks ++
         [ NewRiskItem RiskTypeContextViolation
             (F32.mul (Risk result) (F32.of_Z 90))
             "检测到上下文相关的风险行为" ]
    else risks in
  liveRules threshold result ctx (risks, None).
Proof.
  cbv zeta. unfold liveRules, NLPDetector.hasContextualRisk.
  rewrite <- refusalInContext_existsb.
  assert (Hlen : existsb NLPDetector.containsRejection
                   (List.map ci_Content (ContextItems ctx)) = true ->
                 (0 <? Z.of_nat (length (List.map ci_Content (ContextItems ctx))))
                 = true).
  { destruct (ContextItems ctx); [discriminate|reflexivity]. }
  assert (Hty : NLPDetector.getIntentRiskType (Intent result)
                <> RiskTypeContextViolation).
  { unfold NLPDetector.getIntentRiskType. by destruct (decide _). }
  destruct (existsb NLPDetector.containsRejection _) eqn:Hctx;
    [rewrite (Hlen eq_refl)|rewrite andb_false_r]; clear Hlen;
    destruct (F32.gtb (Risk result) threshold);
    rewrite ?andb_true_r, ?andb_false_r;
    destruct (IsToxic result);
    destruct (negb (bool_decide (Intent result = ""))
              && negb (bool_decide (Intent result = "neutral")));
    cbn [fst snd app List.map NewRiskItem Type_ Score andb];
    (split; [reflexivity|]); (split; [sublist_tac|]);
    (split; [intros Hgt; try discriminate Hgt; by repeat constructor|]);
    (split; [intros (item & Hin & Ht)|intros H]);
    try discriminate H; try reflexivity;
    try (rewrite ?elem_of_cons, elem_of_nil in Hin;
         repeat destruct Hin as [Hin|Hin]; try subst item; simpl in Ht;
         try discriminate Ht; try congruence; try by destruct Hin);
    try pick_last.
Qed.

(** X21. While a detector of the NLP kind is live and the model answers,
    [Detect] sends one request, keeps the detector live and returns no
    error and at most three items, with scores 100, 80 and 90 times the
    risk of the answer. When that risk is not above the threshold only
    the context-violation item can be there, even if the answer is marked
    toxic. The context-violation item is there exactly when some context
    message, the sender's own included, holds a word of refusal; it does
    not depend on the risk. *)
Theorem X21_live_analysis (net : string -> res AnalysisResult) (ctx : CheckContext)
    (result : AnalysisResult) :
  let input :=
    NLPDetector.userInput (Content ctx) (List.map ci_Content (ContextItems ctx)) in
  net input = Ok result ->
  (forall d : NLPDetector.t,
     NLPDetector.fallbackMode d = false ->
     exists out, NLPDetector.Detect d net ctx = (d, out, [input])
                 /\ liveRules (NLPDetector.threshold d) result ctx out)
  /\ (forall d : SemanticNLPDetector.t,
        SemanticNLPDetector.fallbackMode d = false ->
        exists out, SemanticNLPDetector.Detect d net ctx = (d, out, [input])
                    /\ liveRules (SemanticNLPDetector.threshold d) result ctx out).
Proof.
  intros input Hnet. split.
  - intros d Hd. unfold NLPDetector.Detect, NLPDetector.analyzeContent.
    rewrite Hd. cbv zeta. fold input. rewrite Hnet.
    eexists. split; [reflexivity|]. apply NLP_live_rules.
  - intros d Hd.
    unfold SemanticNLPDetector.Detect, SemanticNLPDetector.analyzeContent.
    rewrite Hd. cbv zeta.
    change (SemanticNLPDetector.userInput (Content ctx)
              (List.map ci_Content (ContextItems ctx))) with input.
    rewrite Hnet. eexists. split; [reflexivity|].
    exact (NLP_live_rules (SemanticNLPDetector.threshold d) result ctx _).
Qed.

Lemma X21_live_analysis_witness :
  exists out,
    NLPDetector.Detect liveDetector (fun _ => Ok calmReply) crowdedContext
    = (liveDetector, out,
       [ NLPDetector.userInput (Content crowdedContext)
           (List.map ci_Content (ContextItems crowdedContext)) ])
    /\ liveRules (F32.of_decimal 6 1) calmReply crowdedContext out.
Proof.
  destruct (X21_live_analysis (fun _ => Ok calmReply) crowdedContext calmReply
              eq_refl) as [H _].
  exact (H liveDetector eq_refl).
Defined.

(** ** The AI detector *)



(** ** Starting the service *)

Ltac registry_lookup :=
  repeat first [ rewrite lookup_insert_eq
               | rewrite lookup_insert_ne by congruence
               | rewrite lookup_empty ].

Ltac registry_flag :=
  split;
  [ intros [? Hx]; first [ discriminate Hx | by split ]
  | intros [H1 H2]; first [ discriminate H1 | discriminate H2 | contradiction
                          | by eexists ] ].

Ltac registry_cases H :=
  repeat (apply lookup_insert_Some in H as [[<- H]|[_ H]]);
  try (rewrite lookup_empty in H; discriminate H).

(** X23. [NewContentCheckService] fails only when the rule engine cannot
    be made. A service it returns holds an initialized engine and always
    the four detectors [sensitive], [spam], [harassment] and [semantic];
    the sensitive-word detector works on the word store of the service.
    [nlp] and [semantic_nlp] are registered exactly when they are switched
    on and their connection probe succeeded, so a registered detector of
    the NLP kind starts live: one that the constructor put in fallback
    mode is dropped. [ai] is registered exactly when it is switched on and
    its URL is not empty. Nothing else is registered. *)
Theorem X23_registered_detectors (env : StartupEnv) (cfg : StartupConfig) :
  let engine :=
    RuleLoader.NewRuleEngine (se_rules env) (sc_RuleEngine_DefaultRulesPath cfg) in
  (forall err,
     engine = Returned (Err err) ->
     Startup.NewContentCheckService env cfg
     = Returned (Err (Errorf ("failed to initialize rule engine: "
                              +:+ errorString err))))
  /\ (forall ruleEngine,
        engine = Returned (Ok ruleEngine) ->
        exists svc, Startup.NewContentCheckService env cfg = Returned (Ok svc)
                    /\ st_ruleEngine svc = ruleEngine /\ st_cfg svc = cfg)
  /\ forall svc,
  Startup.NewContentCheckService env cfg = Returned (Ok svc) ->
  initialized (st_ruleEngine svc) = true
  /\ st_detectors svc !! "sensitive" = Some (RegSensitiveWord (st_sensitiveWords svc))
  /\ st_detectors svc !! "spam" = Some RegSpam
  /\ st_detectors svc !! "harassment" = Some RegHarassment
  /\ st_detectors svc !! "semantic"
     = Some (RegSemantic (sc_ContextHistorySize cfg) (F32.of_decimal 3 1))
  /\ (is_Some (st_detectors svc !! "nlp")
      <-> sc_NLPService_Enabled cfg = true /\ se_nlpProbe env = None)
  /\ (is_Some (st_detectors svc !! "semantic_nlp")
      <-> sc_NLPService_UseLocalLLM cfg = true /\ se_localLLMProbe env = None)
  /\ (is_Some (st_detectors svc !! "ai")
      <-> sc_UseMLModel cfg = true /\ sc_AIService_URL cfg <> "")
  /\ (forall name d, st_detectors svc !! name = Some (RegNLP d) ->
                     name = "nlp" /\ NLPDetector.fallbackMode d = false)
  /\ (forall name d, st_detectors svc !! name = Some (RegSemanticNLP d) ->
                     name = "semantic_nlp"
                     /\ SemanticNLPDetector.fallbackMode d = false)
  /\ (forall name, is_Some (st_detectors svc !! name) ->
                   name ∈ [ "sensitive"; "spam"; "harassment"; "semantic"; "nlp";
                            "ai"; "semantic_nlp" ]).
Proof.
  cbv zeta. split; [|split].
  { intros err H. unfold Startup.NewContentCheckService. by rewrite H. }
  { intros ruleEngine H. unfold Startup.NewContentCheckService. rewrite H.
    eexists. split; [reflexivity|]. by split. }
  intros svc. unfold Startup.NewContentCheckService.
  destruct (RuleLoader.NewRuleEngine _ _) as [|[ruleEngine|err]] eqn:Hengine;
    [discriminate| |discriminate].
  intros [= <-]. cbn [st_ruleEngine st_sensitiveWords st_detectors].
  assert (Hinit : initialized ruleEngine = true).
  { revert Hengine. unfold RuleLoader.NewRuleEngine, RuleLoader.loadRules. simpl.
    destruct (ioutil_ReadFile _ _) as [data|?]; [|congruence].
    destruct (json_UnmarshalRules _ data) as [ruleData|?]; [|congruence].
    destruct (RuleLoader.storeRules _ _); [|congruence].
    intros [= <-]. reflexivity. }
  split; [exact Hinit|]. clear Hengine Hinit.
  unfold NLPDetector.NewNLPDetector, AIDetector.NewAIDetector,
    SemanticNLPDetector.NewSemanticNLPDetector.
  assert (Hport : "http://localhost:" +:+ fmt.itoa (sc_NLPService_ServerPort cfg)
                  <> "") by done.
  destruct (decide (_ +:+ fmt.itoa _ = "")) as [|_]; [done|]. clear Hport.
  destruct (sc_NLPService_Enabled cfg), (se_nlpProbe env) as [nlpErr|],
    (sc_UseMLModel cfg), (decide (sc_AIService_URL cfg = "")) as [Hurl|Hurl],
    (sc_NLPService_UseLocalLLM cfg), (se_localLLMProbe env) as [llmErr|];
    cbv zeta iota beta.
  all: do 4 (split; [registry_lookup; reflexivity|]).
  all: do 3 (split; [registry_lookup; registry_flag|]).
  all: split; [intros name d H; registry_cases H; try discriminate H;
               injection H as <-; by split|].
  all: split; [intros name d H; registry_cases H; try discriminate H;
               injection H as <-; by split|].
  all: intros name [x H]; registry_cases H;
    repeat first [apply list_elem_of_here | apply list_elem_of_further].
Qed.

Lemma X23_registered_detectors_witness :
  exists svc,
    Startup.NewContentCheckService modelDown fullConfig = Returned (Ok svc)
    /\ is_Some (st_detectors svc !! "nlp")
    /\ st_detectors svc !! "semantic_nlp" = None.
Proof.
  assert (H : exists svc,
             Startup.NewContentCheckService modelDown fullConfig
             = Returned (Ok svc)).
  { eexists. reflexivity. }
  destruct H as [svc Hsvc]. exists svc. split; [exact Hsvc|].
  destruct (X23_registered_detectors modelDown fullConfig) as (_ & _ & Hreg).
  destruct (Hreg svc Hsvc) as (_ & _ & _ & _ & _ & Hnlp & Hllm & _).
  split.
  - apply Hnlp. by split.
  - destruct (st_detectors svc !! "semantic_nlp") eqn:Hl; [|reflexivity].
    assert (His : is_Some (Some r)) by eauto.
    apply Hllm in His as [_ Hprobe]. discriminate Hprobe.
Defined.

(** ** More detectors, no milder verdict *)

Lemma higher_geb (t m x : F32.t) :
  F32.geb m t = true -> F32.geb (higher m x) t = true.
Proof.
  unfold higher. destruct (F32.gtb x m) eqn:Hgt; [|done]. revert Hgt.
  unfold F32.geb, F32.leb, SFleb. f32_cases; order_cases.
Qed.

Lemma foldl_higher_geb (l : list F32.t) (t m : F32.t) :
  F32.geb m t = true -> F32.geb (foldl higher m l) t = true.
Proof.
  revert m. induction l as [|x l IH]; intros m Hm; simpl; [exact Hm|].
  by apply IH, higher_geb.
Qed.

Lemma band_monotone (T : Z) (m m' : F32.t) :
  (forall t, F32.geb m t = true -> F32.geb m' t = true) ->
  (severity (Service.band T m) <= severity (Service.band T m'))%nat.
Proof.
  intros Hmono. unfold Service.band. cbv zeta.
  destruct (F32.geb m (F32.of_Z T)) eqn:H1.
  { rewrite (Hmono _ H1). done. }
  destruct (F32.geb m (F32.mul (F32.of_Z T) (F32.of_decimal 7 1))) eqn:H2.
  { rewrite (Hmono _ H2). destruct (F32.geb m' (F32.of_Z T)); simpl; lia. }
  destruct (F32.geb m (F32.mul (F32.of_Z T) (F32.of_decimal 5 1))) eqn:H3.
  { rewrite (Hmono _ H3).
    destruct (F32.geb m' (F32.of_Z T)),
      (F32.geb m' (F32.mul (F32.of_Z T) (F32.of_decimal 7 1))); simpl; lia. }
  simpl. lia.
Qed.

Lemma detectedBy_app (ctx : CheckContext) (order more : list (string * Detector)) :
  detectedBy (order ++ more) ctx = detectedBy order ctx ++ detectedBy more ctx.
Proof. unfold detectedBy. by rewrite map_app, concat_app. Qed.

(** X24. Registering more detectors never makes a verdict milder. When
    the detectors visited in one run are those of another run and some
    more, in whatever order, every item of the smaller run is reported in
    the larger one, the score is at least as high and the verdict at
    least as severe; a content rejected by the smaller run is rejected by
    the larger. *)
Theorem X24_more_detectors_no_milder (s : ContentCheckService)
    (order more order' : list (string * Detector)) (visit visit' : list Rule)
    (content userID scene : string) (contextItems : list ContextItem)
    (extraData : gmap string string) :
  order ++ more ≡ₚ order' ->
  exists r r',
    Service.doContentCheck s order visit content userID scene contextItems extraData
    = Ok r
    /\ Service.doContentCheck s order' visit' content userID scene contextItems
         extraData = Ok r'
    /\ (forall item, item ∈ Risks r -> item ∈ Risks r')
    /\ F32.gtb (RiskScore r) (RiskScore r') = false
    /\ (severity (Result r) <= severity (Result r'))%nat
    /\ (Result r = ResultTypeReject -> Result r' = ResultTypeReject).
Proof.
  intros Hp.
  set (ctx := {| Content := content; UserID := userID; Scene := scene;
                 ContextItems := contextItems; ExtraData := extraData |}).
  do 2 eexists. split; [apply doContentCheck_banded|].
  split; [apply doContentCheck_banded|]. fold ctx. simpl.
  rewrite !runDetectors_risks, !runDetectors_max.
  assert (Hitems : detectedBy order' ctx ≡ₚ detectedBy order ctx ++ detectedBy more ctx).
  { rewrite <- detectedBy_app. apply detectedBy_Permutation. by symmetry. }
  assert (Hmax : foldl higher F32.zero (List.map Score (detectedBy order' ctx))
                 = foldl higher
                     (foldl higher F32.zero (List.map Score (detectedBy order ctx)))
                     (List.map Score (detectedBy more ctx))).
  { rewrite <- foldl_app, <- map_app.
    apply foldl_higher_Permutation; [exact I|]. by apply Permutation_map. }
  rewrite Hmax.
  set (m := foldl higher F32.zero (List.map Score (detectedBy order ctx))).
  assert (Hm : fromZero m) by (by apply foldl_higher_fromZero).
  assert (Hsev : (severity (Service.band (RiskScoreThreshold (cfg s)) m)
                  <= severity
                       (Service.band (RiskScoreThreshold (cfg s))
                          (foldl higher m (List.map Score (detectedBy more ctx)))))%nat).
  { apply band_monotone. intros t. apply foldl_higher_geb. }
  split; [|split; [|split]].
  - intros item Hin. rewrite Hitems. apply elem_of_app. by left.
  - apply foldl_higher_keeps_below; [exact Hm|apply gtb_irrefl].
  - exact Hsev.
  - intros Hrej. rewrite Hrej in Hsev. simpl in Hsev.
    destruct (Service.band _ (foldl higher m _)); simpl in Hsev; try lia. done.
Qed.

Lemma X24_more_detectors_no_milder_witness :
  [ ("harassment", HarassmentDetector.detector) ]
  ++ [ ("sensitive",
        SensitiveWordDetector.detector (SensitiveWordsImpl.ContainsWord [ "敏感词1" ])) ]
  ≡ₚ exampleDetectors
  /\ exists r r',
       Service.doContentCheck exampleService
         [ ("harassment", HarassmentDetector.detector) ] defaultRules
         "敏感词1骚扰" "u1" "chat" [] ∅ = Ok r
       /\ Service.doContentCheck exampleService exampleDetectors defaultRules
            "敏感词1骚扰" "u1" "chat" [] ∅ = Ok r'
       /\ (severity (Result r) <= severity (Result r'))%nat.
Proof.
  assert (Hp : [ ("harassment", HarassmentDetector.detector) ]
               ++ [ ("sensitive",
                     SensitiveWordDetector.detector
                       (SensitiveWordsImpl.ContainsWord [ "敏感词1" ])) ]
               ≡ₚ exampleDetectors) by apply perm_swap.
  split; [exact Hp|].
  destruct (X24_more_detectors_no_milder exampleService _ _ _ defaultRules
              defaultRules "敏感词1骚扰" "u1" "chat" [] ∅ Hp)
    as (r & r' & Hr & Hr' & _ & _ & Hsev & _).
  exists r, r'. done.
Defined.

(** ** The gRPC and HTTP servers *)

Lemma BatchCheckContent_returns {L : Library} (s : ContentCheckService)
    (envs : nat -> CallEnv) (sched : list nat) (totalElapsed : Z)
    (w : Store L) (items : list CheckRequest) (batchID : string) :
  items <> [] -> 0 <= BatchCheckMaxSize (cfg s) ->
  exists w' results err,
    Service.BatchCheckContent s envs sched totalElapsed w items batchID
    = (w', BatchReturn (Some {| BatchID := batchID; Results := results;
                                TotalCostTime := totalElapsed |}) err)
    /\ length results
       = Nat.min (length items) (Z.to_nat (BatchCheckMaxSize (cfg s))).
Proof.
  intros Hne Hpos. unfold Service.BatchCheckContent.
  replace (Z.of_nat (length items) =? 0) with false
    by (symmetry; apply Z.eqb_neq; destruct items; [done|simpl; lia]).
  replace (BatchCheckMaxSize (cfg s) <? 0) with false
    by (symmetry; apply Z.ltb_ge; lia).
  rewrite andb_false_r.
  destruct (Service.runTasks s envs (Service.truncate s items) sched w)
    as [w' received].
  destruct (Service.collect received) as [resultMap lastError].
  eexists. eexists. eexists. split; [reflexivity|].
  unfold Service.assemble. rewrite length_map, length_seq.
  unfold Service.truncate.
  destruct (BatchCheckMaxSize (cfg s) <? Z.of_nat (length items)) eqn:Hlt.
  - apply Z.ltb_lt in Hlt. rewrite length_take. lia.
  - apply Z.ltb_ge in Hlt. lia.
Qed.

(** X25. Through gRPC a single check has two outcomes only: the status
    InvalidArgument, exactly when the content is empty and before the
    service is called, or a response built from the verdict of the
    service. The status Internal is never returned by [CheckContent] or
    [CheckContentWithContext]. The response carries the verdict under the
    protobuf name that matches it, one protobuf risk per risk item in the
    same order, and the other fields unchanged. *)
Theorem X25_grpc_single_check {L : Library} (s : ContentCheckService)
    (env : CallEnv) (w : Store L) (req : pb.CheckContentRequest)
    (reqc : pb.CheckContentWithContextRequest) :
  let out := GRPCServer.CheckContent s env w req in
  let outc := GRPCServer.CheckContentWithContext s env reqc in
  (snd out = inl (InvalidArgument "content cannot be empty")
   <-> pb.rq_Content req = "")
  /\ (pb.rq_Content req = "" -> fst out = w)
  /\ (forall msg, snd out <> inl (Internal msg))
  /\ (pb.rq_Content req <> "" ->
      exists r,
        Service.CheckContent s env w (pb.rq_Content req) (pb.rq_UserId req)
          (pb.rq_Scene req) (pb.rq_ExtraData req) = (fst out, Ok r)
        /\ snd out = inr (GRPCServer.convertToProtoResponse r))
  /\ (outc = inl (InvalidArgument "content cannot be empty")
      <-> pb.rc_Content reqc = "")
  /\ (forall msg, outc <> inl (Internal msg))
  /\ (forall r : CheckResult,
        let response := GRPCServer.convertToProtoResponse r in
        pbResultName (pb.rp_Result response) = Some (resultName (Result r))
        /\ List.map pb.ri_Score (pb.rp_Risks response) = List.map Score (Risks r)
        /\ List.map pb.ri_Description (pb.rp_Risks response)
           = List.map Description (Risks r)
        /\ List.map pb.ri_Type (pb.rp_Risks response)
           = List.map (fun risk => Z.of_nat (RiskType_value (Type_ risk))) (Risks r)
        /\ pb.rp_RiskScore response = RiskScore r
        /\ pb.rp_RequestId response = RequestID r
        /\ pb.rp_Suggestion response = Suggestion r
        /\ pb.rp_CostTime response = CostTime r
        /\ pb.rp_Extra response = Extra r).
Proof.
  cbv zeta. unfold GRPCServer.CheckContent, GRPCServer.CheckContentWithContext.
  split; [|split; [|split; [|split; [|split; [|split]]]]].
  - destruct (decide (pb.rq_Content req = "")) as [Hc|Hc]; [done|]. simpl.
    destruct (Service.CheckContent _ _ _ _ _ _ _) as [w' [r|e]]; simpl;
      split; done.
  - intros Hc. by destruct (decide (pb.rq_Content req = "")).
  - intros msg. destruct (decide (pb.rq_Content req = "")) as [Hc|Hc]; [done|].
    destruct (Service.CheckContent _ _ _ _ _ _ _) as [w' [r|e]] eqn:Hcall; [done|].
    exfalso. apply Hc.
    assert (He : (Service.CheckContent s env w (pb.rq_Content req) (pb.rq_UserId req)
                    (pb.rq_Scene req) (pb.rq_ExtraData req)).2 = Err e)
      by (by rewrite Hcall).
    by apply CheckContent_error in He as [? _].
  - intros Hc. destruct (decide (pb.rq_Content req = "")) as [|_]; [done|].
    destruct (Service.CheckContent _ _ _ _ _ _ _) as [w' [r|e]] eqn:Hcall.
    + by exists r.
    + exfalso. apply Hc.
      assert (He : (Service.CheckContent s env w (pb.rq_Content req)
                      (pb.rq_UserId req) (pb.rq_Scene req)
                      (pb.rq_ExtraData req)).2 = Err e)
        by (by rewrite Hcall).
      by apply CheckContent_error in He as [? _].
  - destruct (decide (pb.rc_Content reqc = "")) as [Hc|Hc]; [done|].
    unfold Service.CheckContentWithContext.
    destruct (decide (pb.rc_Content reqc = "")) as [|_]; [done|].
    rewrite doContentCheck_banded. split; done.
  - intros msg. destruct (decide (pb.rc_Content reqc = "")) as [Hc|Hc]; [done|].
    unfold Service.CheckContentWithContext.
    destruct (decide (pb.rc_Content reqc = "")) as [|_]; [done|].
    by rewrite doContentCheck_banded.
  - intros r. cbv zeta. unfold GRPCServer.convertToProtoResponse. simpl.
    rewrite !map_map. simpl. by destruct (Result r).
Qed.

Lemma X25_grpc_single_check_witness :
  pb.rq_Content helloRequest <> ""
  /\ exists r,
       snd (GRPCServer.CheckContent (L := plainLibrary) exampleService
              (exampleEnv 1000) ∅ helloRequest)
       = inr (GRPCServer.convertToProtoResponse r).
Proof.
  assert (Hc : pb.rq_Content helloRequest <> "") by done.
  split; [exact Hc|].
  destruct (X25_grpc_single_check (L := plainLibrary) exampleService
              (exampleEnv 1000) ∅ helloRequest
              {| pb.rc_Content := ""; pb.rc_UserId := ""; pb.rc_Scene := "";
                 pb.rc_RequestId := ""; pb.rc_ContextItems := [];
                 pb.rc_ExtraData := ∅ |})
    as (_ & _ & _ & H & _).
  destruct (H Hc) as (r & _ & Hout). by exists r.
Defined.

Lemma copyItems_all (items : list HTTPCheckRequest) :
  exists copied,
    HTTPServer.copyItems (List.map Some items) = Some copied
    /\ length copied = length items
    /\ List.map req_Content copied = List.map hq_Content items.
Proof.
  induction items as [|item items IH]; simpl.
  - by exists [].
  - destruct IH as (copied & Hc & Hlen & Hcontent). rewrite Hc. eexists. split; [reflexivity|]. simpl. by rewrite Hlen, Hcontent.
Qed.

Lemma copyItems_nil_entry (before : list HTTPCheckRequest)
    (after : list (option HTTPCheckRequest)) :
  HTTPServer.copyItems (List.map Some before ++ None :: after) = None.
Proof.
  induction before as [|item before IH]; simpl; [reflexivity|]. by rewrite IH.
Qed.

(** X26. The batch handlers. Through gRPC an empty batch is answered with
    InvalidArgument, and a batch with items under a maximum that is not
    negative always gets a response with one result for each of the first
    [max] items and no error, whatever happened to the single items. The
    HTTP handler answers such a batch with status 200 and the same number
    of results, under the batch id of the request or, when that is empty,
    under [batch_] and the time stamp. But on a request that binds with an
    empty item list the HTTP handler reads the batch id through the nil
    result of the service and panics, and so it does on a null entry in
    the list. *)
Theorem X26_batch_handlers {L : Library} (s : ContentCheckService)
    (envs : nat -> CallEnv) (sched : list nat) (totalElapsed : Z) (stamp : string)
    (w : Store L) :
  let M := BatchCheckMaxSize (cfg s) in
  (forall req,
     pb.rb_Items req = [] ->
     GRPCServer.BatchCheckContent s envs sched totalElapsed w req
     = (w, Returned (inl (InvalidArgument "items cannot be empty"))))
  /\ (forall req,
        pb.rb_Items req <> [] -> 0 <= M ->
        exists w' response,
          GRPCServer.BatchCheckContent s envs sched totalElapsed w req
          = (w', Returned (inr response))
          /\ length (pb.rp_Results response)
             = Nat.min (length (pb.rb_Items req)) (Z.to_nat M)
          /\ pb.rp_BatchId response = pb.rb_BatchId req
          /\ pb.rp_TotalCostTime response = totalElapsed)
  /\ (forall batchID,
        HTTPServer.BatchCheckContent s envs sched totalElapsed stamp w
          (Ok {| hb_Items := []; hb_BatchID := batchID |})
        = (w, Panicked))
  /\ (forall before after batchID,
        HTTPServer.BatchCheckContent s envs sched totalElapsed stamp w
          (Ok {| hb_Items := List.map Some before ++ None :: after;
                 hb_BatchID := batchID |})
        = (w, Panicked))
  /\ (forall items batchID,
        items <> [] -> 0 <= M ->
        exists w' results err,
          HTTPServer.BatchCheckContent s envs sched totalElapsed stamp w
            (Ok {| hb_Items := List.map Some items; hb_BatchID := batchID |})
          = (w', Returned
                   {| http_status := 200;
                      http_body :=
                        BatchBody (if decide (batchID = "") then "batch_" +:+ stamp
                                   else batchID)
                          results totalElapsed err |})
          /\ length results = Nat.min (length items) (Z.to_nat M)).
Proof.
  cbv zeta. split; [|split; [|split; [|split]]].
  - intros req Hreq. unfold GRPCServer.BatchCheckContent. by rewrite Hreq.
  - intros req Hne HM. unfold GRPCServer.BatchCheckContent.
    replace (Z.of_nat (length (pb.rb_Items req)) =? 0) with false
      by (symmetry; apply Z.eqb_neq; destruct (pb.rb_Items req); [done|simpl; lia]).
    match goal with
    | |- context [Service.BatchCheckContent s envs sched totalElapsed w ?its ?id] =>
        destruct (BatchCheckContent_returns s envs sched totalElapsed w its id)
          as (w' & results & err & Hcall & Hlen);
          [by destruct (pb.rb_Items req)|exact HM|]
    end.
    rewrite Hcall. eexists. eexists. split; [reflexivity|]. simpl.
    rewrite length_map, Hlen, length_map. done.
  - intros batchID. reflexivity.
  - intros before after batchID. unfold HTTPServer.BatchCheckContent. simpl.
    by rewrite copyItems_nil_entry.
  - intros items batchID Hne HM. unfold HTTPServer.BatchCheckContent. simpl.
    destruct (copyItems_all items) as (copied & Hc & Hlen & _). rewrite Hc.
    assert (Hcopied : copied <> []).
    { intros ->. destruct items; [done|discriminate Hlen]. }
    match goal with
    | |- context [Service.BatchCheckContent s envs sched totalElapsed w ?its ?id] =>
        destruct (BatchCheckContent_returns s envs sched totalElapsed w its id
                    Hcopied HM)
          as (w' & results & err & Hcall & Hres)
    end.
    rewrite Hcall. exists w', results, err. split; [reflexivity|].
    by rewrite Hres, Hlen.
Qed.

Lemma X26_batch_handlers_witness :
  exists w' results err,
    HTTPServer.BatchCheckContent (L := plainLibrary) exampleService
      (fun i => exampleEnv (1000 + Z.of_nat i)) [0; 1]%nat 7 "20240101120000" ∅
      (Ok twoItems)
    = (w', Returned {| http_status := 200;
                       http_body := BatchBody "batch_20240101120000" results 7 err |})
    /\ length results = 2%nat.
Proof.
  destruct (X26_batch_handlers (L := plainLibrary) exampleService
              (fun i => exampleEnv (1000 + Z.of_nat i)) [0; 1]%nat 7 "20240101120000" ∅)
    as (_ & _ & _ & _ & H).
  destruct (H [ {| hq_Content := "你好"; hq_UserID := "u1"; hq_Scene := "post";
                   hq_ExtraData := ∅ |};
                {| hq_Content := ""; hq_UserID := "u1"; hq_Scene := "post";
                   hq_ExtraData := ∅ |} ] "")
    as (w' & results & err & Hcall & Hlen); [done|simpl; lia|].
  exists w', results, err. split; [exact Hcall|exact Hlen].
Defined.

(** ** The semantic detector *)

Lemma scoreKeywords_fold (text : string) (keywords : list string)
    (score : F32.t) (matchedWords : list string) :
  foldl (fun acc keyword =>
           if strings.Contains text keyword
           then (F32.add (fst acc) (F32.of_decimal 2 1), snd acc ++ [keyword])
           else acc)
        (score, matchedWords) keywords
  = (Nat.iter (hits text keywords)
       (fun score => F32.add score (F32.of_decimal 2 1)) score,
     matchedWords ++ List.filter (fun keyword => strings.Contains text keyword) keywords).
Proof.
  revert score matchedWords. unfold hits.
  induction keywords as [|keyword keywords IH]; intros score matchedWords;
    cbn [foldl List.filter].
  - simpl. by rewrite app_nil_r.
  - destruct (strings.Contains text keyword); cbn [fst snd length].
    + rewrite IH, Nat.iter_succ_r, <- app_assoc. done.
    + apply IH.
Qed.

Lemma scoreKeywords_spec (text : string) (keywords : list string) :
  SemanticDetector.scoreKeywords text keywords
  = (addedScore (hits text keywords),
     List.filter (fun keyword => strings.Contains text keyword) keywords).
Proof. unfold SemanticDetector.scoreKeywords. by rewrite scoreKeywords_fold. Qed.

Lemma hits_le (text : string) (keywords : list string) :
  (hits text keywords <= length keywords)%nat.
Proof. unfold hits. apply List.filter_length_le. Qed.

Lemma addedScore_gtb (a b : nat) :
  (a <= 9)%nat -> (b <= 9)%nat ->
  F32.gtb (addedScore a) (addedScore b) = (b <? a)%nat.
Proof.
  intros Ha Hb.
  assert (H : forallb (fun a => forallb (fun b =>
                 Bool.eqb (F32.gtb (addedScore a) (addedScore b)) (b <? a)%nat)
                 (seq 0 10)) (seq 0 10) = true) by (by vm_compute).
  rewrite forallb_forall in H. specialize (H a). rewrite forallb_forall in H.
  apply Bool.eqb_prop, H; apply in_seq; lia.
Qed.

Lemma addedScore_ltb (k : nat) :
  (k <= 9)%nat -> F32.ltb (addedScore k) (F32.of_decimal 3 1) = (k <? 2)%nat.
Proof.
  intros Hk.
  assert (H : forallb (fun k =>
                 Bool.eqb (F32.ltb (addedScore k) (F32.of_decimal 3 1)) (k <? 2)%nat)
                 (seq 0 10) = true) by (by vm_compute).
  rewrite forallb_forall in H. apply Bool.eqb_prop, H, in_seq. lia.
Qed.

Lemma classify_fold (text : string) (order : list (string * list string)) :
  Forall (fun entry => (length (snd entry) <= 9)%nat) order ->
  forall (maxCategory maxDesc : string) (kmax : nat),
    (kmax <= 9)%nat ->
    exists c k ds,
      foldl (SemanticDetector.classifyStep text)
            (maxCategory, addedScore kmax, maxDesc) order
      = (c, addedScore k, ds)
      /\ (k <= 9)%nat /\ (kmax <= k)%nat
      /\ (forall entry, entry ∈ order -> (hits text (snd entry) <= k)%nat)
      /\ (k = kmax /\ c = maxCategory /\ ds = maxDesc
          \/ (kmax < k)%nat
             /\ exists entry, entry ∈ order /\ fst entry = c
                              /\ hits text (snd entry) = k).
Proof.
  induction order as [|entry order IH]; intros Hlen maxCategory maxDesc kmax Hk.
  - exists maxCategory, kmax, maxDesc. simpl. split; [reflexivity|].
    split; [lia|]. split; [lia|]. split; [|by left].
    intros entry Hin. by apply elem_of_nil in Hin.
  - apply Forall_cons in Hlen as [Hentry Hlen]. cbn [foldl].
    pose proof (hits_le text (snd entry)) as Hhits.
    unfold SemanticDetector.classifyStep at 2.
    rewrite scoreKeywords_spec, addedScore_gtb by lia.
    destruct (Nat.ltb_spec kmax (hits text (snd entry))) as [Hlt|Hge].
    + match goal with
      | |- context [foldl _ (fst entry, _, ?d) order] =>
          destruct (IH Hlen (fst entry) d (hits text (snd entry)))
            as (c & k & ds & Hfold & Hk9 & Hle & Hall & Hcase); [lia|]
      end.
      exists c, k, ds. split; [exact Hfold|]. split; [lia|]. split; [lia|].
      split.
      * intros e He. apply elem_of_cons in He as [->|He]; [lia|by apply Hall].
      * right. split; [lia|]. destruct Hcase as [(-> & -> & _)|[_ (e & He & Hc & Hh)]].
        -- exists entry. split; [apply list_elem_of_here|done].
        -- exists e. split; [by apply list_elem_of_further|done].
    + destruct (IH Hlen maxCategory maxDesc kmax Hk)
        as (c & k & ds & Hfold & Hk9 & Hle & Hall & Hcase).
      exists c, k, ds. split; [exact Hfold|]. split; [lia|]. split; [lia|].
      split.
      * intros e He. apply elem_of_cons in He as [->|He]; [lia|by apply Hall].
      * destruct Hcase as [?|[? (e & He & Hc & Hh)]]; [by left|].
        right. split; [lia|]. exists e. split; [by apply list_elem_of_further|done].
Qed.

Lemma classifyText_spec (order : list (string * list string)) (text : string) :
  order ≡ₚ SemanticDetector.categories ->
  exists k,
    (forall entry, entry ∈ SemanticDetector.categories ->
                   (hits text (snd entry) <= k)%nat)
    /\ ((k < 2)%nat
        /\ SemanticDetector.classifyText order text
           = {| SemanticDetector.category := "normal";
                SemanticDetector.confidence := F32.zero;
                SemanticDetector.description := "" |}
        \/ (2 <= k <= 9)%nat
           /\ exists entry,
                entry ∈ SemanticDetector.categories
                /\ hits text (snd entry) = k
                /\ SemanticDetector.category
                     (SemanticDetector.classifyText order text) = fst entry
                /\ SemanticDetector.confidence
                     (SemanticDetector.classifyText order text) = addedScore k).
Proof.
  intros Hp.
  assert (Hlen : Forall (fun entry => (length (snd entry) <= 9)%nat) order).
  { rewrite Hp. repeat constructor; simpl; lia. }
  destruct (classify_fold text order Hlen "" "" 0%nat)
    as (c & k & ds & Hfold & Hk9 & _ & Hall & Hcase); [lia|].
  exists k. split.
  { intros entry Hin. apply Hall. by rewrite Hp. }
  assert (Hres : SemanticDetector.classifyText order text
                 = if (k <? 2)%nat
                   then {| SemanticDetector.category := "normal";
                           SemanticDetector.confidence := F32.zero;
                           SemanticDetector.description := "" |}
                   else {| SemanticDetector.category := c;
                           SemanticDetector.confidence := addedScore k;
                           SemanticDetector.description := ds |}).
  { unfold SemanticDetector.classifyText.
    change F32.zero with (addedScore 0) at 1. rewrite Hfold.
    by rewrite addedScore_ltb by exact Hk9. }
  rewrite Hres. clear Hres.
  destruct (Nat.ltb_spec k 2) as [Hlt|Hge].
  - left. split; [exact Hlt|reflexivity].
  - right. split; [lia|].
    destruct Hcase as [(-> & _)|[_ (entry & Hin & Hc & Hh)]]; [lia|].
    exists entry. rewrite <- Hp. split; [done|]. split; [done|]. simpl.
    split; [by symmetry|reflexivity].
Qed.

(** X27. [classifyText] looks at the words of each category that occur in
    the text and never classifies on one word: the result is [normal],
    with confidence 0, exactly when no category has two or more of its
    keywords in the text. Otherwise the result is a category with the
    largest number of keywords in the text, whatever the order in which
    the map of categories is ranged over, and the confidence is the sum of
    that many steps of 0.2. *)
Theorem X27_classifyText_needs_two_words (order : list (string * list string))
    (text : string) :
  order ≡ₚ SemanticDetector.categories ->
  let result := SemanticDetector.classifyText order text in
  (SemanticDetector.category result = "normal"
   <-> forall entry, entry ∈ SemanticDetector.categories ->
                     (hits text (snd entry) <= 1)%nat)
  /\ (SemanticDetector.category result = "normal" ->
      SemanticDetector.confidence result = F32.zero
      /\ SemanticDetector.description result = "")
  /\ (SemanticDetector.category result <> "normal" ->
      exists entry,
        entry ∈ SemanticDetector.categories
        /\ SemanticDetector.category result = fst entry
        /\ (2 <= hits text (snd entry))%nat
        /\ SemanticDetector.confidence result = addedScore (hits text (snd entry))
        /\ forall other, other ∈ SemanticDetector.categories ->
                         (hits text (snd other) <= hits text (snd entry))%nat).
Proof.
  intros Hp. cbv zeta.
  assert (Hnames : forall entry, entry ∈ SemanticDetector.categories ->
                                 fst entry <> "normal").
  { intros entry Hin. unfold SemanticDetector.categories in Hin.
    rewrite !elem_of_cons, elem_of_nil in Hin.
    destruct Hin as [->|[->|[->|[->|[]]]]]; done. }
  destruct (classifyText_spec order text Hp)
    as (k & Hall & [[Hk Hres]|[Hk (entry & Hin & Hh & Hc & Hconf)]]).
  - rewrite Hres. simpl. split; [|split; [done|done]].
    split; [|done]. intros _ entry Hin. specialize (Hall entry Hin). lia.
  - split; [|split].
    + split.
      * intros Hn. rewrite Hc in Hn. by apply Hnames in Hin.
      * intros H1. specialize (H1 entry Hin). lia.
    + intros Hn. rewrite Hc in Hn. by apply Hnames in Hin.
    + intros _. exists entry. rewrite Hh. split; [done|]. split; [done|].
      split; [lia|]. split; [done|]. exact Hall.
Qed.

Lemma X27_classifyText_needs_two_words_witness :
  SemanticDetector.categories ≡ₚ SemanticDetector.categories
  /\ SemanticDetector.category
       (SemanticDetector.classifyText SemanticDetector.categories twoSpamWords)
     <> "normal".
Proof.
  assert (Hp : SemanticDetector.categories ≡ₚ SemanticDetector.categories)
    by reflexivity.
  split; [exact Hp|].
  destruct (X27_classifyText_needs_two_words SemanticDetector.categories
              twoSpamWords Hp) as [Hn _].
  intros Hn'. destruct Hn as [Hn _]. pose proof (Hn Hn') as Hnormal.
  specialize (Hnormal ("spam", [ "优惠"; "打折"; "促销"; "免费"; "赚钱"; "发财";
                                 "中奖"; "红包" ])).
  assert (Hin : ("spam", [ "优惠"; "打折"; "促销"; "免费"; "赚钱"; "发财";
                           "中奖"; "红包" ]) ∈ SemanticDetector.categories).
  { do 3 apply list_elem_of_further. apply list_elem_of_here. }
  apply Hnormal in Hin. vm_compute in Hin. lia.
Defined.

Lemma userMessageCount_fold (me u : string) (items outer : list ContextItem)
    (acc : gmap string Z) :
  foldl (fun m item =>
           if decide (ci_UserID item = me) then
             foldl (fun m otherItem =>
                      if decide (ci_UserID otherItem = me) then m
                      else SemanticDetector.increment m (ci_UserID otherItem))
                   m items
           else m)
        acc outer !! u
  = if decide (u = me) then acc !! u
    else
      let k := length (filter (fun item => ci_UserID item = me) outer) in
      let n := length (filter (fun item => ci_UserID item = u) items) in
      if decide (k * n = 0)%nat then acc !! u
      else Some (default 0 (acc !! u) + Z.of_nat (k * n)).
Proof.
  revert acc. induction outer as [|item outer IH]; intros acc; cbn [foldl].
  - destruct (decide (u = me)); reflexivity.
  - rewrite IH. clear IH. destruct (decide (u = me)) as [Hme|Hme].
    + destruct (decide (ci_UserID item = me)) as [Hi|Hi]; [|reflexivity].
      unfold SemanticDetector.increment. rewrite targetCounts_fold.
      by destruct (decide (u = me)).
    + cbv zeta. rewrite filter_cons.
      destruct (decide (ci_UserID item = me)) as [Hi|Hi]; [|reflexivity].
      unfold SemanticDetector.increment. rewrite targetCounts_fold.
      destruct (decide (u = me)) as [|_]; [done|]. cbv zeta. cbn [length].
      set (k := length (filter (fun item => ci_UserID item = me) outer)).
      set (n := length (filter (fun item => ci_UserID item = u) items)).
      destruct (decide (n = 0%nat)) as [Hn|Hn].
      * destruct (decide (k * n = 0)%nat), (decide (S k * n = 0)%nat); try lia.
        reflexivity.
      * destruct (decide (S k * n = 0)%nat); [lia|].
        destruct (decide (k * n = 0)%nat) as [Hk|Hk].
        -- f_equal. assert (k = 0)%nat by nia. subst k. lia.
        -- cbn [default]. unfold id. f_equal. lia.
Qed.

Lemma userMessageCount_lookup (ctx : CheckContext) (u : string) (c : Z) :
  SemanticDetector.userMessageCount ctx !! u = Some c
  <-> u <> UserID ctx
      /\ (messagesOf ctx (UserID ctx) * messagesOf ctx u <> 0)%nat
      /\ c = Z.of_nat (messagesOf ctx (UserID ctx) * messagesOf ctx u).
Proof.
  unfold SemanticDetector.userMessageCount, messagesOf.
  rewrite userMessageCount_fold, lookup_empty. cbv zeta.
  destruct (decide (u = UserID ctx)) as [|Hu]; [split; [done|tauto]|].
  destruct (decide (_ = 0%nat)) as [Hz|Hz]; [split; [done|tauto]|].
  simpl. split.
  - intros [= <-]. done.
  - intros (_ & _ & ->). done.
Qed.

Lemma otherUserReplyCount_default (ctx : CheckContext) (u : string) :
  u <> UserID ctx ->
  default 0 (SemanticDetector.otherUserReplyCount ctx !! u)
  = Z.of_nat (messagesOf ctx u).
Proof.
  intros Hu. unfold SemanticDetector.otherUserReplyCount, messagesOf.
  unfold SemanticDetector.increment. rewrite targetCounts_fold, lookup_empty.
  destruct (decide (u = UserID ctx)) as [|_]; [done|]. cbv zeta.
  destruct (decide (_ = 0%nat)) as [Hz|Hz]; simpl; [by rewrite Hz|lia].
Qed.

Lemma negativeLoop_shape (catOrder : nat -> list (string * list string))
    (currentUserID : string) (items : list ContextItem) (i : nat)
    (negativeResponses : Z) (risks : list RiskItem) :
  exists count extra,
    SemanticDetector.negativeLoop catOrder currentUserID items i negativeResponses
      risks = (count, risks ++ extra)
    /\ (extra = []
        \/ exists text,
             extra = [ NewRiskItem RiskTypeContextViolation (F32.of_Z 70) text ]).
Proof.
  revert i negativeResponses.
  induction items as [|item rest IH]; intros i negativeResponses; simpl.
  - exists negativeResponses, []. rewrite app_nil_r. by split; [|left].
  - destruct (negb _ && _); [|apply IH].
    destruct rest as [|next rest']; [apply IH|].
    destruct (bool_decide (ci_UserID next = currentUserID)); [|apply IH].
    destruct (_ || _); [|apply IH].
    eexists. eexists. split; [reflexivity|]. right. by eexists.
Qed.

Lemma conversation_parts (catOrder : nat -> list (string * list string))
    (userOrder : list (string * Z)) (ctx : CheckContext) (risks : list RiskItem) :
  (forall u c, (u, c) ∈ userOrder
               <-> SemanticDetector.userMessageCount ctx !! u = Some c) ->
  exists imbalance negative repeated,
    SemanticDetector.analyzeConversationPattern catOrder userOrder ctx risks
    = risks ++ imbalance ++ negative ++ repeated
    /\ (imbalance = []
        /\ ~ ((3 <= messagesOf ctx (UserID ctx))%nat
              /\ exists u, u <> UserID ctx /\ (1 <= messagesOf ctx u)%nat)
        \/ (3 <= messagesOf ctx (UserID ctx))%nat
           /\ exists u ratio,
                u <> UserID ctx /\ (1 <= messagesOf ctx u)%nat
                /\ imbalance
                   = [ {| Type_ := RiskTypeHarassment; Score := F32.of_Z 60;
                          Description := "检测到不平衡的对话模式，可能是骚扰";
                          Details := {[ "message_ratio" := ratio;
                                        "target_user" := u ]} |} ])
    /\ (negative = []
        \/ exists text,
             negative = [ NewRiskItem RiskTypeContextViolation (F32.of_Z 70) text ])
    /\ (repeated = []
        \/ exists count,
             repeated
             = [ {| Type_ := RiskTypeSuspiciousBehavior; Score := F32.of_Z 65;
                    Description := "检测到在多次负面回应后继续发送消息";
                    Details := {[ "negative_responses" := count ]} |} ]).
Proof.
  intros Horder. unfold SemanticDetector.analyzeConversationPattern.
  assert (Hmine : forall u, (messagesOf ctx u <= length (ContextItems ctx))%nat).
  { intros u. unfold messagesOf. apply length_filter. }
  destruct (Z.ltb_spec (Z.of_nat (length (ContextItems ctx))) 2) as [Hshort|Hlong].
  { exists [], [], []. rewrite !app_nil_r. split; [reflexivity|].
    split; [left; split; [reflexivity|]|by split; left].
    intros [H3 _]. specialize (Hmine (UserID ctx)). lia. }
  cbv zeta.
  assert (Hfind : forall kv, kv ∈ userOrder ->
             (default 0 (SemanticDetector.otherUserReplyCount ctx !! fst kv) * 2
              <? snd kv) && (2 <? snd kv) = true
             <-> (3 <= messagesOf ctx (UserID ctx))%nat).
  { intros [u c] Hin. apply Horder, userMessageCount_lookup in Hin
      as (Hu & Hnz & ->). simpl.
    rewrite otherUserReplyCount_default by done.
    rewrite andb_true_iff, !Z.ltb_lt, Nat2Z.inj_mul.
    assert (Ha : 1 <= Z.of_nat (messagesOf ctx (UserID ctx))) by nia.
    assert (Hb : 1 <= Z.of_nat (messagesOf ctx u)) by nia.
    assert (Hiff : (3 <= messagesOf ctx (UserID ctx))%nat
                   <-> 3 <= Z.of_nat (messagesOf ctx (UserID ctx))) by lia.
    rewrite Hiff. clear Hiff Hnz.
    revert Ha Hb. generalize (Z.of_nat (messagesOf ctx u)).
    generalize (Z.of_nat (messagesOf ctx (UserID ctx))).
    intros a b Ha Hb. split; [intros [H1 H2]|intros H3; split]; nia. }
  set (imbalance :=
         match List.find _ userOrder with
         | Some (otherUserID, msgCount) => risks ++ [ _ ]
         | None => risks
         end).
  assert (Himb : exists added,
             imbalance = risks ++ added
             /\ (added = []
                 /\ ~ ((3 <= messagesOf ctx (UserID ctx))%nat
                       /\ exists u, u <> UserID ctx /\ (1 <= messagesOf ctx u)%nat)
                 \/ (3 <= messagesOf ctx (UserID ctx))%nat
                    /\ exists u ratio,
                         u <> UserID ctx /\ (1 <= messagesOf ctx u)%nat
                         /\ added
                            = [ {| Type_ := RiskTypeHarassment; Score := F32.of_Z 60;
                                   Description := "检测到不平衡的对话模式，可能是骚扰";
                                   Details := {[ "message_ratio" := ratio;
                                                 "target_user" := u ]} |} ])).
  { subst imbalance. destruct (List.find _ userOrder) as [[u c]|] eqn:Hf.
    - apply List.find_some in Hf as [Hin Hcond]. apply list_elem_of_In in Hin.
      pose proof (proj1 (Hfind _ Hin) Hcond) as H3.
      apply Horder, userMessageCount_lookup in Hin as (Hu & Hnz & _).
      eexists. split; [reflexivity|]. right. split; [exact H3|].
      exists u. eexists. split; [exact Hu|]. split; [lia|reflexivity].
    - exists []. split; [by rewrite app_nil_r|]. left. split; [reflexivity|].
      intros [H3 (u & Hu & Hn)].
      assert (Hin : (u, Z.of_nat (messagesOf ctx (UserID ctx) * messagesOf ctx u))
                    ∈ userOrder).
      { apply Horder, userMessageCount_lookup. split; [done|]. split; [nia|done]. }
      pose proof (List.find_none _ _ Hf _ (proj1 (list_elem_of_In _ _) Hin)) as Hc.
      apply (Hfind _ Hin) in H3. cbv beta in Hc. congruence. }
  clearbody imbalance. destruct Himb as (added & -> & Hadded).
  destruct (negativeLoop_shape catOrder (UserID ctx) (ContextItems ctx) 0 0
              (risks ++ added)) as (count & extra & Hloop & Hextra).
  rewrite Hloop. exists added, extra.
  destruct (2 <=? count).
  - eexists. split; [by rewrite <- !app_assoc|]. split; [exact Hadded|].
    split; [exact Hextra|]. right. by eexists.
  - exists []. split; [by rewrite app_nil_r, <- !app_assoc|]. split; [exact Hadded|].
    split; [exact Hextra|]. by left.
Qed.

(** X28. The conversation rules add at most three items: one of type
    Harassment (score 60), one context violation (70) and one suspicious
    behaviour (65), in this order, after the items already found. The
    imbalance rule compares the messages counted for another user with
    twice that user's replies, but as the counts are made the replies
    cancel out: the Harassment item is added exactly when the sender has
    three or more messages in the context and some other user has at least
    one, and it names such a user. *)
Theorem X28_conversation_imbalance (catOrder : nat -> list (string * list string))
    (userOrder : list (string * Z)) (ctx : CheckContext) (risks : list RiskItem) :
  (forall u c, (u, c) ∈ userOrder
               <-> SemanticDetector.userMessageCount ctx !! u = Some c) ->
  exists added,
    SemanticDetector.analyzeConversationPattern catOrder userOrder ctx risks
    = risks ++ added
    /\ sublist (List.map (fun item => (Type_ item, Score item)) added)
         [ (RiskTypeHarassment, F32.of_Z 60);
           (RiskTypeContextViolation, F32.of_Z 70);
           (RiskTypeSuspiciousBehavior, F32.of_Z 65) ]
    /\ ((exists item, item ∈ added /\ Type_ item = RiskTypeHarassment)
        <-> (3 <= messagesOf ctx (UserID ctx))%nat
            /\ exists u, u <> UserID ctx /\ (1 <= messagesOf ctx u)%nat)
    /\ (forall item u,
          item ∈ added -> Details item !! "target_user" = Some u ->
          u <> UserID ctx /\ (1 <= messagesOf ctx u)%nat).
Proof.
  intros Horder.
  destruct (conversation_parts catOrder userOrder ctx risks Horder)
    as (imb & neg & rep & Hcall & Himb & Hneg & Hrep).
  exists (imb ++ neg ++ rep). split; [exact Hcall|].
  assert (Hn : Forall (fun item => Type_ item = RiskTypeContextViolation
                                   /\ Details item !! "target_user" = None) neg
               /\ sublist (List.map (fun item => (Type_ item, Score item)) neg)
                    [ (RiskTypeContextViolation, F32.of_Z 70) ]).
  { destruct Hneg as [->|[text ->]]; simpl.
    - split; [constructor|apply sublist_nil_l].
    - split; [by repeat constructor|reflexivity]. }
  assert (Hr : Forall (fun item => Type_ item = RiskTypeSuspiciousBehavior
                                   /\ Details item !! "target_user" = None) rep
               /\ sublist (List.map (fun item => (Type_ item, Score item)) rep)
                    [ (RiskTypeSuspiciousBehavior, F32.of_Z 65) ]).
  { destruct Hrep as [->|[count ->]]; simpl.
    - split; [constructor|apply sublist_nil_l].
    - split; [by repeat constructor|reflexivity]. }
  assert (Hi : Forall (fun item => Type_ item = RiskTypeHarassment
                                   /\ forall u, Details item !! "target_user" = Some u ->
                                                u <> UserID ctx
                                                /\ (1 <= messagesOf ctx u)%nat) imb
               /\ sublist (List.map (fun item => (Type_ item, Score item)) imb)
                    [ (RiskTypeHarassment, F32.of_Z 60) ]).
  { destruct Himb as [[-> _]|(_ & u & ratio & Hu & Hm & ->)]; simpl.
    - split; [constructor|apply sublist_nil_l].
    - split; [|reflexivity]. apply Forall_singleton. split; [reflexivity|].
      intros u'. simpl. rewrite lookup_insert_ne by done.
      rewrite lookup_singleton_eq. by intros [= <-]. }
  destruct Hn as [Hn Hns], Hr as [Hr Hrs], Hi as [Hi His].
  rewrite Forall_forall in Hn, Hr, Hi.
  split; [|split].
  - rewrite !map_app.
    apply (sublist_app _ [ (RiskTypeHarassment, F32.of_Z 60) ] _
             [ (RiskTypeContextViolation, F32.of_Z 70);
               (RiskTypeSuspiciousBehavior, F32.of_Z 65) ]); [exact His|].
    apply (sublist_app _ [ (RiskTypeContextViolation, F32.of_Z 70) ] _
             [ (RiskTypeSuspiciousBehavior, F32.of_Z 65) ]); [exact Hns|exact Hrs].
  - split.
    + intros (item & Hin & Ht). rewrite !elem_of_app in Hin.
      destruct Hin as [Hin|[Hin|Hin]].
      * destruct Himb as [[-> _]|(H3 & u & _ & Hu & Hm & _)];
          [by apply elem_of_nil in Hin|eauto].
      * apply Hn in Hin as [Ht' _]. congruence.
      * apply Hr in Hin as [Ht' _]. congruence.
    + intros Hcond. destruct Himb as [[_ Hnot]|(_ & u & ratio & _ & _ & ->)]; [done|].
      eexists. split; [rewrite !elem_of_app; left; apply list_elem_of_here
                      |reflexivity].
  - intros item u Hin Hd. rewrite !elem_of_app in Hin.
    destruct Hin as [Hin|[Hin|Hin]].
    + apply Hi in Hin as [_ Hsome]. by apply Hsome.
    + apply Hn in Hin as [_ Hnone]. congruence.
    + apply Hr in Hin as [_ Hnone]. congruence.
Qed.

Lemma X28_conversation_imbalance_witness :
  (forall u c, (u, c) ∈ [ ("u2", 3) ]
               <-> SemanticDetector.userMessageCount pressingContext !! u = Some c)
  /\ exists added,
       SemanticDetector.analyzeConversationPattern
         (fun _ => SemanticDetector.categories) [ ("u2", 3) ] pressingContext []
       = [] ++ added
       /\ exists item, item ∈ added /\ Type_ item = RiskTypeHarassment.
Proof.
  assert (Horder : forall u c,
             (u, c) ∈ [ ("u2", 3) ]
             <-> SemanticDetector.userMessageCount pressingContext !! u = Some c).
  { intros u c. rewrite list_elem_of_singleton, userMessageCount_lookup.
    unfold messagesOf. simpl. split.
    - intros [= -> ->]. split; [done|]. by vm_compute.
    - intros (Hu & Hnz & ->).
      rewrite !filter_cons, filter_nil in *. simpl in *.
      destruct (decide ("u1" = u)) as [|_]; [congruence|].
      destruct (decide ("u2" = u)) as [<-|_]; [reflexivity|].
      simpl in Hnz. lia. }
  split; [exact Horder|].
  destruct (X28_conversation_imbalance (fun _ => SemanticDetector.categories)
              [ ("u2", 3) ] pressingContext [] Horder)
    as (added & Hcall & _ & Hiff & _).
  exists added. split; [exact Hcall|]. apply Hiff.
  split; [by vm_compute|]. exists "u2". split; [done|]. by vm_compute.
Defined.

Lemma addedScore_above_threshold (k : nat) :
  (2 <= k <= 9)%nat -> F32.gtb (addedScore k) (F32.of_decimal 3 1) = true.
Proof.
  intros Hk.
  assert (H : forallb (fun k => F32.gtb (addedScore k) (F32.of_decimal 3 1))
                (seq 2 8) = true) by (by vm_compute).
  rewrite forallb_forall in H. apply H, in_seq. lia.
Qed.

Lemma patternBasedDetection_false (re : Regexp) (content : string)
    (risks : list RiskItem) :
  fst (SemanticDetector.patternBasedDetection re content risks) = false ->
  SemanticDetector.patternBasedDetection re content risks = (false, risks).
Proof.
  unfold SemanticDetector.patternBasedDetection.
  destruct (MatchString re SemanticDetector.insultPattern content); [done|].
  destruct (MatchString re SemanticDetector.threatPattern content); [done|].
  by destruct (_ && _).
Qed.

Lemma familyTermAnalysis_false (re : Regexp) (content : string)
    (contextItems : list ContextItem) (risks : list RiskItem) :
  fst (SemanticDetector.familyTermAnalysis re content contextItems risks) = false ->
  SemanticDetector.familyTermAnalysis re content contextItems risks = (false, risks).
Proof.
  unfold SemanticDetector.familyTermAnalysis.
  destruct (_ || _ || _); [|done].
  destruct (_ || _ || _); [done|].
  by destruct (existsb _ contextItems).
Qed.

(** X29. The semantic detector never returns an error and returns
    nothing for an empty content. A content matched by the insult pattern
    gives the single item of score 85, and one matched by the threat
    pattern (and not by the insult pattern) the single item of score 75:
    the context and the classification are then not looked at. When no
    pattern rule and no family-term rule fires, there is no context and
    the threshold is the 0.3 the service sets, the detector returns at
    most one item: none exactly when no category has two of its keywords
    in the content, and otherwise an item whose score is 100 times the
    confidence of the classification. *)
Theorem X29_semantic_detect (d : SemanticDetector.t) (re : Regexp)
    (catOrder : nat -> list (string * list string))
    (userOrder : list (string * Z)) (ctx : CheckContext) :
  let out := SemanticDetector.Detect d re catOrder userOrder ctx in
  let content := Content ctx in
  snd out = None
  /\ (content = "" -> fst out = [])
  /\ (content <> "" ->
      MatchString re SemanticDetector.insultPattern content = true ->
      fst out = [ NewRiskItem RiskTypeHarassment (F32.of_Z 85) "检测到直接侮辱性语言" ])
  /\ (content <> "" ->
      MatchString re SemanticDetector.insultPattern content = false ->
      MatchString re SemanticDetector.threatPattern content = true ->
      fst out = [ NewRiskItem RiskTypeHarassment (F32.of_Z 75) "检测到潜在威胁性语言" ])
  /\ (content <> "" ->
      fst (SemanticDetector.patternBasedDetection re content []) = false ->
      fst (SemanticDetector.familyTermAnalysis re content (ContextItems ctx) [])
      = false ->
      ContextItems ctx = [] ->
      SemanticDetector.threshold d = F32.of_decimal 3 1 ->
      catOrder 0%nat ≡ₚ SemanticDetector.categories ->
      (fst out = []
       <-> forall entry, entry ∈ SemanticDetector.categories ->
                         (hits content (snd entry) <= 1)%nat)
      /\ (fst out <> [] ->
          exists entry text,
            entry ∈ SemanticDetector.categories
            /\ (2 <= hits content (snd entry))%nat
            /\ fst out
               = [ NewRiskItem (SemanticDetector.getCategoryRiskType (fst entry))
                     (F32.mul (addedScore (hits content (snd entry))) (F32.of_Z 100))
                     text ])).
Proof.
  cbv zeta. unfold SemanticDetector.Detect.
  destruct (decide (Content ctx = "")) as [Hc|Hc].
  { simpl. repeat split; done. }
  cbv zeta. split; [|split; [done|split; [|split; [|]]]].
  - destruct (SemanticDetector.patternBasedDetection _ _ _) as [[] ?]; [done|].
    by destruct (SemanticDetector.familyTermAnalysis _ _ _ _) as [[] ?].
  - intros _ Hinsult. unfold SemanticDetector.patternBasedDetection.
    by rewrite Hinsult.
  - intros _ Hinsult Hthreat. unfold SemanticDetector.patternBasedDetection.
    by rewrite Hinsult, Hthreat.
  - intros _ Hpattern Hfamily Hnil Hthreshold Horder.
    rewrite (patternBasedDetection_false _ _ _ Hpattern).
    rewrite (familyTermAnalysis_false _ _ _ _ Hfamily).
    rewrite Hnil, Hthreshold. cbn [length Z.of_nat Z.ltb Z.compare fst].
    assert (Hnames : forall entry, entry ∈ SemanticDetector.categories ->
                                   fst entry <> "normal").
    { intros entry Hin. unfold SemanticDetector.categories in Hin.
      rewrite !elem_of_cons, elem_of_nil in Hin.
      destruct Hin as [->|[->|[->|[->|[]]]]]; done. }
    destruct (classifyText_spec (catOrder 0%nat) (Content ctx) Horder)
      as (k & Hall & [[Hk Hres]|[Hk (entry & Hin & Hh & Hcat & Hconf)]]).
    + rewrite Hres. simpl. split; [|done]. split; [|done].
      intros _ entry Hin. specialize (Hall entry Hin). lia.
    + rewrite Hcat, Hconf.
      rewrite (bool_decide_eq_false_2 _ (Hnames entry Hin)).
      rewrite addedScore_above_threshold by exact Hk. simpl. split.
      * split; [done|]. intros H1. specialize (H1 entry Hin). lia.
      * intros _. exists entry. eexists. split; [exact Hin|].
        split; [lia|]. by rewrite Hh.
Qed.

Lemma X29_semantic_detect_witness :
  exists entry text,
    entry ∈ SemanticDetector.categories
    /\ fst (SemanticDetector.Detect
              (SemanticDetector.NewSemanticDetector 5 (F32.of_decimal 3 1))
              matchesNothing (fun _ => SemanticDetector.categories) []
              (plainContext twoSpamWords))
       = [ NewRiskItem (SemanticDetector.getCategoryRiskType (fst entry))
             (F32.mul (addedScore (hits twoSpamWords (snd entry))) (F32.of_Z 100))
             text ].
Proof.
  destruct (X29_semantic_detect
              (SemanticDetector.NewSemanticDetector 5 (F32.of_decimal 3 1))
              matchesNothing (fun _ => SemanticDetector.categories) []
              (plainContext twoSpamWords)) as (_ & _ & _ & _ & H).
  destruct H as [_ H]; try done.
  destruct H as (entry & text & Hin & _ & Hout); [by vm_compute|].
  by exists entry, text.
Defined.
